(** * accountsclient: a shallow embedding of the Go client and its properties

    The client of the account service (package accountsclient / accountslib)
    is a set of methods on [Client], each of which builds an HTTP request,
    hands it to [c.HttpClient.Do] and interprets the response.  The methods
    are embedded as functions in a state-and-error monad [Go]: the state is
    the outside world (server, network, clock) together with the log of the
    requests issued so far, the error side is Go's [error] result.

    Functions of the Go standard library that the client calls but that are
    not re-implemented here (URL parsing, path cleaning, JSON decoding, the
    byte-level rendering of JSON, the clock) are fields of the class
    [GoLib]; every theorem holds for all of its instances. *)

From Stdlib Require Import String Ascii List ZArith NArith Bool Lia.
Import ListNotations.
Open Scope string_scope.
Open Scope Z_scope.

Set Implicit Arguments.

(* ================================================================== *)
(** ** Go values shared by all files of the package *)

(** [uuid.UUID] is [[16]byte]; it is read here as the big-endian number of
    its sixteen bytes, a natural number below 2^128. *)
Definition UUID := N.
Definition uuid_Nil : UUID := 0%N.

Definition hex_digit (d : N) : ascii :=
  nth (N.to_nat d)
      ["0"; "1"; "2"; "3"; "4"; "5"; "6"; "7";
       "8"; "9"; "a"; "b"; "c"; "d"; "e"; "f"]%char "0"%char.

(** The [digits] lowest hexadecimal digits of [v], most significant first. *)
Fixpoint hex_be (digits : nat) (v : N) : string :=
  match digits with
  | O => ""
  | S d => String (hex_digit ((v / 16 ^ N.of_nat d) mod 16)%N) (hex_be d v)
  end.

(** [UUID.String]: the form xxxxxxxx-xxxx-xxxx-xxxx-xxxxxxxxxxxx. *)
Definition UUID_String (u : UUID) : string :=
  let h := hex_be 32 u in
  substring 0 8 h ++ "-" ++ substring 8 4 h ++ "-" ++ substring 12 4 h
    ++ "-" ++ substring 16 4 h ++ "-" ++ substring 20 12 h.

(** [time.Time] and [time.Duration] in nanoseconds. *)
Definition Time := Z.
Definition Duration := Z.
Definition time_Hour : Duration := 3600 * 1000000000.
Definition Time_Add (t : Time) (d : Duration) : Time := t + d.
Definition Time_Before (t u : Time) : bool := t <? u.

(** Go's [error] values.  [fmt.Errorf] keeps its format and operands, so
    that what an error carries can be read off without rendering it. *)
Inductive fmtArg (E : Type) : Type :=
| ArgString (s : string)
| ArgInt (n : Z)
| ArgError (e : E).
Arguments ArgString {E} s.
Arguments ArgInt {E} n.
Arguments ArgError {E} e.

#[warnings="-register-all"]
Inductive error : Type :=
| errors_New (text : string)
| fmt_Errorf (format : string) (args : list (fmtArg error))
| lib_error (origin detail : string).

(** A Go result [(T, error)]: [inl v] is [(v, nil)], [inr e] is
    [(zero, e)]. *)
Definition result (A : Type) : Type := (A + error)%type.

(** [io.ReadAll] on a response body gives the bytes read and, when the
    stream broke, the error that ended the read. *)
Record ReadCloser : Type := {
  body_data : string;
  body_err  : option error
}.
Definition io_ReadAll (b : ReadCloser) : string * option error :=
  (body_data b, body_err b).

(** [net/url.URL], with the two fields the client assigns. *)
Record URL : Type := {
  url_base : string;
  Path     : string;
  RawQuery : string
}.
Definition set_Path (u : URL) (p : string) : URL :=
  {| url_base := url_base u; Path := p; RawQuery := RawQuery u |}.
Definition set_RawQuery (u : URL) (q : string) : URL :=
  {| url_base := url_base u; Path := Path u; RawQuery := q |}.

(** [url.Values], the entries in insertion order. *)
Definition Values := list (string * string).
Definition Values_Add (v : Values) (k x : string) : Values :=
  (v ++ [(k, x)])%list.
Definition Values_Set (v : Values) (k x : string) : Values :=
  (filter (fun p => negb (fst p =? k)%string) v ++ [(k, x)])%list.

(** [http.Request] and [http.Response]. *)
Record Request : Type := {
  Method : string;
  Target : string;
  Header : list (string * string);
  ReqBody : option string
}.

Record Response : Type := {
  StatusCode : Z;
  Status     : string;
  Body       : ReadCloser
}.

Definition http_StatusOK : Z := 200.
Definition http_StatusCreated : Z := 201.
Definition http_StatusNoContent : Z := 204.
Definition http_StatusNotFound : Z := 404.

(* ================================================================== *)
(** ** The Go library the client runs on *)

Class GoLib : Type := {
  (** everything outside the client: servers, network, clock *)
  World : Type;
  (** [time.Now] *)
  time_Now : World -> Time * World;
  (** [url.Parse], [URL.String], [URL.Query], [Values.Encode] *)
  url_Parse : string -> result URL;
  URL_String : URL -> string;
  URL_Query : URL -> Values;
  Values_Encode : Values -> string;
  (** [path.Join] *)
  path_Join : list string -> string;
  (** [textproto.CanonicalMIMEHeaderKey] *)
  CanonicalHeaderKey : string -> string;
  (** the byte-level rendering done by [encoding/json] *)
  json_quote : string -> string;
  (** [time.Time.MarshalJSON], without the quotes *)
  Time_MarshalJSON : Time -> result string;
  (** [base64.StdEncoding.EncodeToString] *)
  base64_Encode : string -> string;
  (** ozzo-validation's [is.URL] *)
  is_URL : string -> bool
}.

(** The [Client] struct; [HttpClient.Do] is a transition of the world. *)
Record Client `{GoLib} : Type := {
  BaseURL : string;
  Token : string;
  ApiKey : string;
  HttpClient : World -> Request -> result Response * World
}.

(* ================================================================== *)
(** ** The monad of client methods *)

Section Monad.
Context `{GoLib}.

Record State : Type := {
  world : World;
  sent  : list Request
}.

Definition Go (A : Type) : Type := State -> result A * State.

Definition ret {A} (a : A) : Go A := fun st => (inl a, st).
Definition fail {A} (e : error) : Go A := fun st => (inr e, st).
Definition bind {A B} (m : Go A) (k : A -> Go B) : Go B :=
  fun st =>
    match m st with
    | (inl a, st') => k a st'
    | (inr e, st') => (inr e, st')
    end.

(** [v, err := f(); if err != nil { return wrap(err) }] for a pure [f]. *)
Definition try_wrap {A} (r : result A) (wrap : error -> error) : Go A :=
  fun st => match r with inl a => (inl a, st) | inr e => (inr (wrap e), st) end.
Definition try {A} (r : result A) : Go A := try_wrap r (fun e => e).

(** [c.HttpClient.Do(req)]: the request is logged, the world answers. *)
Definition Do (c : Client) (req : Request) : Go Response :=
  fun st =>
    let (r, w) := HttpClient c (world st) req in
    (r, {| world := w; sent := (sent st ++ [req])%list |}).

(** [time.Now()] *)
Definition now : Go Time :=
  fun st =>
    let (t, w) := time_Now (world st) in
    (inl t, {| world := w; sent := sent st |}).

End Monad.

Notation "x <- m ;; k" := (bind m (fun x => k))
  (at level 61, m at next level, right associativity).
Notation "m ;;; k" := (bind m (fun _ => k))
  (at level 61, right associativity).

(* ================================================================== *)
(** ** encoding/json, as far as the client's structs need it *)

(** What [json.Marshal] produces, before it is rendered to bytes. *)
#[warnings="-register-all"]
Inductive JSON : Type :=
| JNull
| JString (s : string)
| JArray (items : list JSON)
| JObject (members : list (string * JSON)).

(** The Go values the client marshals, by their [reflect.Kind].  A struct
    is the list of its exported fields: Go name, [json] tag, value. *)
#[warnings="-register-all"]
Inductive GoValue : Type :=
| GString (s : string)
| GUUID (u : UUID)
| GTime (t : Time)
| GBytes (b : option string)
| GSlice (items : option (list GoValue))
| GPtr (target : option GoValue)
| GInterface (dynamic : option GoValue)
| GStruct (fields : list (string * string * GoValue)).

(** [reflect.ValueOf] for the struct types of the package. *)
Class Reflect (A : Type) : Type := reflect_ValueOf : A -> GoValue.

Fixpoint split_comma (s : string) : list string :=
  match s with
  | EmptyString => [""]
  | String c rest =>
      if (c =? ",")%char then "" :: split_comma rest
      else match split_comma rest with
           | h :: t => String c h :: t
           | [] => [String c ""]
           end
  end.

(** [parseTag]: the name before the first comma, the options after it. *)
Definition parseTag (tag : string) : string * list string :=
  match split_comma tag with
  | name :: opts => (name, opts)
  | [] => ("", [])
  end.

Definition tag_has (opts : list string) (o : string) : bool :=
  existsb (fun x => (x =? o)%string) opts.

(** [isEmptyValue]: strings, slices and arrays are empty when their length
    is 0, pointers and interfaces when nil; a [uuid.UUID] is an array of
    length 16, a [time.Time] a struct. *)
Definition isEmptyValue (v : GoValue) : bool :=
  match v with
  | GString s => (String.length s =? 0)%nat
  | GUUID _ => (16 =? 0)%nat
  | GTime _ => false
  | GBytes None => true
  | GBytes (Some b) => (String.length b =? 0)%nat
  | GSlice None => true
  | GSlice (Some l) => (List.length l =? 0)%nat
  | GPtr p => match p with None => true | Some _ => false end
  | GInterface d => match d with None => true | Some _ => false end
  | GStruct _ => false
  end.

Section Json.
Context `{GoLib}.

Fixpoint json_tree (v : GoValue) : result JSON :=
  match v with
  | GString s => inl (JString s)
  | GUUID u => inl (JString (UUID_String u))
  | GTime t =>
      match Time_MarshalJSON t with
      | inl s => inl (JString s)
      | inr e => inr e
      end
  | GBytes None => inl JNull
  | GBytes (Some b) => inl (JString (base64_Encode b))
  | GSlice None => inl JNull
  | GSlice (Some l) =>
      match
        (fix items (l : list GoValue) : result (list JSON) :=
           match l with
           | [] => inl []
           | x :: r =>
               match json_tree x with
               | inr e => inr e
               | inl j =>
                   match items r with
                   | inr e => inr e
                   | inl js => inl (j :: js)
                   end
               end
           end) l
      with
      | inl js => inl (JArray js)
      | inr e => inr e
      end
  | GPtr None => inl JNull
  | GPtr (Some x) => json_tree x
  | GInterface None => inl JNull
  | GInterface (Some x) => json_tree x
  | GStruct fs =>
      match
        (fix members (fs : list (string * string * GoValue))
           : result (list (string * JSON)) :=
           match fs with
           | [] => inl []
           | (goName, tag, fv) :: r =>
               if (tag =? "-")%string then members r
               else
                 let (name, opts) := parseTag tag in
                 if tag_has opts "omitempty" && isEmptyValue fv
                 then members r
                 else
                   match json_tree fv with
                   | inr e => inr e
                   | inl j =>
                       match members r with
                       | inr e => inr e
                       | inl ms =>
                           inl ((if (name =? "")%string then goName
                                 else name, j) :: ms)
                       end
                   end
           end) fs
      with
      | inl ms => inl (JObject ms)
      | inr e => inr e
      end
  end.

Definition join (sep : string) (l : list string) : string :=
  match l with
  | [] => ""
  | x :: r => fold_left (fun acc y => acc ++ sep ++ y) r x
  end.

Fixpoint json_encode (j : JSON) : string :=
  match j with
  | JNull => "null"
  | JString s => json_quote s
  | JArray l => "[" ++ join "," (map json_encode l) ++ "]"
  | JObject ms =>
      "{" ++ join ","
               (map (fun m => json_quote (fst m) ++ ":" ++ json_encode (snd m))
                    ms)
          ++ "}"
  end.

(** [json.Marshal] *)
Definition json_Marshal {A} `{Reflect A} (a : A) : result string :=
  match json_tree (reflect_ValueOf a) with
  | inl j => inl (json_encode j)
  | inr e => inr e
  end.

End Json.

(** [json.Unmarshal] into a value of type [A], and
    [json.NewDecoder(body).Decode] into one. *)
Class Decodable (A : Type) : Type := {
  json_Unmarshal : string -> result A;
  json_Decode : ReadCloser -> result A
}.

(* ================================================================== *)
(** ** net/http *)

Section Http.
Context `{GoLib}.

(** [http.NewRequest]: fails when the URL does not parse. *)
Definition http_NewRequest (method url : string) (body : option string)
  : result Request :=
  match url_Parse url with
  | inl _ => inl {| Method := method; Target := url; Header := [];
                    ReqBody := body |}
  | inr e => inr e
  end.

Definition with_Header (r : Request) (h : list (string * string)) : Request :=
  {| Method := Method r; Target := Target r; Header := h;
     ReqBody := ReqBody r |}.

(** [req.Header.Set] and [req.Header.Add] *)
Definition Header_Set (r : Request) (k v : string) : Request :=
  let ck := CanonicalHeaderKey k in
  with_Header r
    (filter (fun p => negb (fst p =? ck)%string) (Header r) ++ [(ck, v)])%list.
Definition Header_Add (r : Request) (k v : string) : Request :=
  with_Header r (Header r ++ [(CanonicalHeaderKey k, v)])%list.

(** [body, err := io.ReadAll(resp.Body); if err != nil { return err }] *)
Definition ReadAll (b : ReadCloser) : result string :=
  match snd (io_ReadAll b) with
  | None => inl (fst (io_ReadAll b))
  | Some e => inr e
  end.

End Http.

(* ================================================================== *)
(** ** accounts.go: the generic account service *)

(** [p != nil] for a pointer. *)
Definition not_nil {A} (p : option A) : bool :=
  match p with Some _ => true | None => false end.

Definition ptr_UUID (p : option UUID) : GoValue := GPtr (option_map GUUID p).

Module Account.
Record t : Type := {
  ID : UUID;
  UserID : option UUID;
  AgencyID : option UUID;
  CelebrityID : option UUID;
  BusinessID : option UUID;
  EnterpriseID : option UUID;
  GovernmentID : option UUID
}.
End Account.

Module AccountList.
Record t : Type := { Accounts : list Account.t }.
End AccountList.

Module CreateAccountInput.
Record t : Type := {
  UserID : option UUID;
  AgencyID : option UUID;
  CelebrityID : option UUID;
  BusinessID : option UUID;
  EnterpriseID : option UUID;
  GovernmentID : option UUID
}.

Definition GetAccountType (input : t) : string :=
  if not_nil (UserID input) then "user"
  else if not_nil (AgencyID input) then "agency"
  else if not_nil (CelebrityID input) then "celebrity"
  else if not_nil (BusinessID input) then "business"
  else if not_nil (EnterpriseID input) then "enterprise"
  else if not_nil (GovernmentID input) then "government"
  else "".

(** The six kind identifiers in the order of the struct's fields. *)
Definition identifiers (input : t) : list (string * option UUID) :=
  [("user", UserID input); ("agency", AgencyID input);
   ("celebrity", CelebrityID input); ("business", BusinessID input);
   ("enterprise", EnterpriseID input); ("government", GovernmentID input)].

#[global] Instance reflect : Reflect t := fun input =>
  GStruct [("UserID", "user_id", ptr_UUID (UserID input));
           ("AgencyID", "agencyId,omitempty", ptr_UUID (AgencyID input));
           ("CelebrityID", "celebrityId,omitempty",
            ptr_UUID (CelebrityID input));
           ("BusinessID", "businessId,omitempty",
            ptr_UUID (BusinessID input));
           ("EnterpriseID", "enterpriseId,omitempty",
            ptr_UUID (EnterpriseID input));
           ("GovernmentID", "governmentId,omitempty",
            ptr_UUID (GovernmentID input))].
End CreateAccountInput.

Module UpdateAccountInput.
Record t : Type := {
  UserID : option UUID;
  AgencyID : option UUID;
  CelebrityID : option UUID;
  BusinessID : option UUID;
  EnterpriseID : option UUID;
  GovernmentID : option UUID
}.

Definition GetAccountType (input : t) : string :=
  if not_nil (UserID input) then "user"
  else if not_nil (AgencyID input) then "agency"
  else if not_nil (CelebrityID input) then "celebrity"
  else if not_nil (BusinessID input) then "business"
  else if not_nil (EnterpriseID input) then "enterprise"
  else if not_nil (GovernmentID input) then "government"
  else "".

Definition identifiers (input : t) : list (string * option UUID) :=
  [("user", UserID input); ("agency", AgencyID input);
   ("celebrity", CelebrityID input); ("business", BusinessID input);
   ("enterprise", EnterpriseID input); ("government", GovernmentID input)].

#[global] Instance reflect : Reflect t := fun input =>
  GStruct [("UserID", "user_id", ptr_UUID (UserID input));
           ("AgencyID", "agencyId,omitempty", ptr_UUID (AgencyID input));
           ("CelebrityID", "celebrityId,omitempty",
            ptr_UUID (CelebrityID input));
           ("BusinessID", "businessId,omitempty",
            ptr_UUID (BusinessID input));
           ("EnterpriseID", "enterpriseId,omitempty",
            ptr_UUID (EnterpriseID input));
           ("GovernmentID", "governmentId,omitempty",
            ptr_UUID (GovernmentID input))].
End UpdateAccountInput.

Module SearchAccountInput.
Record t : Type := {
  UserID : option UUID;
  AgencyID : option UUID;
  CelebrityID : option UUID;
  BusinessID : option UUID;
  EnterpriseID : option UUID;
  GovernmentID : option UUID
}.

Definition GetAccountType (input : t) : string :=
  if not_nil (UserID input) then "user"
  else if not_nil (AgencyID input) then "agency"
  else if not_nil (CelebrityID input) then "celebrity"
  else if not_nil (BusinessID input) then "business"
  else if not_nil (EnterpriseID input) then "enterprise"
  else if not_nil (GovernmentID input) then "government"
  else "".

Definition identifiers (input : t) : list (string * option UUID) :=
  [("user", UserID input); ("agency", AgencyID input);
   ("celebrity", CelebrityID input); ("business", BusinessID input);
   ("enterprise", EnterpriseID input); ("government", GovernmentID input)].
End SearchAccountInput.

(** The slice literal of [DeleteAccount] and [ListAccounts]. *)
Definition accountTypes : list string :=
  ["user"; "agency"; "celebrity"; "business"; "enterprise"; "government"].

(** The error every caller of [GetAccountType] returns on [""]. *)
Definition KindUndetermined : error :=
  fmt_Errorf "could not determine the account type" [].
Definition AccountNotFound : error := fmt_Errorf "account not found" [].
Definition bad_response (resp : Response) : error :=
  fmt_Errorf "bad response from server: %s" [ArgString (Status resp)].
Definition unexpected_response (resp : Response) : error :=
  fmt_Errorf "unexpected response from server: %s" [ArgString (Status resp)].

Section Accounts.
Context `{GoLib}.
Context {dec_Account : Decodable Account.t}.
Context {dec_AccountList : Decodable AccountList.t}.
Context {dec_Accounts : Decodable (list (option Account.t))}.

Definition CreateAccount (c : Client) (input : CreateAccountInput.t)
  : Go Account.t :=
  url <- try (url_Parse (BaseURL c)) ;;
  let accountType := CreateAccountInput.GetAccountType input in
  if (accountType =? "")%string then fail KindUndetermined
  else
    let url := set_Path url (path_Join [Path url; accountType]) in
    requestBody <- try (json_Marshal input) ;;
    req <- try (http_NewRequest "POST" (URL_String url) (Some requestBody)) ;;
    let req := Header_Set req "Content-Type" "application/json" in
    let req := Header_Set req "Authorization" ("Bearer " ++ Token c) in
    resp <- Do c req ;;
    if negb (StatusCode resp =? http_StatusOK) then fail (bad_response resp)
    else
      body <- try (ReadAll (Body resp)) ;;
      account <- try (json_Unmarshal body) ;;
      ret account.

Definition UpdateAccount (c : Client) (accountID : UUID)
           (input : UpdateAccountInput.t) : Go Account.t :=
  url <- try (url_Parse (BaseURL c)) ;;
  let accountType := UpdateAccountInput.GetAccountType input in
  if (accountType =? "")%string then fail KindUndetermined
  else
    let url :=
      set_Path url (path_Join [Path url; accountType; UUID_String accountID])
    in
    requestBody <- try (json_Marshal input) ;;
    req <- try (http_NewRequest "PUT" (URL_String url) (Some requestBody)) ;;
    let req := Header_Set req "Content-Type" "application/json" in
    let req := Header_Set req "Authorization" ("Bearer " ++ Token c) in
    resp <- Do c req ;;
    if negb (StatusCode resp =? http_StatusOK) then fail (bad_response resp)
    else
      body <- try (ReadAll (Body resp)) ;;
      account <- try (json_Unmarshal body) ;;
      ret account.

Definition SearchAccounts (c : Client) (input : SearchAccountInput.t)
  : Go (list (option Account.t)) :=
  url <- try (url_Parse (BaseURL c)) ;;
  let accountType := SearchAccountInput.GetAccountType input in
  if (accountType =? "")%string then fail KindUndetermined
  else
    let url := set_Path url (path_Join [Path url; accountType; "search"]) in
    let params : Values := [] in
    let params :=
      match SearchAccountInput.UserID input with
      | Some id => Values_Add params "user_id" (UUID_String id)
      | None => params
      end in
    let params :=
      match SearchAccountInput.AgencyID input with
      | Some id => Values_Add params "agency_id" (UUID_String id)
      | None => params
      end in
    let url := set_RawQuery url (Values_Encode params) in
    req <- try (http_NewRequest "GET" (URL_String url) None) ;;
    let req := Header_Set req "Content-Type" "application/json" in
    let req := Header_Set req "Authorization" ("Bearer " ++ Token c) in
    resp <- Do c req ;;
    if negb (StatusCode resp =? http_StatusOK) then fail (bad_response resp)
    else
      body <- try (ReadAll (Body resp)) ;;
      accounts <- try (json_Unmarshal body) ;;
      ret accounts.

(** The request one iteration of [DeleteAccount]'s loop builds for
    [accountType]; both failures are returned as they are. *)
Definition DeleteAccount_request (c : Client) (accountID : UUID)
           (accountType : string) : result Request :=
  match url_Parse (BaseURL c) with
  | inr err => inr err
  | inl url =>
      let url :=
        set_Path url
                 (path_Join [Path url; accountType; UUID_String accountID]) in
      match http_NewRequest "DELETE" (URL_String url) None with
      | inr err => inr err
      | inl req =>
          let req := Header_Set req "Content-Type" "application/json" in
          inl (Header_Set req "Authorization" ("Bearer " ++ Token c))
      end
  end.

(** [for _, accountType := range accountTypes { ... }] of [DeleteAccount],
    followed by the return after the loop. *)
Fixpoint DeleteAccount_range (c : Client) (accountID : UUID)
         (types : list string) : Go unit :=
  match types with
  | [] => fail AccountNotFound
  | accountType :: rest =>
      req <- try (DeleteAccount_request c accountID accountType) ;;
      resp <- Do c req ;;
      if StatusCode resp =? http_StatusOK then ret tt
      else if negb (StatusCode resp =? http_StatusNotFound)
           then fail (unexpected_response resp)
           else DeleteAccount_range c accountID rest
  end.

Definition DeleteAccount (c : Client) (accountID : UUID) : Go unit :=
  DeleteAccount_range c accountID accountTypes.

(** The request one iteration of [ListAccounts]'s loop builds. *)
Definition ListAccounts_request (c : Client) (accountType : string)
  : result Request :=
  match url_Parse (BaseURL c) with
  | inr err => inr err
  | inl url =>
      let url := set_Path url (path_Join [Path url; accountType]) in
      match http_NewRequest "GET" (URL_String url) None with
      | inr err => inr err
      | inl req =>
          let req := Header_Set req "Content-Type" "application/json" in
          inl (Header_Set req "Authorization" ("Bearer " ++ Token c))
      end
  end.

(** One iteration of [ListAccounts]'s loop up to the decoded list; each of
    its failures is a [return nil, err] of the method. *)
Definition ListAccounts_fetch (c : Client) (accountType : string)
  : Go AccountList.t :=
  req <- try (ListAccounts_request c accountType) ;;
  resp <- Do c req ;;
  if negb (StatusCode resp =? http_StatusOK) then fail (bad_response resp)
  else
    body <- try (ReadAll (Body resp)) ;;
    accountList <- try (json_Unmarshal body) ;;
    ret accountList.

(** [ListAccounts] returns the Go pair [([]Account, error)]: the slice that
    is returned is part of the result also when the error is not nil. *)
Fixpoint ListAccounts_range (c : Client) (types : list string)
         (accounts : list Account.t) (st : State)
  : (list Account.t * option error) * State :=
  match types with
  | [] => ((accounts, None), st)
  | accountType :: rest =>
      match ListAccounts_fetch c accountType st with
      | (inr err, st') => (([], Some err), st')
      | (inl accountList, st') =>
          ListAccounts_range c rest
            (accounts ++ AccountList.Accounts accountList)%list st'
      end
  end.

Definition ListAccounts (c : Client) (st : State)
  : (list Account.t * option error) * State :=
  ListAccounts_range c accountTypes [] st.

End Accounts.

(* ================================================================== *)
(** ** The delete methods of the kind-specific files *)

Section Wrap.
Context `{GoLib}.

(** [v, err := m(); if err != nil { return wrap(err) }] *)
Definition wrap_err {A} (m : Go A) (wrap : error -> error) : Go A :=
  fun st =>
    match m st with
    | (inl a, st') => (inl a, st')
    | (inr e, st') => (inr (wrap e), st')
    end.

End Wrap.

(** [fmt.Errorf(format, err)] with one error operand. *)
Definition wrapf (format : string) : error -> error :=
  fun err => fmt_Errorf format [ArgError err].

(** [fmt.Errorf("unexpected status code: got %v, body: %s", ...)], the
    message shared by the token, permission and service-account files. *)
Definition unexpected_status_code (res : Response) : error :=
  fmt_Errorf "unexpected status code: got %v, body: %s"
             [ArgInt (StatusCode res);
              ArgString (fst (io_ReadAll (Body res)))].

Module CreateCelebrityAccountResponse.
Record t : Type := {
  CelebrityID : UUID;
  Status : string;
  Message : string
}.
End CreateCelebrityAccountResponse.

Module AccountLinkRequest.
Record t : Type := {
  UserID : UUID;
  AccountType : string;
  AccountID : UUID
}.
End AccountLinkRequest.

Section Deletes.
Context `{GoLib}.
Context {dec_CelebrityResponse : Decodable CreateCelebrityAccountResponse.t}.

(** agency.go *)
Definition DeleteAgencyAccount (c : Client) (agencyID : UUID) : Go unit :=
  requestURL <- try_wrap (url_Parse (BaseURL c))
                         (wrapf "error parsing base URL: %w") ;;
  let requestURL :=
    set_Path requestURL
      (path_Join [Path requestURL; "/api/agencies/" ++ UUID_String agencyID])
  in
  req <- try_wrap (http_NewRequest "DELETE" (URL_String requestURL) None)
                  (wrapf "error creating new request: %w") ;;
  let req := Header_Set req "Authorization" ("Bearer " ++ Token c) in
  let req := Header_Set req "X-Api-Key" (ApiKey c) in
  resp <- wrap_err (Do c req) (wrapf "error sending request: %w") ;;
  if (StatusCode resp <? 200) || (StatusCode resp >=? 300) then
    let bodyBytes := fst (io_ReadAll (Body resp)) in
    fail (fmt_Errorf "non-2XX status code: %d. Response body: %s"
                     [ArgInt (StatusCode resp); ArgString bodyBytes])
  else ret tt.

(** business (unnamed source file) *)
Definition DeleteBusinessAccount (c : Client) (businessID : UUID) : Go unit :=
  u <- try_wrap (url_Parse (BaseURL c)) (wrapf "invalid base URL: %v") ;;
  let u := set_Path u (path_Join [Path u; "business"; UUID_String businessID])
  in
  req <- try_wrap (http_NewRequest "DELETE" (URL_String u) None)
                  (wrapf "could not create HTTP request: %v") ;;
  let req :=
    if negb (Token c =? "")%string
    then Header_Add req "Authorization" ("Bearer " ++ Token c) else req in
  let req :=
    if negb (ApiKey c =? "")%string
    then Header_Add req "X-Api-Key" (ApiKey c) else req in
  resp <- wrap_err (Do c req) (wrapf "could not send HTTP request: %v") ;;
  if negb (StatusCode resp =? http_StatusOK) then
    fail (fmt_Errorf "unexpected HTTP status: %s" [ArgString (Status resp)])
  else ret tt.

(** celebrity.go *)
Definition DeleteCelebrityAccount (c : Client) (userID celebrityID : UUID)
  : Go unit :=
  u <- try (url_Parse (BaseURL c)) ;;
  let u := set_Path u (path_Join [Path u; "celebrity_account"]) in
  let q := URL_Query u in
  let q := Values_Set q "userID" (UUID_String userID) in
  let q := Values_Set q "celebrityID" (UUID_String celebrityID) in
  let u := set_RawQuery u (Values_Encode q) in
  req <- try (http_NewRequest "DELETE" (URL_String u) None) ;;
  let req := Header_Set req "Authorization" ("Bearer " ++ Token c) in
  resp <- Do c req ;;
  if negb (StatusCode resp =? http_StatusOK) then
    let body := fst (io_ReadAll (Body resp)) in
    fail (fmt_Errorf "could not delete celebrity account: %v, %s"
                     [ArgString (Status resp); ArgString body])
  else
    response <- try_wrap (json_Decode (Body resp))
                         (wrapf "could not parse response: %v") ;;
    if negb (CreateCelebrityAccountResponse.Status response =? "success")%string
    then fail (fmt_Errorf "failed to delete celebrity account: %s"
                 [ArgString (CreateCelebrityAccountResponse.Message response)])
    else ret tt.

(** enterprise.go *)
Definition DeleteEnterpriseAccount (c : Client) (enterpriseID : UUID)
  : Go unit :=
  u <- try (url_Parse (BaseURL c)) ;;
  let u :=
    set_Path u (path_Join [Path u; "enterprise"; UUID_String enterpriseID]) in
  req <- try (http_NewRequest "DELETE" (URL_String u) None) ;;
  let req := Header_Add req "Authorization" ("Bearer " ++ Token c) in
  resp <- Do c req ;;
  if negb (StatusCode resp =? http_StatusOK) then
    let bodyBytes := fst (io_ReadAll (Body resp)) in
    fail (fmt_Errorf "DeleteEnterpriseAccount failed: %d %s"
                     [ArgInt (StatusCode resp); ArgString bodyBytes])
  else ret tt.

(** government (unnamed source file) *)
Definition DeleteGovernmentAccount (c : Client) (accountID : UUID)
  : Go unit :=
  requestURL <- try (url_Parse (BaseURL c)) ;;
  let requestURL :=
    set_Path requestURL
      (path_Join [Path requestURL; "government"; UUID_String accountID]) in
  req <- try (http_NewRequest "DELETE" (URL_String requestURL) None) ;;
  let req := Header_Set req "Authorization" ("Bearer " ++ Token c) in
  let req := Header_Set req "X-Api-Key" (ApiKey c) in
  resp <- Do c req ;;
  if negb (StatusCode resp =? http_StatusOK) then
    let bodyBytes := fst (io_ReadAll (Body resp)) in
    fail (errors_New bodyBytes)
  else ret tt.

(** The three headers set by the token, permission and service-account
    files. *)
Definition set_api_headers (c : Client) (req : Request) : Request :=
  let req := Header_Set req "Content-Type" "application/json" in
  let req := Header_Set req "Authorization" ("Bearer " ++ Token c) in
  Header_Set req "X-API-Key" (ApiKey c).

(** permissions.go *)
Definition DeletePermission (c : Client) (permissionID : UUID) : Go unit :=
  if (permissionID =? uuid_Nil)%N then fail (errors_New "invalid permissionID")
  else
    req <- try_wrap
             (http_NewRequest "DELETE"
                (BaseURL c ++ "/api/permissions/" ++ UUID_String permissionID)
                None)
             (wrapf "unable to create new request: %w") ;;
    let req := set_api_headers c req in
    res <- wrap_err (Do c req) (wrapf "unable to send request: %w") ;;
    if negb (StatusCode res =? http_StatusOK)
    then fail (unexpected_status_code res)
    else ret tt.

(** service accounts (unnamed source file) *)
Definition DeleteServiceAccount (c : Client) (serviceAccountID : UUID)
  : Go unit :=
  req <- try_wrap
           (http_NewRequest "DELETE"
              (BaseURL c ++ "/api/service-accounts/"
                 ++ UUID_String serviceAccountID) None)
           (wrapf "unable to create new request: %w") ;;
  let req := set_api_headers c req in
  res <- wrap_err (Do c req) (wrapf "unable to send request: %w") ;;
  if negb (StatusCode res =? http_StatusOK)
  then fail (unexpected_status_code res)
  else ret tt.

(** account_memberships.go *)
Definition DeleteAccountMembership (c : Client) (accountID userID : UUID)
  : Go unit :=
  req <- try (http_NewRequest "DELETE"
                (BaseURL c ++ "/account-membership/" ++ UUID_String accountID
                   ++ "/user/" ++ UUID_String userID) None) ;;
  let req := Header_Add req "Authorization" ("Bearer " ++ Token c) in
  let req := Header_Add req "X-Api-Key" (ApiKey c) in
  res <- Do c req ;;
  if negb (StatusCode res =? http_StatusOK) then
    let body := fst (io_ReadAll (Body res)) in
    fail (fmt_Errorf "server returned status %d: %s"
                     [ArgInt (StatusCode res); ArgString body])
  else ret tt.

(** account_links.go *)
Definition DeleteAccountLink (c : Client)
           (accountLinkRequest : AccountLinkRequest.t) : Go unit :=
  req <- try_wrap
           (http_NewRequest "DELETE"
              (BaseURL c ++ "/users/"
                 ++ UUID_String (AccountLinkRequest.UserID accountLinkRequest)
                 ++ "/accounts/"
                 ++ UUID_String
                      (AccountLinkRequest.AccountID accountLinkRequest)
                 ++ "?type="
                 ++ AccountLinkRequest.AccountType accountLinkRequest) None)
           (wrapf "failed to create request: %w") ;;
  let req := Header_Add req "Authorization" ("Bearer " ++ Token c) in
  res <- wrap_err (Do c req) (wrapf "DeleteAccountLink failed: %w") ;;
  if negb (StatusCode res =? http_StatusOK) then
    body <- try_wrap (ReadAll (Body res))
                     (wrapf "failed reading server response: %w") ;;
    fail (fmt_Errorf
            "DeleteAccountLink returned a non-200 status code, response: %s"
            [ArgString body])
  else ret tt.

End Deletes.

(* ================================================================== *)
(** ** tokens.go *)

(** An [error] held in an interface field: the values made by
    [errors.New] and [fmt.Errorf] are pointers to structs without exported
    fields. *)
Definition error_value (e : error) : GoValue := GPtr (Some (GStruct [])).

Module Token.
Record t : Type := {
  Plaintext : string;
  Hash : option string;
  UserID : UUID;
  Expiry : Time;
  Scope : string;
  Error : option error
}.

#[global] Instance reflect : Reflect t := fun tok =>
  GStruct [("Plaintext", "", GString (Plaintext tok));
           ("Hash", "", GBytes (Hash tok));
           ("UserID", "", GUUID (UserID tok));
           ("Expiry", "", GTime (Expiry tok));
           ("Scope", "", GString (Scope tok));
           ("Error", "", GInterface (option_map error_value (Error tok)))].
End Token.

(** The three errors of [Token.Validate]. *)
Definition err_user_id_required : error := errors_New "user ID is required".
Definition err_scope_required : error := errors_New "scope is required".
Definition err_expiry_future : error :=
  errors_New "expiry must be a future time".

Definition is_validation_error (e : error) : Prop :=
  e = err_user_id_required \/ e = err_scope_required \/ e = err_expiry_future.

Section Tokens.
Context `{GoLib}.
Context {dec_Token : Decodable Token.t}.

(** [func (t *Token) Validate() error]; the clock is read by the third
    test only. *)
Definition Token_Validate (t : Token.t) : Go unit :=
  if (Token.UserID t =? uuid_Nil)%N then fail err_user_id_required
  else if (Token.Scope t =? "")%string then fail err_scope_required
  else
    current <- now ;;
    if Time_Before (Token.Expiry t) current then fail err_expiry_future
    else ret tt.

Definition CreateToken (c : Client) (userID : UUID) (scope : string)
  : Go Token.t :=
  created <- now ;;
  let payload :=
    {| Token.Plaintext := ""; Token.Hash := None; Token.UserID := userID;
       Token.Expiry := Time_Add created (time_Hour * 24);
       Token.Scope := scope; Token.Error := None |} in
  Token_Validate payload ;;;
  jsonPayload <- try (json_Marshal payload) ;;
  req <- try_wrap
           (http_NewRequest "POST" (BaseURL c ++ "/api/tokens")
                            (Some jsonPayload))
           (wrapf "unable to create new request: %w") ;;
  let req := set_api_headers c req in
  res <- wrap_err (Do c req) (wrapf "unable to send request: %w") ;;
  if negb (StatusCode res =? http_StatusCreated)
  then fail (unexpected_status_code res)
  else
    createdToken <- try_wrap (json_Decode (Body res))
                             (wrapf "failed to decode response body: %w") ;;
    ret createdToken.

Definition DeleteToken (c : Client) (userID tokenID : UUID) : Go unit :=
  if (userID =? uuid_Nil)%N
  then fail (errors_New "user ID must be non-nil UUID")
  else if (tokenID =? uuid_Nil)%N
  then fail (errors_New "token ID must be non-nil UUID")
  else
    reqURL <- try_wrap (url_Parse (BaseURL c))
                       (wrapf "unable to parse base URL: %w") ;;
    let reqURL :=
      set_Path reqURL
        (path_Join [Path reqURL; "api"; "users"; UUID_String userID;
                    "tokens"; UUID_String tokenID]) in
    req <- try_wrap (http_NewRequest "DELETE" (URL_String reqURL) None)
                    (wrapf "unable to create new request: %w") ;;
    let req := set_api_headers c req in
    res <- wrap_err (Do c req) (wrapf "unable to send request: %w") ;;
    if negb (StatusCode res =? http_StatusNoContent)
    then fail (unexpected_status_code res)
    else ret tt.

Definition DeleteTokensByUserID (c : Client) (userID : UUID) : Go unit :=
  req <- try_wrap
           (http_NewRequest "DELETE"
              (BaseURL c ++ "/api/tokens/" ++ UUID_String userID) None)
           (wrapf "unable to create new request: %w") ;;
  let req := set_api_headers c req in
  res <- wrap_err (Do c req) (wrapf "unable to send request: %w") ;;
  if negb (StatusCode res =? http_StatusOK)
  then fail (unexpected_status_code res)
  else ret tt.

(** [func (c *Client) Validate() error]: ozzo-validation's [Required] on
    the three fields and [is.URL] on the base URL; the error names the
    fields that failed, sorted by name as [validation.Errors] renders
    them. *)
Definition Client_Validate (c : Client) : result unit :=
  let failed :=
    ((if (ApiKey c =? "")%string then ["ApiKey"] else [])
       ++ (if (BaseURL c =? "")%string then ["BaseURL"]
           else if is_URL (BaseURL c) then [] else ["BaseURL"])
       ++ (if (Token c =? "")%string then ["Token"] else []))%list in
  match failed with
  | [] => inl tt
  | _ => inr (lib_error "validation" (join "; " failed))
  end.

Definition DeleteExpiredTokens (c : Client) : Go unit :=
  try_wrap (Client_Validate c) (wrapf "client validation failed: %w") ;;;
  req <- try_wrap
           (http_NewRequest "DELETE" (BaseURL c ++ "/api/tokens/expired") None)
           (wrapf "unable to create new request: %w") ;;
  let req := set_api_headers c req in
  res <- wrap_err (Do c req) (wrapf "unable to send request: %w") ;;
  if negb (StatusCode res =? http_StatusOK)
  then fail (unexpected_status_code res)
  else ret tt.

End Tokens.

(* ================================================================== *)
(** ** account_memberships.go *)

Module AccountMembership.
Record t : Type := {
  ID : UUID;
  AccountType : string;
  AccountID : UUID;
  UserID : UUID;
  Role : string;
  JoinedAt : Time
}.
End AccountMembership.

Module UpdateAccountMembershipEvent.
Record t : Type := {
  AccountType : string;
  AccountID : UUID;
  UserID : UUID;
  Role : string
}.

#[global] Instance reflect : Reflect t := fun event =>
  GStruct [("AccountType", "account_type,omitempty",
            GString (AccountType event));
           ("AccountID", "account_id,omitempty", GUUID (AccountID event));
           ("UserID", "user_id,omitempty", GUUID (UserID event));
           ("Role", "role,omitempty", GString (Role event))].
End UpdateAccountMembershipEvent.

Section Memberships.
Context `{GoLib}.
Context {dec_AccountMembership : Decodable AccountMembership.t}.

Definition UpdateAccountMembership (c : Client) (accountMembershipID : UUID)
           (event : UpdateAccountMembershipEvent.t)
  : Go AccountMembership.t :=
  jsonEvent <- try_wrap (json_Marshal event)
                        (wrapf "failed to convert event to JSON: %w") ;;
  req <- try_wrap
           (http_NewRequest "PATCH"
              (BaseURL c ++ "/account-memberships/"
                 ++ UUID_String accountMembershipID) (Some jsonEvent))
           (wrapf "failed to create request: %w") ;;
  let req := Header_Set req "Content-Type" "application/json" in
  let req := Header_Set req "Authorization" ("Bearer " ++ Token c) in
  resp <- wrap_err (Do c req) (wrapf "failed to send request: %w") ;;
  if negb (StatusCode resp =? http_StatusOK) then
    fail (fmt_Errorf "received non-200 status code: %d"
                     [ArgInt (StatusCode resp)])
  else
    updatedAccountMembership <-
      try_wrap (json_Decode (Body resp)) (wrapf "failed to parse response: %w") ;;
    ret updatedAccountMembership.

End Memberships.

(* ================================================================== *)
(** ** service accounts (unnamed source file) *)

Module ServiceAccount.
Record t : Type := {
  ID : UUID;
  Secret : string;
  ServiceName : string;
  Roles : option (list string);
  CreatedAt : Time;
  ExpiresAt : option Time
}.

#[global] Instance reflect : Reflect t := fun sa =>
  GStruct [("ID", "id", GUUID (ID sa));
           ("Secret", "-", GString (Secret sa));
           ("ServiceName", "service_name", GString (ServiceName sa));
           ("Roles", "roles", GSlice (option_map (map GString) (Roles sa)));
           ("CreatedAt", "created_at", GTime (CreatedAt sa));
           ("ExpiresAt", "expires_at,omitempty",
            GPtr (option_map GTime (ExpiresAt sa)))].

(** The same account with another secret. *)
Definition with_Secret (sa : t) (secret : string) : t :=
  {| ID := ID sa; Secret := secret; ServiceName := ServiceName sa;
     Roles := Roles sa; CreatedAt := CreatedAt sa;
     ExpiresAt := ExpiresAt sa |}.
End ServiceAccount.

Definition slice_len {A} (s : option (list A)) : nat :=
  match s with None => O | Some l => List.length l end.

Section ServiceAccounts.
Context `{GoLib}.

(** The only method that marshals a [ServiceAccount]; the argument is a
    pointer and may be nil. *)
Definition UpdateServiceAccount (c : Client)
           (serviceAccount : option ServiceAccount.t) : Go unit :=
  match serviceAccount with
  | None => fail (errors_New "serviceAccount cannot be nil")
  | Some sa =>
      if (ServiceAccount.ID sa =? uuid_Nil)%N
      then fail (errors_New "service account ID is required")
      else if (ServiceAccount.ServiceName sa =? "")%string
      then fail (errors_New "service account name is required")
      else if (slice_len (ServiceAccount.Roles sa) =? 0)%nat
      then fail (errors_New
                   "at least one role is required for the service account")
      else
        jsonPayload <- try_wrap (json_Marshal sa)
                         (wrapf "unable to marshal service account: %w") ;;
        req <- try_wrap
                 (http_NewRequest "PUT"
                    (BaseURL c ++ "/api/service-accounts/"
                       ++ UUID_String (ServiceAccount.ID sa))
                    (Some jsonPayload))
                 (wrapf "unable to create new request: %w") ;;
        let req := set_api_headers c req in
        res <- wrap_err (Do c req) (wrapf "unable to send request: %w") ;;
        if negb (StatusCode res =? http_StatusOK)
        then fail (unexpected_status_code res)
        else ret tt
  end.

End ServiceAccounts.

(* ================================================================== *)
(** ** Vocabulary of the properties *)

(** The kinds whose identifier is populated, in the order of the fields. *)
Definition populated (ids : list (string * option UUID)) : list string :=
  map fst (filter (fun p => not_nil (snd p)) ids).

(** What the resolver owes to an input with the identifiers [ids]: the
    identifiers are listed in the fixed order, the only populated kind is
    the answer, no populated kind gives the empty tag, and in general the
    answer is the first populated kind. *)
Definition resolves_kind (ids : list (string * option UUID)) (tag : string)
  : Prop :=
  map fst ids = accountTypes
  /\ (forall k, populated ids = [k] -> tag = k)
  /\ (populated ids = [] -> tag = "")
  /\ (forall k others, populated ids = k :: others -> tag = k).

(** The text an error carries: an operand of its format, or its whole
    message. *)
Definition carries (e : error) (text : string) : Prop :=
  match e with
  | errors_New t => t = text
  | fmt_Errorf _ args => In (ArgString text) args
  | lib_error _ _ => False
  end.

(** The payload [CreateToken] builds when the clock reads [created]. *)
Definition CreateToken_payload (userID : UUID) (scope : string)
           (created : Time) : Token.t :=
  {| Token.Plaintext := ""; Token.Hash := None; Token.UserID := userID;
     Token.Expiry := Time_Add created (time_Hour * 24);
     Token.Scope := scope; Token.Error := None |}.

(** The accounts of the decoded lists, in the order of the lists. *)
Definition all_accounts (lists : list AccountList.t) : list Account.t :=
  concat (map AccountList.Accounts lists).

Section Vocabulary.
Context `{GoLib}.
Context {dec_AccountList : Decodable AccountList.t}.

(** The answers of the transport to [reqs], sent one after the other from
    the world [w], and the world they leave. *)
Fixpoint exchange (c : Client) (w : World) (reqs : list Request)
  : list (result Response) * World :=
  match reqs with
  | [] => ([], w)
  | req :: rest =>
      let (answer, w1) := HttpClient c w req in
      let (answers, w2) := exchange c w1 rest in
      (answer :: answers, w2)
  end.

(** The state after [reqs] were sent and the world moved to [w]. *)
Definition after (st : State) (reqs : list Request) (w : World) : State :=
  {| world := w; sent := (sent st ++ reqs)%list |}.

(** What [ListAccounts] makes of a response with status 200. *)
Definition ListAccounts_decoded (resp : Response) : result AccountList.t :=
  match ReadAll (Body resp) with
  | inr err => inr err
  | inl body => json_Unmarshal body
  end.

(** The request [CreateToken] builds around a marshalled payload. *)
Definition CreateToken_request (c : Client) (jsonPayload : string) : Request :=
  set_api_headers c
    {| Method := "POST"; Target := BaseURL c ++ "/api/tokens"; Header := [];
       ReqBody := Some jsonPayload |}.

(** A nil result of [run] is backed by the server: the run sent exactly one
    request, a DELETE, and the transport answered it with a response that
    [accepted] holds of. *)
Definition confirmed_by (c : Client) (run : Go unit)
           (accepted : Response -> Prop) : Prop :=
  forall st,
    fst (run st) = inl tt ->
    exists req resp w,
      sent (snd (run st)) = (sent st ++ [req])%list
      /\ Method req = "DELETE"
      /\ HttpClient c (world st) req = (inl resp, w)
      /\ accepted resp.

(** The contract of a delete method that issues one request: when the
    request went out and the transport answered [resp], the method succeeds
    if [ok] accepts the status and otherwise returns an error carrying
    [diagnostic resp]; and it succeeds in no other way, a nil result being
    backed by an answer whose status [ok] accepts. *)
Definition delete_contract (c : Client) (run : Go unit) (ok : Z -> bool)
           (diagnostic : Response -> string) : Prop :=
  (forall st req resp w,
      sent (snd (run st)) = (sent st ++ [req])%list ->
      HttpClient c (world st) req = (inl resp, w) ->
      if ok (StatusCode resp) then fst (run st) = inl tt
      else exists e, fst (run st) = inr e /\ carries e (diagnostic resp))
  /\ confirmed_by c run (fun resp => ok (StatusCode resp) = true).

End Vocabulary.

(** The statuses 200 to 299. *)
Definition is_2xx (s : Z) : bool := (200 <=? s) && (s <? 300).

Definition response_body (resp : Response) : string :=
  fst (io_ReadAll (Body resp)).

(* ================================================================== *)
(** ** A scripted world, for closed examples *)

Module Scripted.

(** The clock readings and the transport's answers still to come. *)
Record scene : Type := {
  clock : list Time;
  replies : list (result Response)
}.

Definition tick (w : scene) : Time * scene :=
  match clock w with
  | [] => (0, w)
  | t :: later => (t, {| clock := later; replies := replies w |})
  end.

Definition dquote : string := String (ascii_of_nat 34) "".

Definition parse (s : string) : result URL :=
  inl {| url_base := s; Path := ""; RawQuery := "" |}.

Definition lib : GoLib := {|
  World := scene;
  time_Now := tick;
  url_Parse := parse;
  URL_String := fun u =>
    url_base u
      ++ (if prefix "/" (Path u) then Path u else "/" ++ Path u)
      ++ (if (RawQuery u =? "")%string then "" else "?" ++ RawQuery u);
  URL_Query := fun _ => [];
  Values_Encode := fun v => join "&" (map (fun p => fst p ++ "=" ++ snd p) v);
  path_Join := fun l => join "/" (filter (fun e => negb (e =? "")%string) l);
  CanonicalHeaderKey := fun k => k;
  json_quote := fun s => dquote ++ s ++ dquote;
  Time_MarshalJSON := fun t => inl "RFC3339";
  base64_Encode := fun s => s;
  is_URL := fun _ => true
|}.

(** The transport answers with the next scripted reply. *)
Definition roundTrip (w : scene) (req : Request)
  : result Response * scene :=
  match replies w with
  | [] => (inr (lib_error "net/http" "connection refused"), w)
  | r :: later => (r, {| clock := clock w; replies := later |})
  end.

Definition client : @Client lib :=
  @Build_Client lib "https://accounts.test" "secret-token" "api-key"
                roundTrip.

Definition reply (code : Z) (status body : string) : result Response :=
  inl {| StatusCode := code; Status := status;
         Body := {| body_data := body; body_err := None |} |}.

Definition start (times : list Time) (answers : list (result Response))
  : @State lib :=
  @Build_State lib {| clock := times; replies := answers |} [].

Definition no_accounts : AccountList.t := {| AccountList.Accounts := [] |}.

(** A decoder of account lists for the examples: the body names how many
    accounts the list holds. *)
Definition account (n : N) : Account.t :=
  {| Account.ID := n; Account.UserID := Some n; Account.AgencyID := None;
     Account.CelebrityID := None; Account.BusinessID := None;
     Account.EnterpriseID := None; Account.GovernmentID := None |}.

Definition decode_list (body : string) : result AccountList.t :=
  if (body =? "two")%string
  then inl {| AccountList.Accounts := [account 1; account 2] |}
  else if (body =? "one")%string
  then inl {| AccountList.Accounts := [account 3] |}
  else if (body =? "none")%string then inl no_accounts
  else inr (lib_error "encoding/json" "unexpected end of JSON input").

Definition dec_AccountList : Decodable AccountList.t := {|
  json_Unmarshal := decode_list;
  json_Decode := fun b => decode_list (body_data b)
|}.

Definition dec_Account : Decodable Account.t := {|
  json_Unmarshal := fun _ => inl (account 1);
  json_Decode := fun _ => inl (account 1)
|}.

Definition dec_Accounts : Decodable (list (option Account.t)) := {|
  json_Unmarshal := fun _ => inl [];
  json_Decode := fun _ => inl []
|}.

Definition token : Token.t :=
  {| Token.Plaintext := "plain"; Token.Hash := None; Token.UserID := 1%N;
     Token.Expiry := 0; Token.Scope := "read"; Token.Error := None |}.

Definition dec_Token : Decodable Token.t := {|
  json_Unmarshal := fun _ => inl token;
  json_Decode := fun _ => inl token
|}.

Definition membership : AccountMembership.t :=
  {| AccountMembership.ID := 1%N; AccountMembership.AccountType := "agency";
     AccountMembership.AccountID := 2%N; AccountMembership.UserID := 3%N;
     AccountMembership.Role := "admin"; AccountMembership.JoinedAt := 0 |}.

Definition dec_AccountMembership : Decodable AccountMembership.t := {|
  json_Unmarshal := fun _ => inl membership;
  json_Decode := fun _ => inl membership
|}.

Definition dec_CelebrityResponse
  : Decodable CreateCelebrityAccountResponse.t := {|
  json_Unmarshal := fun _ =>
    inl {| CreateCelebrityAccountResponse.CelebrityID := 1%N;
           CreateCelebrityAccountResponse.Status := "success";
           CreateCelebrityAccountResponse.Message := "" |};
  json_Decode := fun b =>
    inl {| CreateCelebrityAccountResponse.CelebrityID := 1%N;
           CreateCelebrityAccountResponse.Status := body_data b;
           CreateCelebrityAccountResponse.Message := "" |}
|}.

(** Inputs and scripts of the examples. *)
Definition no_kind : CreateAccountInput.t :=
  {| CreateAccountInput.UserID := None;
     CreateAccountInput.AgencyID := None;
     CreateAccountInput.CelebrityID := None;
     CreateAccountInput.BusinessID := None;
     CreateAccountInput.EnterpriseID := None;
     CreateAccountInput.GovernmentID := None |}.

Definition business_and_government : CreateAccountInput.t :=
  {| CreateAccountInput.UserID := None;
     CreateAccountInput.AgencyID := None;
     CreateAccountInput.CelebrityID := None;
     CreateAccountInput.BusinessID := Some 4%N;
     CreateAccountInput.EnterpriseID := None;
     CreateAccountInput.GovernmentID := Some 6%N |}.

Definition no_kind_update : UpdateAccountInput.t :=
  {| UpdateAccountInput.UserID := None;
     UpdateAccountInput.AgencyID := None;
     UpdateAccountInput.CelebrityID := None;
     UpdateAccountInput.BusinessID := None;
     UpdateAccountInput.EnterpriseID := None;
     UpdateAccountInput.GovernmentID := None |}.

Definition user_only_update : UpdateAccountInput.t :=
  {| UpdateAccountInput.UserID := Some 5%N;
     UpdateAccountInput.AgencyID := None;
     UpdateAccountInput.CelebrityID := None;
     UpdateAccountInput.BusinessID := None;
     UpdateAccountInput.EnterpriseID := None;
     UpdateAccountInput.GovernmentID := None |}.

Definition no_kind_search : SearchAccountInput.t :=
  {| SearchAccountInput.UserID := None;
     SearchAccountInput.AgencyID := None;
     SearchAccountInput.CelebrityID := None;
     SearchAccountInput.BusinessID := None;
     SearchAccountInput.EnterpriseID := None;
     SearchAccountInput.GovernmentID := None |}.

Definition role_only : UpdateAccountMembershipEvent.t :=
  {| UpdateAccountMembershipEvent.AccountType := "";
     UpdateAccountMembershipEvent.AccountID := uuid_Nil;
     UpdateAccountMembershipEvent.UserID := uuid_Nil;
     UpdateAccountMembershipEvent.Role := "admin" |}.

Definition service (secret : string) : ServiceAccount.t :=
  {| ServiceAccount.ID := 9%N; ServiceAccount.Secret := secret;
     ServiceAccount.ServiceName := "billing";
     ServiceAccount.Roles := Some ["reader"];
     ServiceAccount.CreatedAt := 0; ServiceAccount.ExpiresAt := None |}.

Definition not_found : result Response := reply 404 "404 Not Found" "".
Definition ok (body : string) : result Response := reply 200 "200 OK" body.
Definition server_error : result Response :=
  reply 500 "500 Internal Server Error" "boom".

(** The account exists under the kind business only. *)
Definition business_only : @State lib :=
  start [] [not_found; not_found; not_found; ok ""].

(** The celebrity endpoint is broken. *)
Definition celebrity_broken : @State lib :=
  start [] [not_found; not_found; server_error].

(** Five kinds with accounts, one without. *)
Definition six_lists : @State lib :=
  start [] [ok "two"; ok "one"; ok "none"; ok "two"; ok "one"; ok "one"].

(** Two kinds listed, the third fails. *)
Definition third_list_fails : @State lib :=
  start [] [ok "two"; ok "one"; server_error].

(** The request a method sent first. *)
Definition first_sent {A} (run : result A * @State lib) : option Request :=
  hd_error (@sent lib (snd run)).

Definition day : Duration := time_Hour * 24.

(** The clock reads exactly the expiry when the payload is validated. *)
Definition expiry_now : @State lib :=
  start [1000; 1000 + day] [reply 201 "201 Created" "{}"].

(** The clock is an hour past the expiry when the payload is validated. *)
Definition expiry_past : @State lib :=
  start [1000; 1000 + day + time_Hour] [reply 201 "201 Created" "{}"].

(** The requests of the fan-outs for the account 7, the answers the
    script gives to a list of requests, and the world it leaves. *)
Definition no_request : Request :=
  {| Method := ""; Target := ""; Header := []; ReqBody := None |}.

Definition delete_request (kind : string) : Request :=
  match @DeleteAccount_request lib client 7%N kind with
  | inl req => req
  | inr _ => no_request
  end.

Definition list_request (kind : string) : Request :=
  match @ListAccounts_request lib client kind with
  | inl req => req
  | inr _ => no_request
  end.

Definition answers (st : @State lib) (reqs : list Request)
  : list Response :=
  flat_map (fun a => match a with inl resp => [resp] | inr _ => [] end)
           (fst (@exchange lib client (@world lib st) reqs)).

Definition answer (st : @State lib) (reqs : list Request) (i : nat)
  : Response :=
  nth i (answers st reqs)
      {| StatusCode := 0; Status := "";
         Body := {| body_data := ""; body_err := None |} |}.

Definition world_after (st : @State lib) (reqs : list Request) : scene :=
  snd (@exchange lib client (@world lib st) reqs).

(** The lists the example decoder makes of the given bodies. *)
Definition collected (bodies : list string) : list AccountList.t :=
  flat_map (fun body => match decode_list body with
                        | inl l => [l]
                        | inr _ => []
                        end) bodies.

End Scripted.

(* ================================================================== *)
(** ** More of the client: reads, updates and their validations *)

Module VerifyAccountInput.
Record t : Type := {
  AccountID : UUID;
  AccountType : string
}.
End VerifyAccountInput.

Module Permission.
Record t : Type := {
  ID : UUID;
  Name : string;
  Description : string
}.

#[global] Instance reflect : Reflect t := fun p =>
  GStruct [("ID", "id", GUUID (ID p));
           ("Name", "name", GString (Name p));
           ("Description", "description", GString (Description p))].
End Permission.

Module AccountLink.
Record t : Type := {
  UserID : UUID;
  AccountType : string;
  AccountID : UUID;
  CreatedAt : Time
}.
End AccountLink.

Module Celebrity.
Record t : Type := {
  ID : UUID;
  UserAccountID : UUID;
  CreatedAt : Time;
  UpdatedAt : Time
}.
End Celebrity.

Module UpdateCelebrityAccountEvent.
Record t : Type := {
  CelebrityID : UUID;
  UserID : UUID;
  NewName : string
}.

#[global] Instance reflect : Reflect t := fun e =>
  GStruct [("CelebrityID", "celebrity_id", GUUID (CelebrityID e));
           ("UserID", "user_id,omitempty", GUUID (UserID e));
           ("NewName", "new_name,omitempty", GString (NewName e))].
End UpdateCelebrityAccountEvent.

Module UpdateBusinessAccountEvent.
Record t : Type := {
  UserID : UUID;
  BusinessName : string;
  NewBusinessName : string;
  BusinessID : UUID
}.

#[global] Instance reflect : Reflect t := fun e =>
  GStruct [("UserID", "user_id", GUUID (UserID e));
           ("BusinessName", "business_name", GString (BusinessName e));
           ("NewBusinessName", "new_business_name",
            GString (NewBusinessName e));
           ("BusinessID", "business_id", GUUID (BusinessID e))].
End UpdateBusinessAccountEvent.

Module UpdateGovernmentAccountEvent.
Record t : Type := {
  UserID : UUID;
  GovernmentName : string;
  GovernmentID : UUID
}.

#[global] Instance reflect : Reflect t := fun e =>
  GStruct [("UserID", "user_id", GUUID (UserID e));
           ("GovernmentName", "government_name", GString (GovernmentName e));
           ("GovernmentID", "government_id", GUUID (GovernmentID e))].
End UpdateGovernmentAccountEvent.

Module UpdateMemberRoleInGovernmentAccountEvent.
Record t : Type := {
  UserID : UUID;
  GovernmentID : UUID;
  NewRoleID : UUID
}.

#[global] Instance reflect : Reflect t := fun e =>
  GStruct [("UserID", "user_id", GUUID (UserID e));
           ("GovernmentID", "government_id", GUUID (GovernmentID e));
           ("NewRoleID", "new_role_id", GUUID (NewRoleID e))].
End UpdateMemberRoleInGovernmentAccountEvent.

Module UpdateEnterpriseAccountInput.
Record t : Type := {
  UserID : UUID;
  EnterpriseID : UUID;
  UpdatedUserAccountID : UUID
}.

#[global] Instance reflect : Reflect t := fun i =>
  GStruct [("UserID", "user_id", GUUID (UserID i));
           ("EnterpriseID", "enterprise_id", GUUID (EnterpriseID i));
           ("UpdatedUserAccountID", "updated_user_account_id",
            GUUID (UpdatedUserAccountID i))].
End UpdateEnterpriseAccountInput.

Module ServiceAccountData.
Record t : Type := {
  ServiceName : string;
  Roles : option (list string);
  ExpiresAt : option Time
}.

#[global] Instance reflect : Reflect t := fun d =>
  GStruct [("ServiceName", "service_name", GString (ServiceName d));
           ("Roles", "roles", GSlice (option_map (map GString) (Roles d)));
           ("ExpiresAt", "expires_at,omitempty",
            GPtr (option_map GTime (ExpiresAt d)))].
End ServiceAccountData.

(** The validations of the events; each returns the first failure. *)

(** permissions.go, [func (p *Permission) Validate() error] *)
Definition Permission_Validate (p : Permission.t) : result unit :=
  if (Permission.ID p =? uuid_Nil)%N
  then inr (fmt_Errorf "permission ID cannot be empty" [])
  else if (Permission.Name p =? "")%string
  then inr (fmt_Errorf "permission Name cannot be empty" [])
  else inl tt.

(** celebrity.go, [func (e *UpdateCelebrityAccountEvent) Validate() error] *)
Definition UpdateCelebrityAccountEvent_Validate
           (e : UpdateCelebrityAccountEvent.t) : result unit :=
  if (UpdateCelebrityAccountEvent.CelebrityID e =? uuid_Nil)%N
  then inr (errors_New "missing CelebrityID")
  else if (UpdateCelebrityAccountEvent.NewName e =? "")%string
  then inr (errors_New "missing new name")
  else inl tt.

(** business, [func (u *UpdateBusinessAccountEvent) Validate() error] *)
Definition UpdateBusinessAccountEvent_Validate
           (u : UpdateBusinessAccountEvent.t) : result unit :=
  if (UpdateBusinessAccountEvent.UserID u =? uuid_Nil)%N
  then inr (errors_New "userID cannot be empty")
  else if (UpdateBusinessAccountEvent.NewBusinessName u =? "")%string
  then inr (errors_New "newBusinessName cannot be empty")
  else if (UpdateBusinessAccountEvent.BusinessID u =? uuid_Nil)%N
  then inr (errors_New "businessID cannot be empty")
  else inl tt.

(** government, [func (e *UpdateGovernmentAccountEvent) Validate() error] *)
Definition UpdateGovernmentAccountEvent_Validate
           (e : UpdateGovernmentAccountEvent.t) : result unit :=
  if (UpdateGovernmentAccountEvent.UserID e =? uuid_Nil)%N
  then inr (fmt_Errorf "user id is required" [])
  else if (UpdateGovernmentAccountEvent.GovernmentName e =? "")%string
  then inr (fmt_Errorf "government name is required" [])
  else if (UpdateGovernmentAccountEvent.GovernmentID e =? uuid_Nil)%N
  then inr (fmt_Errorf "government id is required" [])
  else inl tt.

(** government,
    [func (event *UpdateMemberRoleInGovernmentAccountEvent) Validate() error] *)
Definition UpdateMemberRoleInGovernmentAccountEvent_Validate
           (event : UpdateMemberRoleInGovernmentAccountEvent.t)
  : result unit :=
  if (UpdateMemberRoleInGovernmentAccountEvent.UserID event =? uuid_Nil)%N
  then inr (errors_New "user_id cannot be empty")
  else if (UpdateMemberRoleInGovernmentAccountEvent.GovernmentID event
           =? uuid_Nil)%N
  then inr (errors_New "government_id cannot be empty")
  else if (UpdateMemberRoleInGovernmentAccountEvent.NewRoleID event
           =? uuid_Nil)%N
  then inr (errors_New "new_role_id cannot be empty")
  else inl tt.

Section MoreMethods.
Context `{GoLib}.
Context {dec_Account : Decodable Account.t}.
Context {dec_Token : Decodable Token.t}.
Context {dec_Celebrity : Decodable Celebrity.t}.
Context {dec_AccountLink : Decodable AccountLink.t}.
Context {dec_Memberships : Decodable (list AccountMembership.t)}.
Context {dec_ServiceAccount : Decodable ServiceAccount.t}.

(** [strings.TrimSpace] *)
Variable strings_TrimSpace : string -> string.

(** accounts.go *)
Definition VerifyAccount (c : Client) (input : VerifyAccountInput.t)
  : Go Account.t :=
  url <- try (url_Parse (BaseURL c)) ;;
  let accountType := VerifyAccountInput.AccountType input in
  if (accountType =? "")%string then fail KindUndetermined
  else
    let url :=
      set_Path url
        (path_Join [Path url; accountType;
                    UUID_String (VerifyAccountInput.AccountID input);
                    "verify"]) in
    req <- try (http_NewRequest "GET" (URL_String url) None) ;;
    let req := Header_Set req "Authorization" ("Bearer " ++ Token c) in
    resp <- Do c req ;;
    if negb (StatusCode resp =? http_StatusOK) then fail (bad_response resp)
    else
      body <- try (ReadAll (Body resp)) ;;
      account <- try (json_Unmarshal body) ;;
      ret account.

Definition GetAccountByField (c : Client) (fieldName : string)
           (fieldValue : UUID) : Go Account.t :=
  url <- try (url_Parse (BaseURL c)) ;;
  let url :=
    set_Path url
      (path_Join [Path url; "accounts"; fieldName; UUID_String fieldValue]) in
  req <- try (http_NewRequest "GET" (URL_String url) None) ;;
  let req := Header_Set req "Content-Type" "application/json" in
  let req := Header_Set req "Authorization" ("Bearer " ++ Token c) in
  resp <- Do c req ;;
  if negb (StatusCode resp =? http_StatusOK) then fail (bad_response resp)
  else
    body <- try (ReadAll (Body resp)) ;;
    account <- try (json_Unmarshal body) ;;
    ret account.

(** tokens.go; a [map[string]string] with the one key "token" is
    marshalled to the object with that member, without failure. *)
Definition VerifyToken (c : Client) (token : string) : Go Token.t :=
  try_wrap (Client_Validate c) (wrapf "client validation failed: %w") ;;;
  let jsonPayload := json_encode (JObject [("token", JString token)]) in
  req <- try_wrap
           (http_NewRequest "POST" (BaseURL c ++ "/api/tokens/verify")
                            (Some jsonPayload))
           (wrapf "unable to create new request: %w") ;;
  let req := set_api_headers c req in
  res <- wrap_err (Do c req) (wrapf "unable to send request: %w") ;;
  if negb (StatusCode res =? http_StatusOK)
  then fail (unexpected_status_code res)
  else
    verifiedToken <- try_wrap (json_Decode (Body res))
                              (wrapf "error decoding response body: %w") ;;
    ret verifiedToken.

(** service accounts (unnamed source file).  The argument is the struct the
    pointer refers to: the method reads [serviceAccount.ServiceName] at
    once, so it is defined for a pointer that is not nil only. *)
Definition CreateServiceAccount (c : Client)
           (serviceAccount : ServiceAccountData.t) : Go ServiceAccount.t :=
  if (strings_TrimSpace (ServiceAccountData.ServiceName serviceAccount)
      =? "")%string
  then fail (errors_New "service name is required")
  else if (slice_len (ServiceAccountData.Roles serviceAccount) =? 0)%nat
  then fail (errors_New "at least one role is required")
  else
    jsonPayload <- try (json_Marshal serviceAccount) ;;
    req <- try_wrap
             (http_NewRequest "POST" (BaseURL c ++ "/api/service-accounts")
                              (Some jsonPayload))
             (wrapf "unable to create new request: %w") ;;
    let req := set_api_headers c req in
    res <- wrap_err (Do c req) (wrapf "unable to send request: %w") ;;
    if negb (StatusCode res =? http_StatusCreated)
    then fail (unexpected_status_code res)
    else
      createdServiceAccount <-
        try_wrap (json_Decode (Body res))
                 (wrapf "unable to decode response body: %w") ;;
      ret createdServiceAccount.

(** permissions.go.  The argument is the struct the pointer refers to:
    the method copies its three fields at once, so it is defined for a
    pointer that is not nil only. *)
Definition UpdatePermission (c : Client) (permission : Permission.t)
  : Go unit :=
  let payload :=
    {| Permission.ID := Permission.ID permission;
       Permission.Name := Permission.Name permission;
       Permission.Description := Permission.Description permission |} in
  try (Permission_Validate payload) ;;;
  jsonPayload <- try (json_Marshal payload) ;;
  req <- try_wrap
           (http_NewRequest "PUT"
              (BaseURL c ++ "/api/permissions/"
                 ++ UUID_String (Permission.ID permission))
              (Some jsonPayload))
           (wrapf "unable to create new request: %w") ;;
  let req := set_api_headers c req in
  res <- wrap_err (Do c req) (wrapf "unable to send request: %w") ;;
  if negb (StatusCode res =? http_StatusOK)
  then fail (unexpected_status_code res)
  else ret tt.

Definition DoesPermissionExist (c : Client) (permissionID : UUID)
  : Go bool :=
  req <- try_wrap
           (http_NewRequest "GET"
              (BaseURL c ++ "/api/permissions/" ++ UUID_String permissionID)
              None)
           (wrapf "unable to create new request: %w") ;;
  let req := set_api_headers c req in
  res <- wrap_err (Do c req) (wrapf "unable to send request: %w") ;;
  if StatusCode res =? http_StatusOK then ret true
  else if StatusCode res =? http_StatusNotFound then ret false
  else fail (unexpected_status_code res).

(** business (unnamed source file) *)
Definition UpdateBusinessAccount (c : Client) (businessID : UUID)
           (newBusinessName : string) : Go unit :=
  let payload :=
    {| UpdateBusinessAccountEvent.UserID := businessID;
       UpdateBusinessAccountEvent.BusinessName := "";
       UpdateBusinessAccountEvent.NewBusinessName := newBusinessName;
       UpdateBusinessAccountEvent.BusinessID := businessID |} in
  try (UpdateBusinessAccountEvent_Validate payload) ;;;
  jsonPayload <- try (json_Marshal payload) ;;
  req <- try (http_NewRequest "PUT"
                (BaseURL c ++ "/" ++ UUID_String businessID)
                (Some jsonPayload)) ;;
  let req := Header_Set req "Content-Type" "application/json" in
  let req := Header_Set req "Authorization" ("Bearer " ++ Token c) in
  let req := Header_Set req "X-API-Key" (ApiKey c) in
  res <- Do c req ;;
  if negb (StatusCode res =? http_StatusOK) then
    fail (fmt_Errorf "unexpected status code: %d" [ArgInt (StatusCode res)])
  else ret tt.

(** government (unnamed source file) *)
Definition UpdateGovernmentAccount (c : Client) (userID governmentID : UUID)
           (newName : string) : Go unit :=
  let event :=
    {| UpdateGovernmentAccountEvent.UserID := userID;
       UpdateGovernmentAccountEvent.GovernmentName := newName;
       UpdateGovernmentAccountEvent.GovernmentID := governmentID |} in
  try (UpdateGovernmentAccountEvent_Validate event) ;;;
  data <- try (json_Marshal event) ;;
  u <- try (url_Parse (BaseURL c)) ;;
  let u :=
    set_Path u
      (path_Join [Path u; "government";
                  UUID_String (UpdateGovernmentAccountEvent.GovernmentID event)])
  in
  req <- try (http_NewRequest "PUT" (URL_String u) (Some data)) ;;
  let req := Header_Set req "Content-Type" "application/json" in
  let req := Header_Set req "Authorization" ("Bearer " ++ Token c) in
  let req := Header_Set req "X-Api-Key" (ApiKey c) in
  resp <- Do c req ;;
  if negb (StatusCode resp =? http_StatusOK) then
    let bodyBytes := fst (io_ReadAll (Body resp)) in
    fail (fmt_Errorf
            "failed to update government account, received status %d: %s"
            [ArgInt (StatusCode resp); ArgString bodyBytes])
  else ret tt.

Definition UpdateMemberRoleInGovernmentAccount (c : Client)
           (event : UpdateMemberRoleInGovernmentAccountEvent.t) : Go unit :=
  try (UpdateMemberRoleInGovernmentAccountEvent_Validate event) ;;;
  u <- try (url_Parse (BaseURL c)) ;;
  let u :=
    set_Path u
      (path_Join
         [Path u; "government";
          UUID_String (UpdateMemberRoleInGovernmentAccountEvent.GovernmentID
                         event);
          "users";
          UUID_String (UpdateMemberRoleInGovernmentAccountEvent.UserID event)])
  in
  requestBody <- try (json_Marshal event) ;;
  req <- try (http_NewRequest "PUT" (URL_String u) (Some requestBody)) ;;
  let req := Header_Set req "Content-Type" "application/json" in
  let req := Header_Set req "Authorization" ("Bearer " ++ Token c) in
  let req := Header_Set req "X-Api-Key" (ApiKey c) in
  resp <- Do c req ;;
  if negb (StatusCode resp =? http_StatusOK) then
    body <- try (ReadAll (Body resp)) ;;
    fail (errors_New body)
  else ret tt.

(** celebrity.go; the body is read before the status is looked at.  The
    argument is the struct the pointer refers to: [Validate] reads its
    fields at once, so the method is defined for a pointer that is not nil
    only. *)
Definition UpdateCelebrityAccount (c : Client)
           (event : UpdateCelebrityAccountEvent.t) : Go Celebrity.t :=
  try (UpdateCelebrityAccountEvent_Validate event) ;;;
  url <- try (url_Parse (BaseURL c)) ;;
  let url :=
    set_Path url
      (path_Join [Path url; "celebrity";
                  UUID_String (UpdateCelebrityAccountEvent.CelebrityID event)])
  in
  body <- try (json_Marshal event) ;;
  req <- try (http_NewRequest "PUT" (URL_String url) (Some body)) ;;
  let req := Header_Set req "Content-Type" "application/json" in
  let req := Header_Set req "Authorization" ("Bearer " ++ Token c) in
  let req := Header_Set req "X-Api-Key" (ApiKey c) in
  resp <- Do c req ;;
  respBody <- try (ReadAll (Body resp)) ;;
  if negb (StatusCode resp =? http_StatusOK) then fail (errors_New respBody)
  else
    updatedCelebrity <- try (json_Unmarshal respBody) ;;
    ret updatedCelebrity.

(** enterprise.go *)
Definition UpdateEnterpriseAccount (c : Client)
           (input : UpdateEnterpriseAccountInput.t) : Go unit :=
  if (UpdateEnterpriseAccountInput.UserID input =? uuid_Nil)%N
     || (UpdateEnterpriseAccountInput.EnterpriseID input =? uuid_Nil)%N
     || (UpdateEnterpriseAccountInput.UpdatedUserAccountID input
         =? uuid_Nil)%N
  then fail (errors_New "invalid input parameters")
  else
    jsonData <- try_wrap (json_Marshal input)
                         (wrapf "failed to marshal request data: %w") ;;
    let relativePath :=
      path_Join ["api"; "enterprise";
                 UUID_String (UpdateEnterpriseAccountInput.UserID input)] in
    url <- try_wrap (url_Parse (BaseURL c))
                    (wrapf "failed to parse base URL: %w") ;;
    let url := set_Path url (path_Join [Path url; relativePath]) in
    req <- try_wrap (http_NewRequest "PUT" (URL_String url) (Some jsonData))
                    (wrapf "failed to create HTTP request: %w") ;;
    let req := Header_Set req "Content-Type" "application/json" in
    let req := Header_Set req "Authorization" ("Bearer " ++ Token c) in
    resp <- wrap_err (Do c req) (wrapf "failed to send HTTP request: %w") ;;
    if negb (StatusCode resp =? http_StatusOK) then
      let body := fst (io_ReadAll (Body resp)) in
      fail (fmt_Errorf "received non-OK HTTP status: %s, %s"
                       [ArgString (Status resp); ArgString body])
    else ret tt.

(** account_links.go *)
Definition IsUserLinkedToAccount (c : Client) (userID accountID : UUID)
  : Go bool :=
  req <- try_wrap
           (http_NewRequest "GET"
              (BaseURL c ++ "/accountLink/" ++ UUID_String accountID) None)
           (wrapf "failed to create request: %w") ;;
  let req := Header_Set req "Authorization" ("Bearer " ++ Token c) in
  let req := Header_Set req "X-Api-Key" (ApiKey c) in
  resp <- wrap_err (Do c req) (wrapf "request failed: %w") ;;
  if negb (StatusCode resp =? http_StatusOK) then
    fail (fmt_Errorf "server responded with status code %d"
                     [ArgInt (StatusCode resp)])
  else
    accountLink <- try_wrap (json_Decode (Body resp))
                            (wrapf "failed to decode response body: %w") ;;
    if (AccountLink.UserID accountLink =? userID)%N then ret true
    else ret false.

(** account_memberships.go; the body is read before the status is looked
    at. *)
Definition ListAccountMemberships (c : Client) (userID : UUID)
  : Go (list AccountMembership.t) :=
  url <- try (url_Parse (BaseURL c)) ;;
  let url := set_Path url (path_Join [Path url; "account-memberships"]) in
  req <- try (http_NewRequest "GET" (URL_String url) None) ;;
  let req := Header_Add req "Authorization" ("Bearer " ++ Token c) in
  let req := Header_Add req "X-Api-Key" (ApiKey c) in
  resp <- Do c req ;;
  body <- try (ReadAll (Body resp)) ;;
  if negb (StatusCode resp =? http_StatusOK) then
    fail (fmt_Errorf "unexpected status code: %d. body: %s"
                     [ArgInt (StatusCode resp); ArgString body])
  else
    accountMemberships <- try (json_Unmarshal body) ;;
    ret accountMemberships.

End MoreMethods.

(** ** More vocabulary *)

Section MoreVocabulary.
Context `{GoLib}.

(** The contract of a generic account method that issues one request and
    decodes an [A]: when the request went out and the transport answered
    [resp], the result is the decoded body on status 200 and the error
    "bad response from server" with the status line on any other status. *)
Definition account_read_contract {A} `{Decodable A} (c : Client)
           (run : Go A) : Prop :=
  forall st req resp w,
    sent (snd (run st)) = (sent st ++ [req])%list ->
    HttpClient c (world st) req = (inl resp, w) ->
    fst (run st)
    = if StatusCode resp =? http_StatusOK
      then match ReadAll (Body resp) with
           | inl body => json_Unmarshal body
           | inr err => inr err
           end
      else inr (bad_response resp).

(** A run that leaves the state as it found it: nothing was sent and the
    clock was not read. *)
Definition refused {A} (run : Go A) (st : State) (err : error) : Prop :=
  run st = (inr err, st).

(** The URL of an endpoint: the base URL [u] with [segments] joined behind
    its path, as a string. *)
Definition endpoint (u : URL) (segments : list string) : string :=
  URL_String (set_Path u (path_Join (Path u :: segments))).

(** [req] is the probe of the fan-out delete for [kind]: a DELETE without
    body of the kind's path followed by the account id. *)
Definition delete_probe (u : URL) (accountID : UUID) (kind : string)
           (req : Request) : Prop :=
  Method req = "DELETE"
  /\ Target req = endpoint u [kind; UUID_String accountID]
  /\ ReqBody req = None.

(** [req] is the list request of the fan-out list for [kind]: a GET
    without body of the kind's path. *)
Definition list_probe (u : URL) (kind : string) (req : Request) : Prop :=
  Method req = "GET"
  /\ Target req = endpoint u [kind]
  /\ ReqBody req = None.

(** The library gives the endpoints [of_kind] of two different kinds
    different URLs. *)
Definition distinct_endpoints (u : URL) (of_kind : string -> list string)
  : Prop :=
  forall k1 k2,
    In k1 accountTypes -> In k2 accountTypes ->
    endpoint u (of_kind k1) = endpoint u (of_kind k2) -> k1 = k2.

End MoreVocabulary.

(** ** More of the scripted world *)

Module ScriptedMore.

(** The request a run sent first. *)
Definition the_request {A} (run : result A * @State Scripted.lib) : Request :=
  hd Scripted.no_request (@sent Scripted.lib (snd run)).

(** A client without API key. *)
Definition keyless : @Client Scripted.lib :=
  @Build_Client Scripted.lib "https://accounts.test" "secret-token" ""
                Scripted.roundTrip.

(** Trimming of blanks at both ends, for the examples. *)
Fixpoint trim_left (s : string) : string :=
  match s with
  | String c rest => if (c =? " ")%char then trim_left rest else s
  | EmptyString => EmptyString
  end.

Fixpoint trim_right (s : string) : string :=
  match s with
  | String c rest =>
      match trim_right rest with
      | EmptyString => if (c =? " ")%char then EmptyString else String c ""
      | kept => String c kept
      end
  | EmptyString => EmptyString
  end.

Definition trim (s : string) : string := trim_right (trim_left s).

Definition blank_name : ServiceAccountData.t :=
  {| ServiceAccountData.ServiceName := "   ";
     ServiceAccountData.Roles := Some ["reader"];
     ServiceAccountData.ExpiresAt := None |}.

Definition blank_service : ServiceAccount.t :=
  {| ServiceAccount.ID := 9%N; ServiceAccount.Secret := "s";
     ServiceAccount.ServiceName := "   ";
     ServiceAccount.Roles := Some ["reader"];
     ServiceAccount.CreatedAt := 0; ServiceAccount.ExpiresAt := None |}.

Definition dec_ServiceAccount : Decodable ServiceAccount.t := {|
  json_Unmarshal := fun _ => inl (Scripted.service "");
  json_Decode := fun _ => inl (Scripted.service "")
|}.

Definition celebrity : Celebrity.t :=
  {| Celebrity.ID := 3%N; Celebrity.UserAccountID := 1%N;
     Celebrity.CreatedAt := 0; Celebrity.UpdatedAt := 0 |}.

Definition dec_Celebrity : Decodable Celebrity.t := {|
  json_Unmarshal := fun _ => inl celebrity;
  json_Decode := fun _ => inl celebrity
|}.

(** The link of every account names the user 3. *)
Definition link : AccountLink.t :=
  {| AccountLink.UserID := 3%N; AccountLink.AccountType := "agency";
     AccountLink.AccountID := 2%N; AccountLink.CreatedAt := 0 |}.

Definition dec_AccountLink : Decodable AccountLink.t := {|
  json_Unmarshal := fun _ => inl link;
  json_Decode := fun _ => inl link
|}.

Definition dec_Memberships : Decodable (list AccountMembership.t) := {|
  json_Unmarshal := fun _ => inl [Scripted.membership];
  json_Decode := fun _ => inl [Scripted.membership]
|}.

Definition business_search (id : UUID) : SearchAccountInput.t :=
  {| SearchAccountInput.UserID := None;
     SearchAccountInput.AgencyID := None;
     SearchAccountInput.CelebrityID := None;
     SearchAccountInput.BusinessID := Some id;
     SearchAccountInput.EnterpriseID := None;
     SearchAccountInput.GovernmentID := None |}.

Definition verify_agency : VerifyAccountInput.t :=
  {| VerifyAccountInput.AccountID := 2%N;
     VerifyAccountInput.AccountType := "agency" |}.

Definition rename_celebrity : UpdateCelebrityAccountEvent.t :=
  {| UpdateCelebrityAccountEvent.CelebrityID := 3%N;
     UpdateCelebrityAccountEvent.UserID := uuid_Nil;
     UpdateCelebrityAccountEvent.NewName := "stage name" |}.

Definition no_role : UpdateMemberRoleInGovernmentAccountEvent.t :=
  {| UpdateMemberRoleInGovernmentAccountEvent.UserID := 1%N;
     UpdateMemberRoleInGovernmentAccountEvent.GovernmentID := 2%N;
     UpdateMemberRoleInGovernmentAccountEvent.NewRoleID := uuid_Nil |}.

Definition enterprise_update (user enterprise : UUID)
  : UpdateEnterpriseAccountInput.t :=
  {| UpdateEnterpriseAccountInput.UserID := user;
     UpdateEnterpriseAccountInput.EnterpriseID := enterprise;
     UpdateEnterpriseAccountInput.UpdatedUserAccountID := 8%N |}.

Definition unnamed_permission : Permission.t :=
  {| Permission.ID := 5%N; Permission.Name := "";
     Permission.Description := "reads accounts" |}.

Definition read_permission : Permission.t :=
  {| Permission.ID := 5%N; Permission.Name := "read";
     Permission.Description := "" |}.

(** Two kinds answer 404, then the connection is refused. *)
Definition connection_lost : @State Scripted.lib :=
  Scripted.start [] [Scripted.not_found; Scripted.not_found].

Definition created : result Response :=
  Scripted.reply 201 "201 Created" "{}".


(** A service account with id and name and without roles. *)
Definition roleless : ServiceAccount.t :=
  {| ServiceAccount.ID := 9%N; ServiceAccount.Secret := "s";
     ServiceAccount.ServiceName := "billing";
     ServiceAccount.Roles := Some [];
     ServiceAccount.CreatedAt := 0; ServiceAccount.ExpiresAt := None |}.

(** A member-role update in which nothing is set. *)
Definition no_identifiers : UpdateMemberRoleInGovernmentAccountEvent.t :=
  {| UpdateMemberRoleInGovernmentAccountEvent.UserID := uuid_Nil;
     UpdateMemberRoleInGovernmentAccountEvent.GovernmentID := uuid_Nil;
     UpdateMemberRoleInGovernmentAccountEvent.NewRoleID := uuid_Nil |}.

End ScriptedMore.

(** ** A server that answers by the request *)

Module Routed.

(** The account 7 exists under the kind business only, and the six kinds
    list two, one, no, two, one and one account: the answer depends on the
    method and the URL of the request, every other request is answered
    404. *)
Definition serve (req : Request) : result Response :=
  let url := Target req in
  if (Method req =? "DELETE")%string then
    if (url =? "https://accounts.test/business/00000000-0000-0000-0000-000000000007")%string
    then Scripted.ok ""
    else Scripted.not_found
  else if (Method req =? "GET")%string then
    if (url =? "https://accounts.test/user")%string then Scripted.ok "two"
    else if (url =? "https://accounts.test/agency")%string
    then Scripted.ok "one"
    else if (url =? "https://accounts.test/celebrity")%string
    then Scripted.ok "none"
    else if (url =? "https://accounts.test/business")%string
    then Scripted.ok "two"
    else if (url =? "https://accounts.test/enterprise")%string
    then Scripted.ok "one"
    else if (url =? "https://accounts.test/government")%string
    then Scripted.ok "one"
    else Scripted.not_found
  else Scripted.not_found.

Definition roundTrip (w : Scripted.scene) (req : Request)
  : result Response * Scripted.scene := (serve req, w).

Definition client : @Client Scripted.lib :=
  @Build_Client Scripted.lib "https://accounts.test" "secret-token" "api-key"
                roundTrip.

Definition start : @State Scripted.lib := Scripted.start [] [].

Definition base : URL := Build_URL "https://accounts.test" "" "".

(** The response the server gives to a request. *)
Definition response (req : Request) : Response :=
  match serve req with
  | inl resp => resp
  | inr _ => {| StatusCode := 0; Status := "";
                Body := {| body_data := ""; body_err := None |} |}
  end.

End Routed.

(* ================================================================== *)
(** * Properties *)

Unset Implicit Arguments.

(** ** The kind resolver *)

Ltac resolve_cases :=
  unfold resolves_kind, populated; simpl;
  repeat split; intros;
  repeat match goal with
         | E : _ :: _ = _ :: _ |- _ => inversion E; clear E; subst
         | E : _ :: _ = [] |- _ => discriminate E
         | E : [] = _ :: _ |- _ => discriminate E
         end;
  try reflexivity.

Lemma CreateAccountInput_resolves (input : CreateAccountInput.t) :
  resolves_kind (CreateAccountInput.identifiers input)
                (CreateAccountInput.GetAccountType input).
Proof.
  destruct input as [[u|] [a|] [ce|] [b|] [e|] [g|]];
    unfold CreateAccountInput.GetAccountType, CreateAccountInput.identifiers;
    resolve_cases.
Qed.

Lemma UpdateAccountInput_resolves (input : UpdateAccountInput.t) :
  resolves_kind (UpdateAccountInput.identifiers input)
                (UpdateAccountInput.GetAccountType input).
Proof.
  destruct input as [[u|] [a|] [ce|] [b|] [e|] [g|]];
    unfold UpdateAccountInput.GetAccountType, UpdateAccountInput.identifiers;
    resolve_cases.
Qed.

Lemma SearchAccountInput_resolves (input : SearchAccountInput.t) :
  resolves_kind (SearchAccountInput.identifiers input)
                (SearchAccountInput.GetAccountType input).
Proof.
  destruct input as [[u|] [a|] [ce|] [b|] [e|] [g|]];
    unfold SearchAccountInput.GetAccountType, SearchAccountInput.identifiers;
    resolve_cases.
Qed.

Section ResolverCallers.
Context `{GoLib}.
Context {dec_Account : Decodable Account.t}.
Context {dec_Accounts : Decodable (list (option Account.t))}.

Lemma CreateAccount_undetermined c input st u :
  url_Parse (BaseURL c) = inl u ->
  CreateAccountInput.GetAccountType input = "" ->
  CreateAccount c input st = (inr KindUndetermined, st).
Proof.
  intros Hu Ht. unfold CreateAccount, bind, try, try_wrap.
  rewrite Hu, Ht. reflexivity.
Qed.

Lemma UpdateAccount_undetermined c id input st u :
  url_Parse (BaseURL c) = inl u ->
  UpdateAccountInput.GetAccountType input = "" ->
  UpdateAccount c id input st = (inr KindUndetermined, st).
Proof.
  intros Hu Ht. unfold UpdateAccount, bind, try, try_wrap.
  rewrite Hu, Ht. reflexivity.
Qed.

Lemma SearchAccounts_undetermined c input st u :
  url_Parse (BaseURL c) = inl u ->
  SearchAccountInput.GetAccountType input = "" ->
  SearchAccounts c input st = (inr KindUndetermined, st).
Proof.
  intros Hu Ht. unfold SearchAccounts, bind, try, try_wrap.
  rewrite Hu, Ht. reflexivity.
Qed.

(** C1.  For each of the three resolver inputs, [GetAccountType] returns
    the tag of the only populated kind identifier, the first populated one
    in the order user, agency, celebrity, business, enterprise, government
    when several are populated, and the empty tag when none is; on the
    empty tag [CreateAccount], [UpdateAccount] and [SearchAccounts] return
    the error "could not determine the account type" and send nothing
    (the base URL is parsed first and must parse). *)
Theorem GetAccountType_resolves_kind
        (create : CreateAccountInput.t) (update : UpdateAccountInput.t)
        (search : SearchAccountInput.t) :
  (resolves_kind (CreateAccountInput.identifiers create)
                 (CreateAccountInput.GetAccountType create)
   /\ resolves_kind (UpdateAccountInput.identifiers update)
                    (UpdateAccountInput.GetAccountType update)
   /\ resolves_kind (SearchAccountInput.identifiers search)
                    (SearchAccountInput.GetAccountType search))
  /\ (forall c id st u,
         url_Parse (BaseURL c) = inl u ->
         (populated (CreateAccountInput.identifiers create) = [] ->
          CreateAccount c create st = (inr KindUndetermined, st))
         /\ (populated (UpdateAccountInput.identifiers update) = [] ->
             UpdateAccount c id update st = (inr KindUndetermined, st))
         /\ (populated (SearchAccountInput.identifiers search) = [] ->
             SearchAccounts c search st = (inr KindUndetermined, st))).
Proof.
  split.
  - repeat split;
      first [ apply CreateAccountInput_resolves
            | apply UpdateAccountInput_resolves
            | apply SearchAccountInput_resolves ].
  - intros c id st u Hu. repeat split; intro Hnone.
    + apply CreateAccount_undetermined with (u := u); [exact Hu|].
      now apply (CreateAccountInput_resolves create).
    + apply UpdateAccount_undetermined with (u := u); [exact Hu|].
      now apply (UpdateAccountInput_resolves update).
    + apply SearchAccounts_undetermined with (u := u); [exact Hu|].
      now apply (SearchAccountInput_resolves search).
Qed.

End ResolverCallers.

(** ** The fan-out of [DeleteAccount] *)

Section FanOutDelete.
Context `{GoLib}.

Lemma after_nil (st : State) : after st [] (world st) = st.
Proof. destruct st; unfold after; simpl. now rewrite app_nil_r. Qed.

Lemma after_after (st : State) reqs w1 more w2 :
  after (after st reqs w1) more w2 = after st (reqs ++ more) w2.
Proof. unfold after; simpl. now rewrite app_assoc. Qed.

Lemma after_cons (st : State) req w1 reqs w2 :
  after {| world := w1; sent := sent st ++ [req] |} reqs w2
  = after st (req :: reqs) w2.
Proof. unfold after; simpl. now rewrite <- app_assoc. Qed.

(** One step of an exchange, inverted. *)
Lemma exchange_cons_inv c w req reqs (resps : list Response) w2 :
  exchange c w (req :: reqs) = (map inl resps, w2) ->
  exists resp rest w1,
    resps = resp :: rest
    /\ HttpClient c w req = (inl resp, w1)
    /\ exchange c w1 reqs = (map inl rest, w2).
Proof.
  simpl. destruct (HttpClient c w req) as [answer w1] eqn:Edo.
  destruct (exchange c w1 reqs) as [answers w3] eqn:Erest.
  intro E. destruct resps as [|resp rest]; simpl in E; [discriminate|].
  inversion E; subst. now exists resp, rest, w1.
Qed.

Lemma map_inl_nil_inv {A B} (l : list A) : [] = map (@inl A B) l -> l = [].
Proof. destruct l; [reflexivity | discriminate]. Qed.

(** Kinds that answer 404 are passed over, one request each. *)
Lemma DeleteAccount_range_not_found c id rest :
  forall before reqs resps w1 st,
    map (DeleteAccount_request c id) before = map inl reqs ->
    exchange c (world st) reqs = (map inl resps, w1) ->
    Forall (fun r => StatusCode r = http_StatusNotFound) resps ->
    DeleteAccount_range c id (before ++ rest) st
    = DeleteAccount_range c id rest (after st reqs w1).
Proof.
  induction before as [|kind before IH]; intros reqs resps w1 st Hreq Hex H404.
  - apply map_inl_nil_inv in Hreq; subst reqs. simpl in Hex.
    inversion Hex; subst. now rewrite after_nil.
  - destruct reqs as [|req reqs]; [discriminate|].
    simpl in Hreq. injection Hreq as Hkind Hreqs.
    apply exchange_cons_inv in Hex.
    destruct Hex as (resp & resps' & w0 & -> & Hdo & Hex).
    inversion H404 as [|? ? Hcode H404']; subst.
    simpl. unfold bind at 1. unfold try, try_wrap. rewrite Hkind.
    unfold bind at 1. unfold Do. rewrite Hdo, Hcode. simpl.
    rewrite (IH reqs resps' w1 {| world := w0; sent := sent st ++ [req] |}
               Hreqs Hex H404').
    now rewrite after_cons.
Qed.

(** The three ways in which the probe of one kind ends the loop. *)
Lemma DeleteAccount_range_ok c id kind rest st req resp w :
  DeleteAccount_request c id kind = inl req ->
  HttpClient c (world st) req = (inl resp, w) ->
  StatusCode resp = http_StatusOK ->
  DeleteAccount_range c id (kind :: rest) st = (inl tt, after st [req] w).
Proof.
  intros Hreq Hdo Hcode. simpl. unfold bind, try, try_wrap, Do.
  now rewrite Hreq, Hdo, Hcode.
Qed.

Lemma DeleteAccount_range_unexpected c id kind rest st req resp w :
  DeleteAccount_request c id kind = inl req ->
  HttpClient c (world st) req = (inl resp, w) ->
  StatusCode resp <> http_StatusOK ->
  StatusCode resp <> http_StatusNotFound ->
  DeleteAccount_range c id (kind :: rest) st
  = (inr (unexpected_response resp), after st [req] w).
Proof.
  intros Hreq Hdo Hok Hnf. simpl. unfold bind, try, try_wrap, Do.
  rewrite Hreq, Hdo.
  apply Z.eqb_neq in Hok. apply Z.eqb_neq in Hnf. now rewrite Hok, Hnf.
Qed.

(** The request the loop builds for a kind is the DELETE of the kind's
    path followed by the account id. *)
Lemma DeleteAccount_request_probe c id u kind req :
  url_Parse (BaseURL c) = inl u ->
  DeleteAccount_request c id kind = inl req ->
  delete_probe u id kind req.
Proof.
  intros Hu Hreq. unfold DeleteAccount_request in Hreq. rewrite Hu in Hreq.
  unfold http_NewRequest in Hreq.
  destruct (url_Parse (URL_String _)); [|discriminate].
  inversion Hreq; subst. repeat split.
Qed.

Lemma DeleteAccount_requests_probes c id u :
  url_Parse (BaseURL c) = inl u ->
  forall kinds reqs,
    map (DeleteAccount_request c id) kinds = map inl reqs ->
    Forall2 (delete_probe u id) kinds reqs.
Proof.
  intro Hu. induction kinds as [|kind kinds IH]; intros reqs Hreqs.
  - apply map_inl_nil_inv in Hreqs. subst. constructor.
  - destruct reqs as [|req reqs]; [discriminate|].
    simpl in Hreqs. injection Hreqs as Hkind Hreqs.
    constructor; [|now apply IH].
    now apply (DeleteAccount_request_probe c id u kind req).
Qed.

(** Probes are told apart by their URLs when the library gives the kinds
    different URLs. *)
Lemma delete_probe_kind (id : UUID) (u : URL) kinds reqs req other :
  distinct_endpoints u (fun k => [k; UUID_String id]) ->
  Forall2 (delete_probe u id) kinds reqs ->
  incl kinds accountTypes ->
  In other accountTypes ->
  In req reqs ->
  delete_probe u id other req ->
  In other kinds.
Proof.
  intros Hdistinct Hprobes.
  induction Hprobes as [|k r kinds reqs Hk Hrest IH];
    intros Hincl Hother Hin Hprobe.
  - destruct Hin.
  - destruct Hin as [-> | Hin].
    + left. destruct Hk as (_ & Hk & _). destruct Hprobe as (_ & Ho & _).
      apply Hdistinct; [apply Hincl; now left | assumption | congruence].
    + right. apply IH; try assumption.
      intros x Hx. apply Hincl. now right.
Qed.

(** C2.  [DeleteAccount] probes the six kind-specific delete endpoints in
    the order user, agency, celebrity, business, enterprise, government:
    the request for a kind is the DELETE of the kind's path followed by the
    account id.  Kinds answering 404 are passed over, the first answer 200
    ends the loop with success and the kinds after it receive no request;
    when all six answer 404 the result is the error "account not found".
    In particular, when user, agency and celebrity answer 404 and business
    answers 200, the call succeeds after exactly the four requests to
    these endpoints, and none of the four is a probe of enterprise or of
    government. *)
Theorem DeleteAccount_first_ok_wins (c : Client) (accountID : UUID)
        (st : State) :
  (forall before kind rest reqs resps w1 req resp w2,
      accountTypes = (before ++ kind :: rest)%list ->
      map (DeleteAccount_request c accountID) before = map inl reqs ->
      exchange c (world st) reqs = (map inl resps, w1) ->
      Forall (fun r => StatusCode r = http_StatusNotFound) resps ->
      DeleteAccount_request c accountID kind = inl req ->
      HttpClient c w1 req = (inl resp, w2) ->
      StatusCode resp = http_StatusOK ->
      DeleteAccount c accountID st = (inl tt, after st (reqs ++ [req]) w2)
      /\ forall u,
          url_Parse (BaseURL c) = inl u ->
          Forall2 (delete_probe u accountID) (before ++ [kind])
                  (reqs ++ [req]))
  /\ (forall reqs resps w1,
         map (DeleteAccount_request c accountID) accountTypes = map inl reqs ->
         exchange c (world st) reqs = (map inl resps, w1) ->
         Forall (fun r => StatusCode r = http_StatusNotFound) resps ->
         DeleteAccount c accountID st
         = (inr AccountNotFound, after st reqs w1)
         /\ forall u,
             url_Parse (BaseURL c) = inl u ->
             Forall2 (delete_probe u accountID)
                     ["user"; "agency"; "celebrity"; "business";
                      "enterprise"; "government"] reqs)
  /\ (forall user agency celebrity business r1 r2 r3 r4 w4,
         map (DeleteAccount_request c accountID)
             ["user"; "agency"; "celebrity"; "business"]
         = map inl [user; agency; celebrity; business] ->
         exchange c (world st) [user; agency; celebrity; business]
         = (map inl [r1; r2; r3; r4], w4) ->
         map StatusCode [r1; r2; r3; r4] = [404; 404; 404; 200] ->
         DeleteAccount c accountID st
         = (inl tt, after st [user; agency; celebrity; business] w4)
         /\ length (sent (snd (DeleteAccount c accountID st)))
            = (length (sent st) + 4)%nat
         /\ forall u,
             url_Parse (BaseURL c) = inl u ->
             Forall2 (delete_probe u accountID)
                     ["user"; "agency"; "celebrity"; "business"]
                     [user; agency; celebrity; business]
             /\ (distinct_endpoints u (fun k => [k; UUID_String accountID]) ->
                 forall req,
                   In req [user; agency; celebrity; business] ->
                   ~ delete_probe u accountID "enterprise" req
                   /\ ~ delete_probe u accountID "government" req))
  /\ (forall u kind req,
         url_Parse (BaseURL c) = inl u ->
         DeleteAccount_request c accountID kind = inl req ->
         Method req = "DELETE"
         /\ Target req
            = URL_String
                (set_Path u (path_Join [Path u; kind; UUID_String accountID]))
         /\ ReqBody req = None).
Proof.
  assert (Hprobes :
    forall u kinds reqs,
      url_Parse (BaseURL c) = inl u ->
      map (DeleteAccount_request c accountID) kinds = map inl reqs ->
      Forall2 (delete_probe u accountID) kinds reqs).
  { intros u kinds reqs Hu.
    apply (DeleteAccount_requests_probes c accountID u Hu). }
  assert (Hfirst :
    forall before kind rest reqs resps w1 req resp w2,
      accountTypes = (before ++ kind :: rest)%list ->
      map (DeleteAccount_request c accountID) before = map inl reqs ->
      exchange c (world st) reqs = (map inl resps, w1) ->
      Forall (fun r => StatusCode r = http_StatusNotFound) resps ->
      DeleteAccount_request c accountID kind = inl req ->
      HttpClient c w1 req = (inl resp, w2) ->
      StatusCode resp = http_StatusOK ->
      DeleteAccount c accountID st = (inl tt, after st (reqs ++ [req]) w2)).
  { intros before kind rest reqs resps w1 req resp w2
           Hsplit Hreqs Hex H404 Hreq Hdo Hcode.
    unfold DeleteAccount. rewrite Hsplit.
    rewrite (DeleteAccount_range_not_found c accountID (kind :: rest)
               before reqs resps w1 st Hreqs Hex H404).
    rewrite (DeleteAccount_range_ok c accountID kind rest
               (after st reqs w1) req resp w2 Hreq Hdo Hcode).
    now rewrite after_after. }
  split; [|split; [|split]].
  - intros before kind rest reqs resps w1 req resp w2
           Hsplit Hreqs Hex H404 Hreq Hdo Hcode.
    split.
    + exact (Hfirst before kind rest reqs resps w1 req resp w2
                    Hsplit Hreqs Hex H404 Hreq Hdo Hcode).
    + intros u Hu. apply (Hprobes u _ _ Hu).
      rewrite !map_app. simpl. now rewrite Hreqs, Hreq.
  - intros reqs resps w1 Hreqs Hex H404. split.
    + unfold DeleteAccount. rewrite <- (app_nil_r accountTypes).
      now rewrite (DeleteAccount_range_not_found c accountID []
                     accountTypes reqs resps w1 st Hreqs Hex H404).
    + intros u Hu. exact (Hprobes u accountTypes reqs Hu Hreqs).
  - intros user agency celebrity business r1 r2 r3 r4 w4 Hreqs Hex Hcodes.
    assert (Hfour :
      forall u,
        url_Parse (BaseURL c) = inl u ->
        Forall2 (delete_probe u accountID)
                ["user"; "agency"; "celebrity"; "business"]
                [user; agency; celebrity; business]).
    { intros u Hu. exact (Hprobes u _ _ Hu Hreqs). }
    simpl in Hreqs. injection Hreqs as Hu Ha Hc Hb.
    injection Hcodes as H1 H2 H3 H4.
    change (map inl [r1; r2; r3; r4])
      with (map (@inl Response error) [r1; r2; r3] ++ [inl r4])%list in Hex.
    simpl in Hex.
    destruct (HttpClient c (world st) user) as [a1 w1] eqn:E1.
    destruct (HttpClient c w1 agency) as [a2 w2] eqn:E2.
    destruct (HttpClient c w2 celebrity) as [a3 w3] eqn:E3.
    destruct (HttpClient c w3 business) as [a4 w4'] eqn:E4.
    inversion Hex; subst a1 a2 a3 a4 w4'.
    assert (Hrun : DeleteAccount c accountID st
                   = (inl tt, after st [user; agency; celebrity; business] w4)).
    { apply (Hfirst ["user"; "agency"; "celebrity"] "business"
                    ["enterprise"; "government"]
                    [user; agency; celebrity] [r1; r2; r3] w3 business r4 w4);
        try reflexivity; try assumption.
      - simpl. now rewrite Hu, Ha, Hc.
      - simpl. now rewrite E1, E2, E3.
      - repeat constructor; assumption. }
    split; [exact Hrun|]. split.
    { rewrite Hrun. simpl. rewrite length_app. reflexivity. }
    intros u Hparsed. split; [exact (Hfour u Hparsed)|].
    intros Hdistinct req Hin.
    assert (Hnone :
      forall other,
        In other accountTypes ->
        delete_probe u accountID other req ->
        In other ["user"; "agency"; "celebrity"; "business"]).
    { intros other Hother Hprobe.
      apply (delete_probe_kind accountID u
               ["user"; "agency"; "celebrity"; "business"]
               [user; agency; celebrity; business] req other
               Hdistinct (Hfour u Hparsed)); try assumption.
      intros k Hk. unfold accountTypes. simpl in Hk |- *. tauto. }
    split; intro Hprobe.
    + assert (Hk : In "enterprise" accountTypes)
        by (unfold accountTypes; simpl; tauto).
      destruct (Hnone "enterprise" Hk Hprobe)
        as [E | [E | [E | [E | []]]]]; discriminate E.
    + assert (Hk : In "government" accountTypes)
        by (unfold accountTypes; simpl; tauto).
      destruct (Hnone "government" Hk Hprobe)
        as [E | [E | [E | [E | []]]]]; discriminate E.
  - intros u kind req Hu Hreq.
    exact (DeleteAccount_request_probe c accountID u kind req Hu Hreq).
Qed.

(** C9.  When the kinds probed so far answered 404 and the next kind
    answers with a status that is neither 200 nor 404, [DeleteAccount]
    returns the error "unexpected response from server" with that status
    line at once: the log ends with the request to that kind, the remaining
    kinds receive none, and the error is not "account not found". *)
Theorem DeleteAccount_unexpected_status_aborts (c : Client) (accountID : UUID)
        (st : State) before kind rest reqs resps w1 req resp w2 :
  accountTypes = (before ++ kind :: rest)%list ->
  map (DeleteAccount_request c accountID) before = map inl reqs ->
  exchange c (world st) reqs = (map inl resps, w1) ->
  Forall (fun r => StatusCode r = http_StatusNotFound) resps ->
  DeleteAccount_request c accountID kind = inl req ->
  HttpClient c w1 req = (inl resp, w2) ->
  StatusCode resp <> http_StatusOK ->
  StatusCode resp <> http_StatusNotFound ->
  DeleteAccount c accountID st
  = (inr (unexpected_response resp), after st (reqs ++ [req]) w2)
  /\ unexpected_response resp <> AccountNotFound
  /\ length (sent (snd (DeleteAccount c accountID st)))
     = (length (sent st) + length before + 1)%nat.
Proof.
  intros Hsplit Hreqs Hex H404 Hreq Hdo Hok Hnf.
  assert (Hrun : DeleteAccount c accountID st
                 = (inr (unexpected_response resp),
                    after st (reqs ++ [req]) w2)).
  { unfold DeleteAccount. rewrite Hsplit.
    rewrite (DeleteAccount_range_not_found c accountID (kind :: rest)
               before reqs resps w1 st Hreqs Hex H404).
    rewrite (DeleteAccount_range_unexpected c accountID kind rest
               (after st reqs w1) req resp w2 Hreq Hdo Hok Hnf).
    now rewrite after_after. }
  split; [exact Hrun|]. split; [discriminate|].
  rewrite Hrun. simpl. rewrite !length_app. simpl.
  assert (Hlen : length reqs = length before).
  { rewrite <- (length_map (@inl Request error) reqs), <- Hreqs.
    apply length_map. }
  lia.
Qed.

End FanOutDelete.

(** ** The fan-out of [ListAccounts] *)

Section FanOutList.
Context `{GoLib}.
Context {dec_AccountList : Decodable AccountList.t}.

(** One kind whose request is answered 200 with a body that decodes. *)
Lemma ListAccounts_fetch_ok c kind st req resp w accountList :
  ListAccounts_request c kind = inl req ->
  HttpClient c (world st) req = (inl resp, w) ->
  StatusCode resp = http_StatusOK ->
  ListAccounts_decoded resp = inl accountList ->
  ListAccounts_fetch c kind st = (inl accountList, after st [req] w).
Proof.
  intros Hreq Hdo Hcode Hdec.
  unfold ListAccounts_fetch, bind, try, try_wrap, Do.
  rewrite Hreq, Hdo, Hcode. simpl.
  unfold ListAccounts_decoded in Hdec.
  destruct (ReadAll (Body resp)) as [body|err]; [|discriminate].
  now rewrite Hdec.
Qed.

(** Kinds that answer 200 add their accounts behind those collected. *)
Lemma ListAccounts_range_collect c rest :
  forall types reqs resps lists w1 accounts st,
    map (ListAccounts_request c) types = map inl reqs ->
    exchange c (world st) reqs = (map inl resps, w1) ->
    Forall (fun r => StatusCode r = http_StatusOK) resps ->
    map ListAccounts_decoded resps = map inl lists ->
    ListAccounts_range c (types ++ rest) accounts st
    = ListAccounts_range c rest (accounts ++ all_accounts lists)
                         (after st reqs w1).
Proof.
  induction types as [|kind types IH];
    intros reqs resps lists w1 accounts st Hreqs Hex Hok Hdec.
  - apply map_inl_nil_inv in Hreqs; subst reqs. simpl in Hex.
    inversion Hex as [[Hresps Hw]]. apply map_inl_nil_inv in Hresps.
    subst resps. simpl in Hdec. apply map_inl_nil_inv in Hdec. subst lists.
    unfold all_accounts. simpl. now rewrite app_nil_r, after_nil.
  - destruct reqs as [|req reqs]; [discriminate|].
    simpl in Hreqs. injection Hreqs as Hkind Hreqs.
    apply exchange_cons_inv in Hex.
    destruct Hex as (resp & resps' & w0 & -> & Hdo & Hex).
    inversion Hok as [|? ? Hcode Hok']; subst.
    destruct lists as [|accountList lists]; [discriminate|].
    simpl in Hdec. injection Hdec as Hone Hdec.
    cbn [app ListAccounts_range].
    rewrite (ListAccounts_fetch_ok c kind st req resp w0 accountList
               Hkind Hdo Hcode Hone).
    rewrite (IH reqs resps' lists w1
               (accounts ++ AccountList.Accounts accountList)%list
               (after st [req] w0) Hreqs Hex Hok' Hdec).
    rewrite after_after. unfold all_accounts. simpl.
    now rewrite <- app_assoc.
Qed.

Lemma length_all_accounts (lists : list AccountList.t) :
  length (all_accounts lists)
  = list_sum (map (fun l => length (AccountList.Accounts l)) lists).
Proof.
  unfold all_accounts. induction lists as [|l lists IH]; simpl.
  - reflexivity.
  - now rewrite length_app, IH.
Qed.

(** The request the loop builds for a kind is the GET of the kind's
    path. *)
Lemma ListAccounts_request_probe c u kind req :
  url_Parse (BaseURL c) = inl u ->
  ListAccounts_request c kind = inl req ->
  list_probe u kind req.
Proof.
  intros Hu Hreq. unfold ListAccounts_request in Hreq. rewrite Hu in Hreq.
  unfold http_NewRequest in Hreq.
  destruct (url_Parse (URL_String _)); [|discriminate].
  inversion Hreq; subst. repeat split.
Qed.

Lemma ListAccounts_requests_probes c u :
  url_Parse (BaseURL c) = inl u ->
  forall kinds reqs,
    map (ListAccounts_request c) kinds = map inl reqs ->
    Forall2 (list_probe u) kinds reqs.
Proof.
  intro Hu. induction kinds as [|kind kinds IH]; intros reqs Hreqs.
  - apply map_inl_nil_inv in Hreqs. subst. constructor.
  - destruct reqs as [|req reqs]; [discriminate|].
    simpl in Hreqs. injection Hreqs as Hkind Hreqs.
    constructor; [|now apply IH].
    now apply (ListAccounts_request_probe c u kind req).
Qed.

(** C3.  The six requests of [ListAccounts] are the GETs of the six kind
    endpoints, in the order user, agency, celebrity, business, enterprise,
    government.  When they are answered 200 and the bodies decode to
    [lists], [ListAccounts] returns, with a nil error, the accounts of the
    six lists one behind the other in the order of the kinds, so that the
    length of the result is the sum of the six lengths; nothing is removed
    or reordered. *)
Theorem ListAccounts_concatenates (c : Client) (st : State)
        reqs resps lists w1 :
  map (ListAccounts_request c) accountTypes = map inl reqs ->
  exchange c (world st) reqs = (map inl resps, w1) ->
  Forall (fun r => StatusCode r = http_StatusOK) resps ->
  map ListAccounts_decoded resps = map inl lists ->
  ListAccounts c st = ((all_accounts lists, None), after st reqs w1)
  /\ length lists = 6%nat
  /\ length (fst (fst (ListAccounts c st)))
     = list_sum (map (fun l => length (AccountList.Accounts l)) lists)
  /\ (exists u,
         url_Parse (BaseURL c) = inl u
         /\ Forall2 (list_probe u)
                    ["user"; "agency"; "celebrity"; "business";
                     "enterprise"; "government"] reqs)
  /\ (forall u kind req,
         url_Parse (BaseURL c) = inl u ->
         ListAccounts_request c kind = inl req ->
         Method req = "GET"
         /\ Target req = URL_String (set_Path u (path_Join [Path u; kind]))
         /\ ReqBody req = None).
Proof.
  intros Hreqs Hex Hok Hdec.
  assert (Hrun : ListAccounts c st
                 = ((all_accounts lists, None), after st reqs w1)).
  { unfold ListAccounts. rewrite <- (app_nil_r accountTypes).
    now rewrite (ListAccounts_range_collect c [] accountTypes reqs resps
                   lists w1 [] st Hreqs Hex Hok Hdec). }
  split; [exact Hrun|]. split; [|split; [|split]].
  - apply (f_equal (@length _)) in Hreqs, Hdec.
    rewrite !length_map in Hreqs, Hdec.
    assert (Hresps : length resps = length reqs).
    { clear - Hex. revert resps w1 st Hex.
      induction reqs as [|req reqs IH]; intros resps w1 st Hex.
      - simpl in Hex. inversion Hex as [[Hr Hw]].
        apply map_inl_nil_inv in Hr. now subst.
      - apply exchange_cons_inv in Hex.
        destruct Hex as (resp & rest & w0 & -> & Hdo & Hex).
        simpl. f_equal.
        exact (IH rest w1 {| world := w0; sent := [] |} Hex). }
    simpl in Hreqs. lia.
  - rewrite Hrun. simpl. apply length_all_accounts.
  - destruct (url_Parse (BaseURL c)) as [u|err] eqn:Hu.
    + exists u. split; [reflexivity|].
      exact (ListAccounts_requests_probes c u Hu accountTypes reqs Hreqs).
    + destruct reqs as [|req reqs]; [discriminate Hreqs|].
      simpl in Hreqs. unfold ListAccounts_request in Hreqs.
      rewrite Hu in Hreqs. discriminate Hreqs.
  - intros u kind req Hu Hreq.
    exact (ListAccounts_request_probe c u kind req Hu Hreq).
Qed.

(** C6.  When the kinds before [kind] were listed successfully and the
    sub-request for [kind] fails, [ListAccounts] stops there: it returns
    the nil slice together with the error, whatever was collected from the
    earlier kinds, and the kinds after [kind] receive no request.  This
    holds for every failure of the iteration, in particular for a transport
    error and for a status other than 200. *)
Theorem ListAccounts_aborts_on_first_error (c : Client) (st : State)
        before kind rest reqs resps lists w1 req :
  accountTypes = (before ++ kind :: rest)%list ->
  map (ListAccounts_request c) before = map inl reqs ->
  exchange c (world st) reqs = (map inl resps, w1) ->
  Forall (fun r => StatusCode r = http_StatusOK) resps ->
  map ListAccounts_decoded resps = map inl lists ->
  ListAccounts_request c kind = inl req ->
  (forall err w2,
      HttpClient c w1 req = (inr err, w2) ->
      ListAccounts c st = (([], Some err), after st (reqs ++ [req]) w2))
  /\ (forall resp w2,
         HttpClient c w1 req = (inl resp, w2) ->
         StatusCode resp <> http_StatusOK ->
         ListAccounts c st
         = (([], Some (bad_response resp)), after st (reqs ++ [req]) w2))
  /\ (forall err st2,
         ListAccounts_fetch c kind (after st reqs w1) = (inr err, st2) ->
         ListAccounts c st = (([], Some err), st2)).
Proof.
  intros Hsplit Hreqs Hex Hok Hdec Hreq.
  assert (Hany : forall err st2,
             ListAccounts_fetch c kind (after st reqs w1) = (inr err, st2) ->
             ListAccounts c st = (([], Some err), st2)).
  { intros err st2 Hfetch. unfold ListAccounts. rewrite Hsplit.
    rewrite (ListAccounts_range_collect c (kind :: rest) before reqs
               resps lists w1 [] st Hreqs Hex Hok Hdec).
    cbn [ListAccounts_range]. now rewrite Hfetch. }
  split; [|split; [|exact Hany]].
  - intros err w2 Hdo. apply Hany.
    unfold ListAccounts_fetch, bind, try, try_wrap, Do.
    rewrite Hreq. simpl. rewrite Hdo.
    unfold after; simpl. now rewrite <- app_assoc.
  - intros resp w2 Hdo Hcode. apply Hany.
    unfold ListAccounts_fetch, bind, try, try_wrap, Do.
    rewrite Hreq. simpl. rewrite Hdo.
    apply Z.eqb_neq in Hcode. rewrite Hcode. simpl.
    unfold after; simpl. now rewrite <- app_assoc.
Qed.

End FanOutList.

(** ** Tokens *)

(** A log that did not grow cannot end with a new request. *)
Lemma log_not_extended (log : list Request) (req : Request) :
  log <> (log ++ [req])%list.
Proof.
  intro E. apply (f_equal (@length _)) in E.
  rewrite length_app in E. simpl in E. lia.
Qed.

(** Case analysis along a run: the innermost scrutinee first. *)
Ltac destruct_innermost x :=
  lazymatch x with
  | context [match ?y with _ => _ end] => destruct_innermost y
  | _ => destruct x eqn:?
  end.

Ltac run_step H :=
  match type of H with
  | context [match ?x with _ => _ end] => destruct_innermost x; simpl in H
  end.

Section TokenProperties.
Context `{GoLib}.
Context {dec_Token : Decodable Token.t}.

(** [Token.Validate] sends nothing, and fails with one of its three
    errors only. *)
Lemma Token_Validate_silent (t : Token.t) (st : State) :
  sent (snd (Token_Validate t st)) = sent st
  /\ (forall e, fst (Token_Validate t st) = inr e -> is_validation_error e).
Proof.
  unfold Token_Validate, is_validation_error, bind, now, fail, ret.
  destruct (Token.UserID t =? uuid_Nil)%N; simpl.
  { split; [reflexivity|]. intros e E. injection E as <-. now left. }
  destruct (Token.Scope t =? "")%string; simpl.
  { split; [reflexivity|]. intros e E. injection E as <-. right. now left. }
  destruct (time_Now (world st)) as [current w].
  destruct (Time_Before (Token.Expiry t) current); simpl.
  - split; [reflexivity|]. intros e E. injection E as <-. right. now right.
  - split; [reflexivity|]. intros e E. discriminate E.
Qed.

(** X21.  [CreateToken] validates its payload before any request: when
    the scope is empty, or when the expiry is strictly before the clock
    reading that the validation takes, it returns one of the errors of
    [Token.Validate] and the log of requests is unchanged. *)
Theorem CreateToken_validates_before_sending (c : Client) (userID : UUID)
        (scope : string) (st : State) :
  let created := fst (time_Now (world st)) in
  let checked := fst (time_Now (snd (time_Now (world st)))) in
  scope = ""
  \/ Time_Before (Time_Add created (time_Hour * 24)) checked = true ->
  exists e,
    fst (CreateToken c userID scope st) = inr e
    /\ is_validation_error e
    /\ sent (snd (CreateToken c userID scope st)) = sent st.
Proof.
  intros created checked Hbad. subst created checked.
  assert (Hrun : exists e w,
             is_validation_error e
             /\ CreateToken c userID scope st
                = (inr e, {| world := w; sent := sent st |})).
  { unfold CreateToken, Token_Validate, is_validation_error, bind, now, fail.
    destruct (time_Now (world st)) as [created w1]. simpl in *.
    destruct (userID =? uuid_Nil)%N.
    { exists err_user_id_required, w1. auto. }
    destruct (scope =? "")%string eqn:Escope.
    { exists err_scope_required, w1. auto. }
    destruct Hbad as [Hempty | Hpast].
    { subst scope. discriminate Escope. }
    unfold Time_Before, Time_Add in *. simpl in *.
    destruct (time_Now w1) as [checked w2]. simpl in *.
    rewrite Hpast. exists err_expiry_future, w2. auto. }
  destruct Hrun as (e & w & Hval & Hrun).
  exists e. rewrite Hrun. simpl. auto.
Qed.

(** A request is sent only for a payload that passed [Token.Validate]. *)
Lemma CreateToken_sends_valid_payload c userID scope st :
  sent (snd (CreateToken c userID scope st)) <> sent st ->
  userID <> uuid_Nil
  /\ scope <> ""
  /\ Time_Before
       (Time_Add (fst (time_Now (world st))) (time_Hour * 24))
       (fst (time_Now (snd (time_Now (world st))))) = false.
Proof.
  destruct (CreateToken c userID scope st) as [r st'] eqn:Erun. simpl.
  unfold CreateToken, Token_Validate, bind, now, fail, ret, try, try_wrap,
    wrap_err, Do, http_NewRequest in Erun.
  destruct (time_Now (world st)) as [created w1]. simpl in *.
  repeat run_step Erun; inversion Erun; subst; simpl; intro Hsent;
    try (exfalso; apply Hsent; reflexivity);
    repeat match goal with
           | E : (_ =? _)%N = false |- _ => apply N.eqb_neq in E
           | E : (_ =? _)%string = false |- _ => apply String.eqb_neq in E
           | E : time_Now _ = _ |- _ => rewrite E
           end;
    auto.
Qed.

(** C10.  The payload of [CreateToken] has the expiry 24 hours after the
    clock reading taken by the call, whatever the user id and the scope:
    the expiry is later than that reading, every request the call sends is
    the POST of this payload, the marshalled object holds the expiry so
    computed, and a request is sent only when the expiry is not before the
    reading that the validation takes. *)
Theorem CreateToken_expiry_is_a_day_after_the_call (c : Client)
        (userID : UUID) (scope : string) (st : State) :
  let created := fst (time_Now (world st)) in
  let checked := fst (time_Now (snd (time_Now (world st)))) in
  let payload := CreateToken_payload userID scope created in
  Token.Expiry payload = created + 24 * 3600 * 1000000000
  /\ Time_Before created (Token.Expiry payload) = true
  /\ (sent (snd (CreateToken c userID scope st)) = sent st
      \/ exists jsonPayload,
          json_Marshal payload = inl jsonPayload
          /\ sent (snd (CreateToken c userID scope st))
             = (sent st ++ [CreateToken_request c jsonPayload])%list)
  /\ json_tree (reflect_ValueOf payload)
     = match Time_MarshalJSON (Token.Expiry payload) with
       | inl expiry =>
           inl (JObject [("Plaintext", JString ""); ("Hash", JNull);
                         ("UserID", JString (UUID_String userID));
                         ("Expiry", JString expiry);
                         ("Scope", JString scope); ("Error", JNull)])
       | inr err => inr err
       end
  /\ (sent (snd (CreateToken c userID scope st)) <> sent st ->
      Time_Before (Token.Expiry payload) checked = false).
Proof.
  intros created checked payload. subst payload checked created.
  split; [|split; [|split; [|split]]].
  5: { intro Hsent. now apply CreateToken_sends_valid_payload in Hsent. }
  - unfold CreateToken_payload, Time_Add, time_Hour. simpl. lia.
  - unfold CreateToken_payload, Time_Before, Time_Add, time_Hour. simpl.
    apply Z.ltb_lt. lia.
  - destruct (CreateToken c userID scope st) as [r st'] eqn:Erun. simpl.
    unfold CreateToken, Token_Validate, bind, now, fail, ret, try, try_wrap,
      wrap_err, Do, http_NewRequest in Erun.
    unfold CreateToken_payload, CreateToken_request.
    destruct (time_Now (world st)) as [created w1]. simpl in *.
    repeat run_step Erun;
      inversion Erun; subst; simpl;
      first [ left; reflexivity
            | right; eexists; split; reflexivity ].
  - unfold CreateToken_payload, reflect_ValueOf, Token.reflect. simpl.
    destruct (Time_MarshalJSON _); reflexivity.
Qed.

End TokenProperties.

(** ** What is marshalled *)

Section Payloads.
Context `{GoLib}.
Context {dec_Account : Decodable Account.t}.
Context {dec_AccountMembership : Decodable AccountMembership.t}.

(** A run that logged exactly one more request logged this one. *)
Lemma log_extended_inv (log : list Request) (a b : Request) :
  (log ++ [a])%list = (log ++ [b])%list -> a = b.
Proof. intro E. apply app_inv_head in E. now injection E. Qed.

Ltac read_log Hsent :=
  simpl in Hsent;
  first [ exfalso; exact (log_not_extended _ _ Hsent)
        | apply log_extended_inv in Hsent; subst ].

(** The one request of [UpdateAccountMembership] is the PATCH of the
    marshalled event. *)
Lemma UpdateAccountMembership_sends c id event st req :
  sent (snd (UpdateAccountMembership c id event st)) = (sent st ++ [req])%list ->
  exists body,
    json_Marshal event = inl body
    /\ Method req = "PATCH" /\ ReqBody req = Some body.
Proof.
  destruct (UpdateAccountMembership c id event st) as [r st'] eqn:Erun.
  simpl. intro Hsent.
  unfold UpdateAccountMembership, bind, fail, ret, try, try_wrap, wrap_err,
    Do, http_NewRequest in Erun.
  repeat run_step Erun; inversion Erun; subst; read_log Hsent;
    eexists; repeat split; reflexivity.
Qed.

(** The one request of [UpdateAccount] is the PUT of the marshalled
    input. *)
Lemma UpdateAccount_sends c id input st req :
  sent (snd (UpdateAccount c id input st)) = (sent st ++ [req])%list ->
  exists body,
    json_Marshal input = inl body
    /\ Method req = "PUT" /\ ReqBody req = Some body.
Proof.
  destruct (UpdateAccount c id input st) as [r st'] eqn:Erun.
  simpl. intro Hsent.
  unfold UpdateAccount, bind, fail, ret, try, try_wrap, wrap_err,
    Do, http_NewRequest in Erun.
  repeat run_step Erun; inversion Erun; subst; read_log Hsent;
    eexists; repeat split; reflexivity.
Qed.

Ltac names_case :=
  simpl; eexists; split; [reflexivity|]; simpl;
  repeat split; intros;
  repeat match goal with
         | E : _ \/ _ |- _ => destruct E
         | E : False |- _ => destruct E
         | E : ?a = ?b |- _ => discriminate E
         | E : ?a <> ?a |- _ => destruct (E eq_refl)
         end;
  try discriminate; auto 8.

(** The members of a marshalled membership event. *)
Lemma UpdateAccountMembershipEvent_members
      (event : UpdateAccountMembershipEvent.t) :
  exists members,
    json_tree (reflect_ValueOf event) = inl (JObject members)
    /\ (In "account_type" (map fst members)
        <-> UpdateAccountMembershipEvent.AccountType event <> "")
    /\ (In "role" (map fst members)
        <-> UpdateAccountMembershipEvent.Role event <> "").
Proof.
  destruct event as [[|a accountType] accountID userID [|r role]];
    unfold reflect_ValueOf, UpdateAccountMembershipEvent.reflect;
    names_case.
Qed.

(** The members of a marshalled account update. *)
Lemma UpdateAccountInput_members (input : UpdateAccountInput.t) :
  exists members,
    json_tree (reflect_ValueOf input) = inl (JObject members)
    /\ In "user_id" (map fst members)
    /\ (In "agencyId" (map fst members)
        <-> UpdateAccountInput.AgencyID input <> None)
    /\ (In "celebrityId" (map fst members)
        <-> UpdateAccountInput.CelebrityID input <> None)
    /\ (In "businessId" (map fst members)
        <-> UpdateAccountInput.BusinessID input <> None)
    /\ (In "enterpriseId" (map fst members)
        <-> UpdateAccountInput.EnterpriseID input <> None)
    /\ (In "governmentId" (map fst members)
        <-> UpdateAccountInput.GovernmentID input <> None).
Proof.
  destruct input as [[u|] [a|] [ce|] [b|] [e|] [g|]];
    unfold reflect_ValueOf, UpdateAccountInput.reflect;
    names_case.
Qed.

(** C5, as the code has it.  [UpdateAccountMembership] sends a PATCH whose
    body is the marshalled event, in which the members account_type and
    role are present exactly when the field is not empty; the generic
    [UpdateAccount] sends a PUT whose body is the marshalled input, which
    always has the member user_id and has each of the five other kind
    identifiers exactly when the field is not nil. *)
Theorem update_payloads_follow_omitempty (c : Client)
        (membershipID accountID : UUID)
        (event : UpdateAccountMembershipEvent.t)
        (input : UpdateAccountInput.t) (st : State) :
  (exists members,
      json_tree (reflect_ValueOf event) = inl (JObject members)
      /\ (In "account_type" (map fst members)
          <-> UpdateAccountMembershipEvent.AccountType event <> "")
      /\ (In "role" (map fst members)
          <-> UpdateAccountMembershipEvent.Role event <> "")
      /\ (forall req,
             sent (snd (UpdateAccountMembership c membershipID event st))
             = (sent st ++ [req])%list ->
             Method req = "PATCH"
             /\ ReqBody req = Some (json_encode (JObject members))))
  /\ (exists members,
         json_tree (reflect_ValueOf input) = inl (JObject members)
         /\ In "user_id" (map fst members)
         /\ (In "agencyId" (map fst members)
             <-> UpdateAccountInput.AgencyID input <> None)
         /\ (In "celebrityId" (map fst members)
             <-> UpdateAccountInput.CelebrityID input <> None)
         /\ (In "businessId" (map fst members)
             <-> UpdateAccountInput.BusinessID input <> None)
         /\ (In "enterpriseId" (map fst members)
             <-> UpdateAccountInput.EnterpriseID input <> None)
         /\ (In "governmentId" (map fst members)
             <-> UpdateAccountInput.GovernmentID input <> None)
         /\ (forall req,
                sent (snd (UpdateAccount c accountID input st))
                = (sent st ++ [req])%list ->
                Method req = "PUT"
                /\ ReqBody req = Some (json_encode (JObject members)))).
Proof.
  split.
  - destruct (UpdateAccountMembershipEvent_members event)
      as (members & Htree & Htype & Hrole).
    exists members.
    split; [exact Htree|]. split; [exact Htype|]. split; [exact Hrole|].
    intros req Hsent. apply UpdateAccountMembership_sends in Hsent.
    destruct Hsent as (body & Hbody & Hmethod & Hreq).
    split; [exact Hmethod|].
    unfold json_Marshal in Hbody. rewrite Htree in Hbody.
    injection Hbody as <-. exact Hreq.
  - destruct (UpdateAccountInput_members input)
      as (members & Htree & Huser & Ha & Hc & Hb & He & Hg).
    exists members.
    repeat (split; [assumption|]).
    intros req Hsent. apply UpdateAccount_sends in Hsent.
    destruct Hsent as (body & Hbody & Hmethod & Hreq).
    split; [exact Hmethod|].
    unfold json_Marshal in Hbody. rewrite Htree in Hbody.
    injection Hbody as <-. exact Hreq.
Qed.

(** C8.  Two service accounts that differ in the secret only are
    marshalled to the same JSON: the field tagged [json:"-"] is left out of
    the object, so the bytes are equal, and so is every run of
    [UpdateServiceAccount], the one method that marshals the struct. *)
Theorem ServiceAccount_secret_is_not_marshalled (a b : ServiceAccount.t) :
  ServiceAccount.with_Secret a (ServiceAccount.Secret b) = b ->
  json_tree (reflect_ValueOf a) = json_tree (reflect_ValueOf b)
  /\ json_Marshal a = json_Marshal b
  /\ (forall c st,
         UpdateServiceAccount c (Some a) st = UpdateServiceAccount c (Some b) st).
Proof.
  intros <-.
  assert (Htree : json_tree (reflect_ValueOf a)
                  = json_tree (reflect_ValueOf
                      (ServiceAccount.with_Secret a (ServiceAccount.Secret b)))).
  { destruct a; reflexivity. }
  assert (Hbytes : json_Marshal a
                   = json_Marshal
                       (ServiceAccount.with_Secret a (ServiceAccount.Secret b))).
  { unfold json_Marshal. now rewrite Htree. }
  split; [exact Htree|]. split; [exact Hbytes|].
  intros c st. unfold UpdateServiceAccount. rewrite <- Hbytes.
  destruct a; reflexivity.
Qed.

End Payloads.

(** ** The status a delete method accepts *)

Section DeleteStatus.
Context `{GoLib}.
Context {dec_CelebrityResponse : Decodable CreateCelebrityAccountResponse.t}.

Lemma not_2xx (s : Z) : ((s <? 200) || (s >=? 300)) = negb (is_2xx s).
Proof.
  unfold is_2xx.
  destruct (Z.ltb_spec s 200), (Z.leb_spec 200 s), (Z.ltb_spec s 300),
    (Z.geb_spec s 300); simpl; try reflexivity; lia.
Qed.

Ltac read_log Hsent :=
  simpl in Hsent;
  first [ exfalso; exact (log_not_extended _ _ Hsent)
        | apply log_extended_inv in Hsent; subst ].

Ltac settle Hdo :=
  match goal with
  | E : HttpClient _ _ _ = (_, _) |- _ =>
      lazymatch E with
      | Hdo => fail
      | _ => rewrite Hdo in E; inversion E; subst; clear E
      end
  end;
  cbv beta;
  repeat match goal with
         | E : negb _ = true |- _ => apply negb_true_iff in E
         | E : negb _ = false |- _ => apply negb_false_iff in E
         end;
  unfold http_StatusOK, http_StatusNoContent in *;
  try match goal with
      | E : (_ =? _) = _ |- _ => rewrite E
      | E : is_2xx _ = _ |- _ => rewrite E
      end;
  simpl;
  first [ reflexivity
        | eexists; split; [reflexivity | simpl; auto 6] ].

(** A run that returned nil: the request it sent and the answer it got. *)
Ltac confirm_then finish :=
  simpl;
  repeat match goal with
         | E : (_ <? 200) || _ = _ |- _ => rewrite not_2xx in E
         end;
  repeat match goal with
         | E : negb _ = false |- _ => apply negb_false_iff in E
         end;
  unfold http_StatusOK, http_StatusNoContent in *;
  do 3 eexists;
  split; [reflexivity|]; split; [reflexivity|]; split; [eassumption|];
  cbv beta; finish.

Ltac confirm := confirm_then assumption.

Lemma DeleteBusinessAccount_contract c id :
  delete_contract c (DeleteBusinessAccount c id) (fun s => s =? 200) Status.
Proof.
  split.
  - intros st req resp w Hsent Hdo.
    destruct (DeleteBusinessAccount c id st) as [r st'] eqn:Erun. simpl in *.
    unfold DeleteBusinessAccount, bind, fail, ret, try, try_wrap, wrap_err,
      Do, http_NewRequest in Erun.
    repeat run_step Erun; inversion Erun; subst; read_log Hsent; settle Hdo.
  - intros st Hnil.
    destruct (DeleteBusinessAccount c id st) as [r st'] eqn:Erun. simpl in Hnil |- *.
    subst r.
    unfold DeleteBusinessAccount, bind, fail, ret, try, try_wrap, wrap_err,
      Do, http_NewRequest in Erun.
    repeat run_step Erun; inversion Erun; subst; confirm.
Qed.

Lemma DeleteEnterpriseAccount_contract c id :
  delete_contract c (DeleteEnterpriseAccount c id) (fun s => s =? 200)
                  response_body.
Proof.
  split.
  - intros st req resp w Hsent Hdo.
    destruct (DeleteEnterpriseAccount c id st) as [r st'] eqn:Erun. simpl in *.
    unfold DeleteEnterpriseAccount, bind, fail, ret, try, try_wrap, wrap_err,
      Do, http_NewRequest in Erun.
    repeat run_step Erun; inversion Erun; subst; read_log Hsent; settle Hdo.
  - intros st Hnil.
    destruct (DeleteEnterpriseAccount c id st) as [r st'] eqn:Erun. simpl in Hnil |- *.
    subst r.
    unfold DeleteEnterpriseAccount, bind, fail, ret, try, try_wrap, wrap_err,
      Do, http_NewRequest in Erun.
    repeat run_step Erun; inversion Erun; subst; confirm.
Qed.

Lemma DeleteGovernmentAccount_contract c id :
  delete_contract c (DeleteGovernmentAccount c id) (fun s => s =? 200)
                  response_body.
Proof.
  split.
  - intros st req resp w Hsent Hdo.
    destruct (DeleteGovernmentAccount c id st) as [r st'] eqn:Erun. simpl in *.
    unfold DeleteGovernmentAccount, bind, fail, ret, try, try_wrap, wrap_err,
      Do, http_NewRequest in Erun.
    repeat run_step Erun; inversion Erun; subst; read_log Hsent; settle Hdo.
  - intros st Hnil.
    destruct (DeleteGovernmentAccount c id st) as [r st'] eqn:Erun. simpl in Hnil |- *.
    subst r.
    unfold DeleteGovernmentAccount, bind, fail, ret, try, try_wrap, wrap_err,
      Do, http_NewRequest in Erun.
    repeat run_step Erun; inversion Erun; subst; confirm.
Qed.

Lemma DeletePermission_contract c id :
  delete_contract c (DeletePermission c id) (fun s => s =? 200) response_body.
Proof.
  split.
  - intros st req resp w Hsent Hdo.
    destruct (DeletePermission c id st) as [r st'] eqn:Erun. simpl in *.
    unfold DeletePermission, bind, fail, ret, try, try_wrap, wrap_err,
      Do, http_NewRequest in Erun.
    repeat run_step Erun; inversion Erun; subst; read_log Hsent; settle Hdo.
  - intros st Hnil.
    destruct (DeletePermission c id st) as [r st'] eqn:Erun. simpl in Hnil |- *.
    subst r.
    unfold DeletePermission, bind, fail, ret, try, try_wrap, wrap_err,
      Do, http_NewRequest in Erun.
    repeat run_step Erun; inversion Erun; subst; confirm.
Qed.

Lemma DeleteServiceAccount_contract c id :
  delete_contract c (DeleteServiceAccount c id) (fun s => s =? 200)
                  response_body.
Proof.
  split.
  - intros st req resp w Hsent Hdo.
    destruct (DeleteServiceAccount c id st) as [r st'] eqn:Erun. simpl in *.
    unfold DeleteServiceAccount, bind, fail, ret, try, try_wrap, wrap_err,
      Do, http_NewRequest in Erun.
    repeat run_step Erun; inversion Erun; subst; read_log Hsent; settle Hdo.
  - intros st Hnil.
    destruct (DeleteServiceAccount c id st) as [r st'] eqn:Erun. simpl in Hnil |- *.
    subst r.
    unfold DeleteServiceAccount, bind, fail, ret, try, try_wrap, wrap_err,
      Do, http_NewRequest in Erun.
    repeat run_step Erun; inversion Erun; subst; confirm.
Qed.

Lemma DeleteAccountMembership_contract c accountID userID :
  delete_contract c (DeleteAccountMembership c accountID userID)
                  (fun s => s =? 200) response_body.
Proof.
  split.
  - intros st req resp w Hsent Hdo.
    destruct (DeleteAccountMembership c accountID userID st) as [r st'] eqn:Erun.
    simpl in *.
    unfold DeleteAccountMembership, bind, fail, ret, try, try_wrap, wrap_err,
      Do, http_NewRequest in Erun.
    repeat run_step Erun; inversion Erun; subst; read_log Hsent; settle Hdo.
  - intros st Hnil.
    destruct (DeleteAccountMembership c accountID userID st) as [r st'] eqn:Erun. simpl in Hnil |- *.
    subst r.
    unfold DeleteAccountMembership, bind, fail, ret, try, try_wrap, wrap_err,
      Do, http_NewRequest in Erun.
    repeat run_step Erun; inversion Erun; subst; confirm.
Qed.

Lemma DeleteTokensByUserID_contract c userID :
  delete_contract c (DeleteTokensByUserID c userID) (fun s => s =? 200)
                  response_body.
Proof.
  split.
  - intros st req resp w Hsent Hdo.
    destruct (DeleteTokensByUserID c userID st) as [r st'] eqn:Erun. simpl in *.
    unfold DeleteTokensByUserID, bind, fail, ret, try, try_wrap, wrap_err,
      Do, http_NewRequest in Erun.
    repeat run_step Erun; inversion Erun; subst; read_log Hsent; settle Hdo.
  - intros st Hnil.
    destruct (DeleteTokensByUserID c userID st) as [r st'] eqn:Erun. simpl in Hnil |- *.
    subst r.
    unfold DeleteTokensByUserID, bind, fail, ret, try, try_wrap, wrap_err,
      Do, http_NewRequest in Erun.
    repeat run_step Erun; inversion Erun; subst; confirm.
Qed.

Lemma DeleteExpiredTokens_contract c :
  delete_contract c (DeleteExpiredTokens c) (fun s => s =? 200) response_body.
Proof.
  split.
  - intros st req resp w Hsent Hdo.
    destruct (DeleteExpiredTokens c st) as [r st'] eqn:Erun. simpl in *.
    unfold DeleteExpiredTokens, bind, fail, ret, try, try_wrap, wrap_err,
      Do, http_NewRequest in Erun.
    repeat run_step Erun; inversion Erun; subst; read_log Hsent; settle Hdo.
  - intros st Hnil.
    destruct (DeleteExpiredTokens c st) as [r st'] eqn:Erun. simpl in Hnil |- *.
    subst r.
    unfold DeleteExpiredTokens, bind, fail, ret, try, try_wrap, wrap_err,
      Do, http_NewRequest in Erun.
    repeat run_step Erun; inversion Erun; subst; confirm.
Qed.

Lemma DeleteToken_contract c userID tokenID :
  delete_contract c (DeleteToken c userID tokenID) (fun s => s =? 204)
                  response_body.
Proof.
  split.
  - intros st req resp w Hsent Hdo.
    destruct (DeleteToken c userID tokenID st) as [r st'] eqn:Erun. simpl in *.
    unfold DeleteToken, bind, fail, ret, try, try_wrap, wrap_err,
      Do, http_NewRequest in Erun.
    repeat run_step Erun; inversion Erun; subst; read_log Hsent; settle Hdo.
  - intros st Hnil.
    destruct (DeleteToken c userID tokenID st) as [r st'] eqn:Erun. simpl in Hnil |- *.
    subst r.
    unfold DeleteToken, bind, fail, ret, try, try_wrap, wrap_err,
      Do, http_NewRequest in Erun.
    repeat run_step Erun; inversion Erun; subst; confirm.
Qed.

Lemma DeleteAgencyAccount_contract c id :
  delete_contract c (DeleteAgencyAccount c id) is_2xx response_body.
Proof.
  split.
  - intros st req resp w Hsent Hdo.
    destruct (DeleteAgencyAccount c id st) as [r st'] eqn:Erun. simpl in *.
    unfold DeleteAgencyAccount, bind, fail, ret, try, try_wrap, wrap_err,
      Do, http_NewRequest in Erun.
    repeat run_step Erun; inversion Erun; subst; read_log Hsent;
      repeat match goal with
             | E : (_ <? 200) || _ = _ |- _ => rewrite not_2xx in E
             end;
      settle Hdo.
  - intros st Hnil.
    destruct (DeleteAgencyAccount c id st) as [r st'] eqn:Erun. simpl in Hnil |- *.
    subst r.
    unfold DeleteAgencyAccount, bind, fail, ret, try, try_wrap, wrap_err,
      Do, http_NewRequest in Erun.
    repeat run_step Erun; inversion Erun; subst; confirm.
Qed.

Lemma DeleteAccountLink_contract c link st req resp w :
  sent (snd (DeleteAccountLink c link st)) = (sent st ++ [req])%list ->
  HttpClient c (world st) req = (inl resp, w) ->
  if StatusCode resp =? 200 then fst (DeleteAccountLink c link st) = inl tt
  else exists e,
      fst (DeleteAccountLink c link st) = inr e
      /\ (body_err (Body resp) = None -> carries e (response_body resp)).
Proof.
  intros Hsent Hdo.
  destruct (DeleteAccountLink c link st) as [r st'] eqn:Erun. simpl in *.
  unfold DeleteAccountLink, bind, fail, ret, try, try_wrap, wrap_err,
    Do, http_NewRequest, ReadAll, response_body in Erun |- *.
  repeat run_step Erun; inversion Erun; subst; read_log Hsent;
    match goal with
    | E : HttpClient _ _ _ = (_, _) |- _ =>
        lazymatch E with
        | Hdo => fail
        | _ => rewrite Hdo in E; inversion E; subst; clear E
        end
    end;
    repeat match goal with
           | E : negb _ = true |- _ => apply negb_true_iff in E
           | E : negb _ = false |- _ => apply negb_false_iff in E
           end;
    unfold http_StatusOK in *;
    match goal with E : (_ =? _) = _ |- _ => rewrite E end;
    try reflexivity;
    eexists; (split; [reflexivity|]); simpl in *; intro Hread;
    first [ now left | congruence ].
Qed.

Lemma DeleteCelebrityAccount_contract c userID celebrityID st req resp w :
  sent (snd (DeleteCelebrityAccount c userID celebrityID st))
  = (sent st ++ [req])%list ->
  HttpClient c (world st) req = (inl resp, w) ->
  (StatusCode resp <> 200 ->
   exists e,
     fst (DeleteCelebrityAccount c userID celebrityID st) = inr e
     /\ carries e (response_body resp))
  /\ (fst (DeleteCelebrityAccount c userID celebrityID st) = inl tt
      <-> StatusCode resp = 200
          /\ exists response,
              json_Decode (Body resp) = inl response
              /\ CreateCelebrityAccountResponse.Status response = "success").
Proof.
  intros Hsent Hdo.
  destruct (DeleteCelebrityAccount c userID celebrityID st) as [r st'] eqn:Erun.
  simpl in *.
  unfold DeleteCelebrityAccount, bind, fail, ret, try, try_wrap, wrap_err,
    Do, http_NewRequest in Erun.
  repeat run_step Erun; inversion Erun; subst; read_log Hsent;
    match goal with
    | E : HttpClient _ _ _ = (_, _) |- _ =>
        lazymatch E with
        | Hdo => fail
        | _ => rewrite Hdo in E; inversion E; subst; clear E
        end
    end;
    repeat match goal with
           | E : negb _ = true |- _ => apply negb_true_iff in E
           | E : negb _ = false |- _ => apply negb_false_iff in E
           | E : (_ =? _) = true |- _ => apply Z.eqb_eq in E
           | E : (_ =? _) = false |- _ => apply Z.eqb_neq in E
           | E : (_ =? _)%string = true |- _ => apply String.eqb_eq in E
           | E : (_ =? _)%string = false |- _ => apply String.eqb_neq in E
           end;
    unfold http_StatusOK in *.
  all: split;
    [ intro Hne;
      first [ contradiction
            | eexists; split; [reflexivity | simpl; auto] ]
    | split; intro Hx; try discriminate Hx; try reflexivity ].
  all: try match goal with
           | Hx : _ /\ (exists _, _) |- _ =>
               destruct Hx as [Hok (response & Hdec & Hst)];
               first [ contradiction | congruence ]
           end.
  all: split; [assumption | eexists; split; [eassumption | assumption]].
Qed.

Lemma DeleteAccountLink_confirmed c link :
  confirmed_by c (DeleteAccountLink c link)
               (fun resp => StatusCode resp = 200).
Proof.
  intros st Hnil.
  destruct (DeleteAccountLink c link st) as [r st'] eqn:Erun.
  simpl in Hnil |- *. subst r.
  unfold DeleteAccountLink, bind, fail, ret, try, try_wrap, wrap_err,
    Do, http_NewRequest in Erun.
  repeat run_step Erun; inversion Erun; subst;
    confirm_then ltac:(apply Z.eqb_eq; assumption).
Qed.

Lemma DeleteCelebrityAccount_confirmed c userID celebrityID :
  confirmed_by c (DeleteCelebrityAccount c userID celebrityID)
    (fun resp =>
       StatusCode resp = 200
       /\ exists response,
           json_Decode (Body resp) = inl response
           /\ CreateCelebrityAccountResponse.Status response = "success").
Proof.
  intros st Hnil.
  destruct (DeleteCelebrityAccount c userID celebrityID st) as [r st'] eqn:Erun.
  simpl in Hnil |- *. subst r.
  unfold DeleteCelebrityAccount, bind, fail, ret, try, try_wrap, wrap_err,
    Do, http_NewRequest in Erun.
  repeat run_step Erun; inversion Erun; subst;
    confirm_then ltac:(split;
                       [ apply Z.eqb_eq; assumption
                       | eexists; split;
                         [ eassumption | apply String.eqb_eq; assumption ] ]).
Qed.

(** C7, as the code has it.  Every Delete method that issues one request
    succeeds on its own success status only: it returns nil when the
    answer has that status, an error on every other status, and a nil
    result always stems from one DELETE request answered with that status.
    The status must be exactly 200 for the business,
    enterprise, government, service account, permission, membership,
    account link, tokens-by-user and expired-tokens deletes (and for the
    celebrity delete, which in addition requires the decoded answer to say
    "success"), exactly 204 for [DeleteToken], and any of 200 to 299 for
    [DeleteAgencyAccount].  The error carries the response body, except
    for [DeleteBusinessAccount], whose error carries the status line, and
    for [DeleteAccountLink] when the body cannot be read.  The generic
    [DeleteAccount] reports an unexpected status with the status line. *)
Theorem delete_methods_success_status (c : Client) (id other : UUID)
        (link : AccountLinkRequest.t) :
  delete_contract c (DeleteAgencyAccount c id) is_2xx response_body
  /\ delete_contract c (DeleteBusinessAccount c id) (fun s => s =? 200) Status
  /\ delete_contract c (DeleteEnterpriseAccount c id) (fun s => s =? 200)
                     response_body
  /\ delete_contract c (DeleteGovernmentAccount c id) (fun s => s =? 200)
                     response_body
  /\ delete_contract c (DeleteServiceAccount c id) (fun s => s =? 200)
                     response_body
  /\ delete_contract c (DeletePermission c id) (fun s => s =? 200)
                     response_body
  /\ delete_contract c (DeleteAccountMembership c id other)
                     (fun s => s =? 200) response_body
  /\ delete_contract c (DeleteTokensByUserID c id) (fun s => s =? 200)
                     response_body
  /\ delete_contract c (DeleteExpiredTokens c) (fun s => s =? 200)
                     response_body
  /\ delete_contract c (DeleteToken c id other) (fun s => s =? 204)
                     response_body
  /\ (forall st req resp w,
         sent (snd (DeleteAccountLink c link st)) = (sent st ++ [req])%list ->
         HttpClient c (world st) req = (inl resp, w) ->
         if StatusCode resp =? 200
         then fst (DeleteAccountLink c link st) = inl tt
         else exists e,
             fst (DeleteAccountLink c link st) = inr e
             /\ (body_err (Body resp) = None ->
                 carries e (response_body resp)))
  /\ (forall st req resp w,
         sent (snd (DeleteCelebrityAccount c id other st))
         = (sent st ++ [req])%list ->
         HttpClient c (world st) req = (inl resp, w) ->
         (StatusCode resp <> 200 ->
          exists e,
            fst (DeleteCelebrityAccount c id other st) = inr e
            /\ carries e (response_body resp))
         /\ (fst (DeleteCelebrityAccount c id other st) = inl tt
             <-> StatusCode resp = 200
                 /\ exists response,
                     json_Decode (Body resp) = inl response
                     /\ CreateCelebrityAccountResponse.Status response
                        = "success"))
  /\ (forall st req resp w,
         DeleteAccount_request c id "user" = inl req ->
         HttpClient c (world st) req = (inl resp, w) ->
         StatusCode resp <> 200 ->
         StatusCode resp <> 404 ->
         fst (DeleteAccount c id st) = inr (unexpected_response resp)
         /\ carries (unexpected_response resp) (Status resp))
  /\ confirmed_by c (DeleteAccountLink c link)
                  (fun resp => StatusCode resp = 200)
  /\ confirmed_by c (DeleteCelebrityAccount c id other)
       (fun resp =>
          StatusCode resp = 200
          /\ exists response,
              json_Decode (Body resp) = inl response
              /\ CreateCelebrityAccountResponse.Status response = "success").
Proof.
  repeat match goal with |- _ /\ _ => split end.
  - apply DeleteAgencyAccount_contract.
  - apply DeleteBusinessAccount_contract.
  - apply DeleteEnterpriseAccount_contract.
  - apply DeleteGovernmentAccount_contract.
  - apply DeleteServiceAccount_contract.
  - apply DeletePermission_contract.
  - apply DeleteAccountMembership_contract.
  - apply DeleteTokensByUserID_contract.
  - apply DeleteExpiredTokens_contract.
  - apply DeleteToken_contract.
  - intros st req resp w. apply DeleteAccountLink_contract.
  - intros st req resp w. apply DeleteCelebrityAccount_contract.
  - intros st req resp w Hreq Hdo Hok Hnf. split.
    + unfold DeleteAccount, accountTypes.
      now rewrite (DeleteAccount_range_unexpected c id "user" _ st req resp w
                     Hreq Hdo Hok Hnf).
    + simpl. now left.
  - apply DeleteAccountLink_confirmed.
  - apply DeleteCelebrityAccount_confirmed.
Qed.

End DeleteStatus.

(* ================================================================== *)
(** * The properties at work in the scripted world *)

Lemma GetAccountType_resolves_kind_witness :
  CreateAccountInput.GetAccountType Scripted.business_and_government
  = "business"
  /\ @CreateAccount Scripted.lib Scripted.dec_Account Scripted.client
                    Scripted.no_kind (Scripted.start [] [])
     = (inr KindUndetermined, Scripted.start [] []).
Proof.
  split.
  - destruct (@GetAccountType_resolves_kind Scripted.lib Scripted.dec_Account
                Scripted.dec_Accounts Scripted.business_and_government
                Scripted.no_kind_update Scripted.no_kind_search)
      as [[(_ & _ & _ & Hfirst) _] _].
    apply (Hfirst "business" ["government"]). reflexivity.
  - destruct (@GetAccountType_resolves_kind Scripted.lib Scripted.dec_Account
                Scripted.dec_Accounts Scripted.no_kind
                Scripted.no_kind_update Scripted.no_kind_search)
      as [_ Hcallers].
    destruct (Hcallers Scripted.client 0%N (Scripted.start [] [])
                       (Build_URL "https://accounts.test" "" "") eq_refl)
      as [Hcreate _].
    apply Hcreate. reflexivity.
Defined.

Lemma DeleteAccount_first_ok_wins_witness :
  fst (DeleteAccount Routed.client 7%N Routed.start) = inl tt
  /\ map Target (sent (snd (DeleteAccount Routed.client 7%N Routed.start)))
     = ["https://accounts.test/user/00000000-0000-0000-0000-000000000007";
        "https://accounts.test/agency/00000000-0000-0000-0000-000000000007";
        "https://accounts.test/celebrity/00000000-0000-0000-0000-000000000007";
        "https://accounts.test/business/00000000-0000-0000-0000-000000000007"]
  /\ Forall2 (@delete_probe Scripted.lib Routed.base 7%N)
             ["user"; "agency"; "celebrity"; "business"]
             (sent (snd (DeleteAccount Routed.client 7%N Routed.start))).
Proof.
  destruct (@DeleteAccount_first_ok_wins Scripted.lib Routed.client 7%N
              Routed.start) as (_ & _ & Hbusiness & _).
  destruct (Hbusiness
              (Scripted.delete_request "user")
              (Scripted.delete_request "agency")
              (Scripted.delete_request "celebrity")
              (Scripted.delete_request "business")
              (Routed.response (Scripted.delete_request "user"))
              (Routed.response (Scripted.delete_request "agency"))
              (Routed.response (Scripted.delete_request "celebrity"))
              (Routed.response (Scripted.delete_request "business"))
              (world Routed.start))
    as (Hrun & Hlen & Hprobes); [reflexivity | reflexivity | reflexivity |].
  rewrite Hrun. split; [reflexivity|]. split; [reflexivity|].
  exact (proj1 (Hprobes Routed.base eq_refl)).
Defined.

Lemma DeleteAccount_unexpected_status_aborts_witness :
  fst (DeleteAccount Scripted.client 7%N Scripted.celebrity_broken)
  = inr (fmt_Errorf "unexpected response from server: %s"
                    [ArgString "500 Internal Server Error"])
  /\ length (sent (snd (DeleteAccount Scripted.client 7%N
                                      Scripted.celebrity_broken))) = 3%nat.
Proof.
  pose (reqs := map Scripted.delete_request ["user"; "agency"]).
  destruct (@DeleteAccount_unexpected_status_aborts Scripted.lib
              Scripted.client 7%N Scripted.celebrity_broken
              ["user"; "agency"] "celebrity"
              ["business"; "enterprise"; "government"]
              reqs (Scripted.answers Scripted.celebrity_broken reqs)
              (Scripted.world_after Scripted.celebrity_broken reqs)
              (Scripted.delete_request "celebrity")
              (Scripted.answer Scripted.celebrity_broken
                 (reqs ++ [Scripted.delete_request "celebrity"]) 2)
              (Scripted.world_after Scripted.celebrity_broken
                 (reqs ++ [Scripted.delete_request "celebrity"])))
    as (Hrun & _ & Hlen);
    [ reflexivity | reflexivity | reflexivity
    | repeat constructor | reflexivity | reflexivity
    | discriminate | discriminate | ].
  rewrite Hrun. split; reflexivity.
Defined.

Lemma ListAccounts_concatenates_witness :
  fst (@ListAccounts Scripted.lib Scripted.dec_AccountList Routed.client
                     Routed.start)
  = ([Scripted.account 1; Scripted.account 2; Scripted.account 3;
      Scripted.account 1; Scripted.account 2; Scripted.account 3;
      Scripted.account 3], None)
  /\ map Target
         (sent (snd (@ListAccounts Scripted.lib Scripted.dec_AccountList
                                   Routed.client Routed.start)))
     = ["https://accounts.test/user"; "https://accounts.test/agency";
        "https://accounts.test/celebrity"; "https://accounts.test/business";
        "https://accounts.test/enterprise";
        "https://accounts.test/government"].
Proof.
  pose (reqs := map Scripted.list_request accountTypes).
  destruct (@ListAccounts_concatenates Scripted.lib Scripted.dec_AccountList
              Routed.client Routed.start reqs
              (map Routed.response reqs)
              (Scripted.collected ["two"; "one"; "none"; "two"; "one"; "one"])
              (world Routed.start))
    as (Hrun & _);
    [ reflexivity | reflexivity | repeat constructor | reflexivity | ].
  rewrite Hrun. split; reflexivity.
Defined.

Lemma ListAccounts_aborts_on_first_error_witness :
  fst (@ListAccounts Scripted.lib Scripted.dec_AccountList Scripted.client
                     Scripted.third_list_fails)
  = ([], Some (fmt_Errorf "bad response from server: %s"
                          [ArgString "500 Internal Server Error"]))
  /\ length (sent (snd (@ListAccounts Scripted.lib Scripted.dec_AccountList
                                      Scripted.client
                                      Scripted.third_list_fails))) = 3%nat.
Proof.
  pose (reqs := map Scripted.list_request ["user"; "agency"]).
  destruct (@ListAccounts_aborts_on_first_error Scripted.lib
              Scripted.dec_AccountList Scripted.client
              Scripted.third_list_fails
              ["user"; "agency"] "celebrity"
              ["business"; "enterprise"; "government"]
              reqs (Scripted.answers Scripted.third_list_fails reqs)
              (Scripted.collected ["two"; "one"])
              (Scripted.world_after Scripted.third_list_fails reqs)
              (Scripted.list_request "celebrity"))
    as (_ & Hstatus & _);
    [ reflexivity | reflexivity | reflexivity
    | repeat constructor | reflexivity | reflexivity | ].
  rewrite (Hstatus
             (Scripted.answer Scripted.third_list_fails
                (reqs ++ [Scripted.list_request "celebrity"]) 2)
             (Scripted.world_after Scripted.third_list_fails
                (reqs ++ [Scripted.list_request "celebrity"]))
             eq_refl);
    [ split; reflexivity | discriminate ].
Defined.

Lemma CreateToken_validates_before_sending_witness :
  exists e,
    fst (@CreateToken Scripted.lib Scripted.dec_Token Scripted.client 1%N
                      "read" Scripted.expiry_past) = inr e
    /\ is_validation_error e
    /\ sent (snd (@CreateToken Scripted.lib Scripted.dec_Token Scripted.client
                               1%N "read" Scripted.expiry_past)) = [].
Proof.
  apply (@CreateToken_validates_before_sending Scripted.lib Scripted.dec_Token
           Scripted.client 1%N "read" Scripted.expiry_past).
  right. reflexivity.
Defined.


Lemma CreateToken_expiry_is_a_day_after_the_call_witness :
  exists jsonPayload,
    @json_Marshal Scripted.lib _ _ (CreateToken_payload 1%N "read" 1000)
    = inl jsonPayload
    /\ sent (snd (@CreateToken Scripted.lib Scripted.dec_Token Scripted.client
                               1%N "read" Scripted.expiry_now))
       = [CreateToken_request Scripted.client jsonPayload].
Proof.
  destruct (@CreateToken_expiry_is_a_day_after_the_call Scripted.lib
              Scripted.dec_Token Scripted.client 1%N "read"
              Scripted.expiry_now)
    as (_ & _ & [Hnone | Hsent] & _ & _).
  - discriminate Hnone.
  - exact Hsent.
Defined.

Lemma update_payloads_follow_omitempty_witness :
  exists req,
    sent (snd (@UpdateAccountMembership Scripted.lib
                 Scripted.dec_AccountMembership Scripted.client 1%N
                 Scripted.role_only (Scripted.start [] [Scripted.ok ""])))
    = [req]
    /\ Method req = "PATCH".
Proof.
  destruct (@update_payloads_follow_omitempty Scripted.lib
              Scripted.dec_Account Scripted.dec_AccountMembership
              Scripted.client 1%N 2%N Scripted.role_only
              Scripted.user_only_update (Scripted.start [] [Scripted.ok ""]))
    as [(members & _ & _ & _ & Hreq) _].
  eexists. split; [reflexivity|]. apply Hreq. reflexivity.
Defined.

(** C5 as stated fails on both sides: an event in which only the role is
    provided is sent with the two identifiers that were not provided (a
    [uuid.UUID] is an array of length 16, which [omitempty] never omits),
    and an account update in which only the user is set is sent without
    the five other kind identifiers. *)
Lemma update_payloads_against_the_claim :
  @json_tree Scripted.lib (reflect_ValueOf Scripted.role_only)
  = inl (JObject
           [("account_id", JString "00000000-0000-0000-0000-000000000000");
            ("user_id", JString "00000000-0000-0000-0000-000000000000");
            ("role", JString "admin")])
  /\ option_map ReqBody
       (Scripted.first_sent
          (@UpdateAccountMembership Scripted.lib
             Scripted.dec_AccountMembership Scripted.client 1%N
             Scripted.role_only (Scripted.start [] [Scripted.ok ""])))
     = Some (Some
         (@json_encode Scripted.lib
            (JObject
               [("account_id", JString "00000000-0000-0000-0000-000000000000");
                ("user_id", JString "00000000-0000-0000-0000-000000000000");
                ("role", JString "admin")])))
  /\ @json_tree Scripted.lib (reflect_ValueOf Scripted.user_only_update)
     = inl (JObject
              [("user_id", JString "00000000-0000-0000-0000-000000000005")])
  /\ option_map ReqBody
       (Scripted.first_sent
          (@UpdateAccount Scripted.lib Scripted.dec_Account Scripted.client
             2%N Scripted.user_only_update
             (Scripted.start [] [Scripted.ok ""])))
     = Some (Some
         (@json_encode Scripted.lib
            (JObject
               [("user_id",
                 JString "00000000-0000-0000-0000-000000000005")]))).
Proof. repeat split; reflexivity. Qed.

Lemma ServiceAccount_secret_is_not_marshalled_witness :
  @json_Marshal Scripted.lib _ _ (Scripted.service "first secret")
  = @json_Marshal Scripted.lib _ _ (Scripted.service "second secret").
Proof.
  apply (@ServiceAccount_secret_is_not_marshalled Scripted.lib
           (Scripted.service "first secret")
           (Scripted.service "second secret")).
  reflexivity.
Defined.

Lemma delete_methods_success_status_witness :
  fst (@DeleteToken Scripted.lib Scripted.client 1%N 2%N
         (Scripted.start [] [Scripted.reply 204 "204 No Content" ""]))
  = inl tt
  /\ (exists e,
         fst (@DeleteGovernmentAccount Scripted.lib Scripted.client 1%N
                (Scripted.start [] [Scripted.server_error])) = inr e
         /\ carries e "boom")
  /\ (exists req resp w,
         sent (snd (@DeleteEnterpriseAccount Scripted.lib Scripted.client 1%N
                      (Scripted.start [] [Scripted.ok ""]))) = [req]
         /\ Method req = "DELETE"
         /\ HttpClient Scripted.client
                       (world (Scripted.start [] [Scripted.ok ""])) req
            = (inl resp, w)
         /\ (StatusCode resp =? 200) = true).
Proof.
  destruct (@delete_methods_success_status Scripted.lib
              Scripted.dec_CelebrityResponse Scripted.client 1%N 2%N
              {| AccountLinkRequest.UserID := 1%N;
                 AccountLinkRequest.AccountType := "agency";
                 AccountLinkRequest.AccountID := 2%N |})
    as (_ & _ & Henterprise & Hgovernment & _ & _ & _ & _ & _ & Htoken & _).
  split; [|split].
  - exact (proj1 Htoken
             (Scripted.start [] [Scripted.reply 204 "204 No Content" ""])
             _ _ _ eq_refl eq_refl).
  - exact (proj1 Hgovernment (Scripted.start [] [Scripted.server_error])
             _ _ _ eq_refl eq_refl).
  - exact (proj2 Henterprise (Scripted.start [] [Scripted.ok ""]) eq_refl).
Defined.

(** C7 as stated fails for two delete methods: [DeleteAgencyAccount]
    succeeds on status 204, and the error of [DeleteBusinessAccount] on
    status 500 carries the status line and not the body. *)
Lemma delete_methods_against_the_claim :
  fst (@DeleteAgencyAccount Scripted.lib Scripted.client 7%N
         (Scripted.start [] [Scripted.reply 204 "204 No Content" ""]))
  = inl tt
  /\ fst (@DeleteBusinessAccount Scripted.lib Scripted.client 7%N
            (Scripted.start [] [Scripted.server_error]))
     = inr (fmt_Errorf "unexpected HTTP status: %s"
                       [ArgString "500 Internal Server Error"])
  /\ ~ carries (fmt_Errorf "unexpected HTTP status: %s"
                           [ArgString "500 Internal Server Error"]) "boom".
Proof.
  repeat split; try reflexivity.
  simpl. intros [E | []]. discriminate E.
Qed.

(* ================================================================== *)
(** * Further properties of the generic account service *)

Ltac log_case Hsent :=
  simpl in Hsent;
  first [ exfalso; exact (log_not_extended _ _ Hsent)
        | apply log_extended_inv in Hsent; subst ].

Section AccountServiceMore.
Context `{GoLib}.
Context {dec_Account : Decodable Account.t}.
Context {dec_AccountList : Decodable AccountList.t}.
Context {dec_Accounts : Decodable (list (option Account.t))}.

(** Whatever the world answers, the loop of [DeleteAccount] over [types]
    sends the requests of a first part of [types], in their order. *)
Lemma DeleteAccount_range_log c id :
  forall types st,
  exists n reqs,
    (n <= length types)%nat
    /\ sent (snd (DeleteAccount_range c id types st)) = (sent st ++ reqs)%list
    /\ map inl reqs = map (DeleteAccount_request c id) (firstn n types).
Proof.
  induction types as [|kind types IH]; intro st.
  - exists 0%nat, []. simpl. rewrite app_nil_r. auto.
  - simpl. unfold bind at 1. unfold try, try_wrap.
    destruct (DeleteAccount_request c id kind) as [req|err] eqn:Ereq.
    2: { exists 0%nat, []. simpl. rewrite app_nil_r. split; [lia|auto]. }
    unfold bind at 1. unfold Do.
    destruct (HttpClient c (world st) req) as [[resp|err] w] eqn:Edo.
    2: { exists 1%nat, [req]. simpl. rewrite Ereq. split; [lia|auto]. }
    destruct (StatusCode resp =? http_StatusOK).
    { exists 1%nat, [req]. simpl. rewrite Ereq. split; [lia|auto]. }
    destruct (negb (StatusCode resp =? http_StatusNotFound)).
    { exists 1%nat, [req]. simpl. rewrite Ereq. split; [lia|auto]. }
    destruct (IH {| world := w; sent := sent st ++ [req] |})
      as (n & reqs & Hn & Hlog & Hreqs).
    exists (S n), (req :: reqs). simpl. rewrite Ereq, Hlog, Hreqs. simpl.
    rewrite <- app_assoc. split; [lia|auto].
Qed.

(** Every first part of the kinds is free of repetitions. *)
Lemma firstn_accountTypes (n : nat) :
  NoDup (firstn n accountTypes)
  /\ incl (firstn n accountTypes) accountTypes.
Proof.
  unfold accountTypes.
  do 6 (destruct n as [|n];
        [ split;
          [ repeat constructor; simpl; intuition discriminate
          | intros k Hk; simpl in Hk |- *; tauto ] | ]).
  simpl. rewrite firstn_nil. split.
  - repeat constructor; simpl; intuition discriminate.
  - intros k Hk. exact Hk.
Qed.

(** The URLs of the probes of kinds without repetition are different when
    the library gives the kinds different URLs. *)
Lemma delete_probes_distinct (id : UUID) (u : URL) kinds reqs :
  distinct_endpoints u (fun k => [k; UUID_String id]) ->
  Forall2 (delete_probe u id) kinds reqs ->
  incl kinds accountTypes ->
  NoDup kinds ->
  NoDup (map Target reqs).
Proof.
  intros Hdistinct Hprobes Hincl Hnodup.
  assert (Htargets :
    map Target reqs = map (fun k => endpoint u [k; UUID_String id]) kinds).
  { clear Hincl Hnodup.
    induction Hprobes as [|k r kinds reqs (_ & Hk & _) _ IH]; simpl.
    - reflexivity.
    - now rewrite Hk, IH. }
  rewrite Htargets.
  apply NoDup_map_NoDup_ForallPairs; [|exact Hnodup].
  intros k1 k2 H1 H2 E. apply Hdistinct; auto.
Qed.

(** X1.  In every world, the requests [DeleteAccount] sends are the probes
    of the first [n] kinds of user, agency, celebrity, business,
    enterprise, government, in this order, for some [n] up to six: each is
    the DELETE of its kind's path followed by the account id, so no kind
    is probed out of order or after a kind that was skipped, and, the
    library giving different kinds different URLs, no URL is requested
    twice.  When the base URL does not parse nothing is sent. *)
Theorem DeleteAccount_probes_a_prefix_of_the_kinds (c : Client)
        (accountID : UUID) (st : State) :
  exists n reqs,
    (n <= 6)%nat
    /\ sent (snd (DeleteAccount c accountID st)) = (sent st ++ reqs)%list
    /\ length reqs = n
    /\ map inl reqs
       = map (DeleteAccount_request c accountID) (firstn n accountTypes)
    /\ (forall u,
           url_Parse (BaseURL c) = inl u ->
           Forall2 (delete_probe u accountID)
                   (firstn n ["user"; "agency"; "celebrity"; "business";
                              "enterprise"; "government"]) reqs
           /\ (distinct_endpoints u (fun k => [k; UUID_String accountID]) ->
               NoDup (map Target reqs)))
    /\ (forall err, url_Parse (BaseURL c) = inr err -> reqs = []).
Proof.
  destruct (DeleteAccount_range_log c accountID accountTypes st)
    as (n & reqs & Hn & Hlog & Hreqs).
  exists n, reqs.
  split; [exact Hn|]. split; [exact Hlog|]. split; [|split; [exact Hreqs|]].
  { apply (f_equal (@length _)) in Hreqs.
    rewrite !length_map, length_firstn in Hreqs. simpl in Hn, Hreqs. lia. }
  split.
  - intros u Hu.
    assert (Hprobes :
      Forall2 (delete_probe u accountID) (firstn n accountTypes) reqs).
    { apply (DeleteAccount_requests_probes c accountID u Hu).
      now rewrite Hreqs. }
    split; [exact Hprobes|].
    intro Hdistinct.
    destruct (firstn_accountTypes n) as [Hnodup Hincl].
    exact (delete_probes_distinct accountID u (firstn n accountTypes) reqs
             Hdistinct Hprobes Hincl Hnodup).
  - intros err Herr.
    destruct reqs as [|req reqs]; [reflexivity|].
    destruct n as [|n]; [discriminate Hreqs|].
    simpl in Hreqs. unfold DeleteAccount_request in Hreqs.
    rewrite Herr in Hreqs. discriminate Hreqs.
Qed.

(** The loop returns nil only behind an answer 200, which follows answers
    404 only. *)
Lemma DeleteAccount_range_nil c id :
  forall types st,
    fst (DeleteAccount_range c id types st) = inl tt ->
    exists reqs req resp w,
      sent (snd (DeleteAccount_range c id types st))
      = (sent st ++ reqs ++ [req])%list
      /\ Forall (fun a => exists r, a = inl r
                                    /\ StatusCode r = http_StatusNotFound)
                (fst (exchange c (world st) reqs))
      /\ HttpClient c (snd (exchange c (world st) reqs)) req = (inl resp, w)
      /\ StatusCode resp = http_StatusOK
      /\ world (snd (DeleteAccount_range c id types st)) = w.
Proof.
  induction types as [|kind types IH]; intro st.
  - simpl. discriminate.
  - simpl. unfold bind at 1 3 5. unfold try, try_wrap.
    destruct (DeleteAccount_request c id kind) as [req|err] eqn:Ereq;
      [|discriminate].
    unfold bind at 1 2 3. unfold Do.
    destruct (HttpClient c (world st) req) as [[resp|err] w] eqn:Edo;
      [|discriminate].
    destruct (StatusCode resp =? http_StatusOK) eqn:Eok.
    { intros _. exists [], req, resp, w. simpl.
      apply Z.eqb_eq in Eok. auto. }
    destruct (negb (StatusCode resp =? http_StatusNotFound)) eqn:Enf;
      [discriminate|].
    intro Hnil.
    destruct (IH {| world := w; sent := sent st ++ [req] |} Hnil)
      as (reqs & req' & resp' & w' & Hlog & Hall & Hdo & Hcode & Hw).
    exists (req :: reqs), req', resp', w'. simpl in *.
    rewrite Edo.
    destruct (exchange c w reqs) as [answers w1] eqn:Eex. simpl in *.
    rewrite Hlog, <- app_assoc. repeat split; auto.
    constructor; [|exact Hall].
    exists resp. split; [reflexivity|].
    apply negb_false_iff in Enf. now apply Z.eqb_eq.
Qed.

(** X2.  [DeleteAccount] returns nil only when the last request it sent
    was answered with status 200 and every request before it with status
    404: it never reports a deletion that no endpoint confirmed. *)
Theorem DeleteAccount_nil_means_a_200 (c : Client) (accountID : UUID)
        (st : State) :
  fst (DeleteAccount c accountID st) = inl tt ->
  exists reqs req resp w,
    sent (snd (DeleteAccount c accountID st))
    = (sent st ++ reqs ++ [req])%list
    /\ Forall (fun a => exists r, a = inl r
                                  /\ StatusCode r = http_StatusNotFound)
              (fst (exchange c (world st) reqs))
    /\ HttpClient c (snd (exchange c (world st) reqs)) req = (inl resp, w)
    /\ StatusCode resp = http_StatusOK.
Proof.
  intro Hnil.
  destruct (DeleteAccount_range_nil c accountID accountTypes st Hnil)
    as (reqs & req & resp & w & Hlog & Hall & Hdo & Hcode & _).
  exists reqs, req, resp, w. auto.
Qed.

(** X3.  When the kinds probed so far answered 404 and the transport fails
    on the next request, [DeleteAccount] returns the transport's error as
    it is and probes no further kind. *)
Theorem DeleteAccount_transport_error_aborts (c : Client) (accountID : UUID)
        (st : State) before kind rest reqs resps w1 req err w2 :
  accountTypes = (before ++ kind :: rest)%list ->
  map (DeleteAccount_request c accountID) before = map inl reqs ->
  exchange c (world st) reqs = (map inl resps, w1) ->
  Forall (fun r => StatusCode r = http_StatusNotFound) resps ->
  DeleteAccount_request c accountID kind = inl req ->
  HttpClient c w1 req = (inr err, w2) ->
  DeleteAccount c accountID st = (inr err, after st (reqs ++ [req]) w2).
Proof.
  intros Hsplit Hreqs Hex H404 Hreq Hdo.
  unfold DeleteAccount. rewrite Hsplit.
  rewrite (DeleteAccount_range_not_found c accountID (kind :: rest)
             before reqs resps w1 st Hreqs Hex H404).
  simpl. unfold bind, try, try_wrap, Do. rewrite Hreq. simpl. rewrite Hdo.
  unfold after. simpl. now rewrite <- app_assoc.
Qed.

(** One iteration of [ListAccounts] that succeeds sent one request. *)
Lemma ListAccounts_fetch_sends_one c kind st accountList st' :
  ListAccounts_fetch c kind st = (inl accountList, st') ->
  exists req, sent st' = (sent st ++ [req])%list.
Proof.
  unfold ListAccounts_fetch, bind, fail, ret, try, try_wrap, Do.
  intro Erun.
  repeat run_step Erun; inversion Erun; subst; simpl; eauto.
Qed.

Lemma ListAccounts_range_all_or_nothing c :
  forall types accounts st,
    (snd (fst (ListAccounts_range c types accounts st)) <> None ->
     fst (fst (ListAccounts_range c types accounts st)) = [])
    /\ (snd (fst (ListAccounts_range c types accounts st)) = None ->
        exists reqs,
          length reqs = length types
          /\ sent (snd (ListAccounts_range c types accounts st))
             = (sent st ++ reqs)%list).
Proof.
  induction types as [|kind types IH]; intros accounts st.
  - simpl. split; [congruence|]. intros _. exists [].
    now rewrite app_nil_r.
  - cbn [ListAccounts_range].
    destruct (ListAccounts_fetch c kind st) as [[accountList|err] st']
      eqn:Efetch.
    + destruct (IH (accounts ++ AccountList.Accounts accountList)%list st')
        as [Herr Hok].
      split; [exact Herr|]. intro Hnone.
      destruct (Hok Hnone) as (reqs & Hlen & Hlog).
      destruct (ListAccounts_fetch_sends_one c kind st accountList st' Efetch)
        as (req & Hone).
      exists (req :: reqs). simpl. rewrite Hlen, Hlog, Hone.
      now rewrite <- app_assoc.
    + simpl. split; [reflexivity|discriminate].
Qed.

(** X4.  In every world, [ListAccounts] returns all or nothing: with a
    non-nil error the slice is nil, and with a nil error exactly six
    requests were sent, one per kind. *)
Theorem ListAccounts_all_or_nothing (c : Client) (st : State) :
  (snd (fst (ListAccounts c st)) <> None -> fst (fst (ListAccounts c st)) = [])
  /\ (snd (fst (ListAccounts c st)) = None ->
      length (sent (snd (ListAccounts c st))) = (length (sent st) + 6)%nat).
Proof.
  destruct (ListAccounts_range_all_or_nothing c accountTypes [] st)
    as [Herr Hok].
  split; [exact Herr|]. intro Hnone.
  destruct (Hok Hnone) as (reqs & Hlen & Hlog).
  unfold ListAccounts. rewrite Hlog, length_app, Hlen. reflexivity.
Qed.

End AccountServiceMore.

Section AccountServiceRouting.
Context `{GoLib}.
Context {dec_Account : Decodable Account.t}.
Context {dec_Accounts : Decodable (list (option Account.t))}.

Ltac read_run Erun Hsent :=
  repeat run_step Erun; inversion Erun; subst; log_case Hsent.

Ltac same_answer Hdo :=
  match goal with
  | E : HttpClient _ _ _ = (_, _) |- _ =>
      lazymatch E with
      | Hdo => fail
      | _ => rewrite Hdo in E; inversion E; subst; clear E
      end
  end.

Ltac by_status :=
  repeat match goal with
         | E : negb _ = true |- _ => apply negb_true_iff in E
         | E : negb _ = false |- _ => apply negb_false_iff in E
         end;
  repeat match goal with
         | E : (StatusCode _ =? _) = _ |- _ => rewrite E
         | E : ReadAll _ = _ |- _ => rewrite E
         | E : json_Unmarshal _ = _ |- _ => rewrite E
         end;
  try reflexivity.

Lemma CreateAccount_contract c input :
  account_read_contract c (CreateAccount c input).
Proof.
  intros st req resp w Hsent Hdo.
  destruct (CreateAccount c input st) as [r st'] eqn:Erun. simpl in *.
  unfold CreateAccount, bind, fail, ret, try, try_wrap, Do,
    http_NewRequest in Erun.
  read_run Erun Hsent; same_answer Hdo; by_status.
Qed.

Lemma UpdateAccount_contract c id input :
  account_read_contract c (UpdateAccount c id input).
Proof.
  intros st req resp w Hsent Hdo.
  destruct (UpdateAccount c id input st) as [r st'] eqn:Erun. simpl in *.
  unfold UpdateAccount, bind, fail, ret, try, try_wrap, Do,
    http_NewRequest in Erun.
  read_run Erun Hsent; same_answer Hdo; by_status.
Qed.

Lemma SearchAccounts_contract c input :
  account_read_contract c (SearchAccounts c input).
Proof.
  intros st req resp w Hsent Hdo.
  destruct (SearchAccounts c input st) as [r st'] eqn:Erun. simpl in *.
  unfold SearchAccounts, bind, fail, ret, try, try_wrap, Do,
    http_NewRequest in Erun.
  read_run Erun Hsent; same_answer Hdo; by_status.
Qed.

Lemma VerifyAccount_contract c input :
  account_read_contract c (VerifyAccount c input).
Proof.
  intros st req resp w Hsent Hdo.
  destruct (VerifyAccount c input st) as [r st'] eqn:Erun. simpl in *.
  unfold VerifyAccount, bind, fail, ret, try, try_wrap, Do,
    http_NewRequest in Erun.
  read_run Erun Hsent; same_answer Hdo; by_status.
Qed.

Lemma GetAccountByField_contract c field value :
  account_read_contract c (GetAccountByField c field value).
Proof.
  intros st req resp w Hsent Hdo.
  destruct (GetAccountByField c field value st) as [r st'] eqn:Erun.
  simpl in *.
  unfold GetAccountByField, bind, fail, ret, try, try_wrap, Do,
    http_NewRequest in Erun.
  read_run Erun Hsent; same_answer Hdo; by_status.
Qed.

(** X5.  The five generic account methods that issue one request return
    the decoded body of an answer with status 200 and turn every other
    status, 201 Created included, into the error "bad response from
    server" with the status line; the body of such an answer is not
    read. *)
Theorem generic_account_methods_expect_200 (c : Client)
        (create : CreateAccountInput.t) (update : UpdateAccountInput.t)
        (search : SearchAccountInput.t) (verify : VerifyAccountInput.t)
        (id : UUID) (field : string) :
  account_read_contract c (CreateAccount c create)
  /\ account_read_contract c (UpdateAccount c id update)
  /\ account_read_contract c (SearchAccounts c search)
  /\ account_read_contract c (VerifyAccount c verify)
  /\ account_read_contract c (GetAccountByField c field id).
Proof.
  repeat split.
  - apply CreateAccount_contract.
  - apply UpdateAccount_contract.
  - apply SearchAccounts_contract.
  - apply VerifyAccount_contract.
  - apply GetAccountByField_contract.
Qed.

(** X6.  The request of [CreateAccount] is a POST to the path of the kind
    that [GetAccountType] resolves, and the request of [UpdateAccount] a
    PUT to that path followed by the account id; the body is the
    marshalled input.  With several identifiers populated the request goes
    to the endpoint of the first one. *)
Theorem account_writes_go_to_the_resolved_kind (c : Client)
        (create : CreateAccountInput.t) (update : UpdateAccountInput.t)
        (id : UUID) (st : State) (u : URL) (req : Request) :
  url_Parse (BaseURL c) = inl u ->
  (sent (snd (CreateAccount c create st)) = (sent st ++ [req])%list ->
   CreateAccountInput.GetAccountType create <> ""
   /\ Method req = "POST"
   /\ Target req
      = URL_String
          (set_Path u
             (path_Join [Path u; CreateAccountInput.GetAccountType create]))
   /\ exists body,
       json_Marshal create = inl body /\ ReqBody req = Some body)
  /\ (sent (snd (UpdateAccount c id update st)) = (sent st ++ [req])%list ->
      UpdateAccountInput.GetAccountType update <> ""
      /\ Method req = "PUT"
      /\ Target req
         = URL_String
             (set_Path u
                (path_Join [Path u; UpdateAccountInput.GetAccountType update;
                            UUID_String id]))
      /\ exists body,
          json_Marshal update = inl body /\ ReqBody req = Some body).
Proof.
  intro Hu. split; intro Hsent.
  - destruct (CreateAccount c create st) as [r st'] eqn:Erun. simpl in *.
    unfold CreateAccount, bind, fail, ret, try, try_wrap, Do,
      http_NewRequest in Erun.
    rewrite Hu in Erun. simpl in Erun.
    read_run Erun Hsent; simpl;
      (split; [now apply String.eqb_neq|]); repeat split; eauto.
  - destruct (UpdateAccount c id update st) as [r st'] eqn:Erun. simpl in *.
    unfold UpdateAccount, bind, fail, ret, try, try_wrap, Do,
      http_NewRequest in Erun.
    rewrite Hu in Erun. simpl in Erun.
    read_run Erun Hsent; simpl;
      (split; [now apply String.eqb_neq|]); repeat split; eauto.
Qed.

(** X7.  [SearchAccounts] puts only the user and the agency identifier in
    the query: two inputs that resolve to the same kind and agree on these
    two identifiers give the same run, so the celebrity, business,
    enterprise and government identifiers never reach the server; when
    neither the user nor the agency is set, the query is the encoding of no
    parameter at all. *)
Theorem SearchAccounts_sends_user_and_agency_only (c : Client)
        (input other : SearchAccountInput.t) (st : State) :
  (SearchAccountInput.GetAccountType input
   = SearchAccountInput.GetAccountType other ->
   SearchAccountInput.UserID input = SearchAccountInput.UserID other ->
   SearchAccountInput.AgencyID input = SearchAccountInput.AgencyID other ->
   SearchAccounts c input st = SearchAccounts c other st)
  /\ (forall u req,
         url_Parse (BaseURL c) = inl u ->
         SearchAccountInput.UserID input = None ->
         SearchAccountInput.AgencyID input = None ->
         sent (snd (SearchAccounts c input st)) = (sent st ++ [req])%list ->
         Method req = "GET"
         /\ Target req
            = URL_String
                (set_RawQuery
                   (set_Path u
                      (path_Join
                         [Path u; SearchAccountInput.GetAccountType input;
                          "search"]))
                   (Values_Encode []))).
Proof.
  split.
  - intros Hkind Huser Hagency. unfold SearchAccounts.
    now rewrite Hkind, Huser, Hagency.
  - intros u req Hu Huser Hagency Hsent.
    destruct (SearchAccounts c input st) as [r st'] eqn:Erun. simpl in *.
    unfold SearchAccounts, bind, fail, ret, try, try_wrap, Do,
      http_NewRequest in Erun.
    rewrite Hu, Huser, Hagency in Erun. simpl in Erun.
    read_run Erun Hsent; simpl; split; reflexivity.
Qed.

End AccountServiceRouting.

(* ================================================================== *)
(** * Further properties of the token methods *)

Section TokensMore.
Context `{GoLib}.
Context {dec_Token : Decodable Token.t}.

(** X8.  [Token.Validate] accepts a token exactly when the user id is not
    nil, the scope is not empty and the expiry is not before the clock
    reading; it sends nothing, reports the user id before the scope and the
    scope before the expiry, and does not read the clock when one of the
    first two tests fails. *)
Theorem Token_Validate_accepts_exactly (t : Token.t) (st : State) :
  (fst (Token_Validate t st) = inl tt
   <-> Token.UserID t <> uuid_Nil
       /\ Token.Scope t <> ""
       /\ Time_Before (Token.Expiry t) (fst (time_Now (world st))) = false)
  /\ sent (snd (Token_Validate t st)) = sent st
  /\ (Token.UserID t = uuid_Nil ->
      refused (Token_Validate t) st err_user_id_required)
  /\ (Token.UserID t <> uuid_Nil -> Token.Scope t = "" ->
      refused (Token_Validate t) st err_scope_required).
Proof.
  unfold refused, Token_Validate, bind, now, fail, ret.
  destruct (N.eqb_spec (Token.UserID t) uuid_Nil) as [Hu|Hu].
  { repeat split; try reflexivity; try discriminate; try contradiction.
    intros (Hne & _). contradiction. }
  destruct (String.eqb_spec (Token.Scope t) "") as [Hs|Hs].
  { repeat split; try reflexivity; try discriminate; try contradiction.
    intros (_ & Hne & _). contradiction. }
  destruct (time_Now (world st)) as [current w]. simpl.
  destruct (Time_Before (Token.Expiry t) current) eqn:Ebefore; simpl.
  - repeat split; try reflexivity; try discriminate; try contradiction.
    intros (_ & _ & Hfalse). discriminate.
  - repeat split; try reflexivity; try assumption; try contradiction.
Qed.

(** X9.  [CreateToken] returns a token only when its one request, the POST
    of the payload it built, was answered with status 201, and the token
    returned is the one decoded from that answer: a 200 answer is an
    error, and the payload itself is never handed back. *)
Theorem CreateToken_returns_the_decoded_answer (c : Client) (userID : UUID)
        (scope : string) (st : State) (token : Token.t) :
  fst (CreateToken c userID scope st) = inl token ->
  exists jsonPayload resp w,
    json_Marshal (CreateToken_payload userID scope (fst (time_Now (world st))))
    = inl jsonPayload
    /\ sent (snd (CreateToken c userID scope st))
       = (sent st ++ [CreateToken_request c jsonPayload])%list
    /\ HttpClient c (snd (time_Now (snd (time_Now (world st)))))
                  (CreateToken_request c jsonPayload) = (inl resp, w)
    /\ StatusCode resp = http_StatusCreated
    /\ json_Decode (Body resp) = inl token.
Proof.
  destruct (CreateToken c userID scope st) as [r st'] eqn:Erun. simpl.
  intro Hr. subst r.
  unfold CreateToken, Token_Validate, bind, now, fail, ret, try, try_wrap,
    wrap_err, Do, http_NewRequest in Erun.
  unfold CreateToken_payload, CreateToken_request.
  destruct (time_Now (world st)) as [created w1]. simpl in *.
  repeat run_step Erun; inversion Erun; subst; simpl.
  repeat match goal with
         | E : negb _ = false |- _ => apply negb_false_iff in E
         | E : (StatusCode _ =? _) = true |- _ => apply Z.eqb_eq in E
         end.
  eexists _, _, _. repeat split; try reflexivity; eassumption.
Qed.

(** X10.  The methods that validate the client first,
    [DeleteExpiredTokens] and [VerifyToken], refuse to run with an empty
    bearer token, an empty API key, an empty base URL or a base URL that is
    not a URL: they return "client validation failed" around the
    validation error and leave the state untouched; the client is valid
    exactly when none of the four holds. *)
Theorem invalid_client_is_refused (c : Client) (st : State) (token : string) :
  (Client_Validate c = inl tt
   <-> Token c <> "" /\ ApiKey c <> "" /\ BaseURL c <> ""
       /\ is_URL (BaseURL c) = true)
  /\ (forall err,
         Client_Validate c = inr err ->
         refused (DeleteExpiredTokens c) st
                 (wrapf "client validation failed: %w" err)
         /\ refused (VerifyToken c token) st
                    (wrapf "client validation failed: %w" err)).
Proof.
  split.
  - unfold Client_Validate.
    destruct (String.eqb_spec (Token c) "") as [Ht|Ht];
      destruct (String.eqb_spec (ApiKey c) "") as [Ha|Ha];
      destruct (String.eqb_spec (BaseURL c) "") as [Hb|Hb];
      destruct (is_URL (BaseURL c)) eqn:Hurl; simpl;
      split; try discriminate; try (intros (? & ? & ? & ?); congruence);
      auto.
  - intros err Herr. unfold refused, DeleteExpiredTokens, VerifyToken,
      bind, try_wrap.
    rewrite Herr. split; reflexivity.
Qed.

(** X11.  [DeleteToken] and [DeletePermission] refuse nil identifiers
    before anything else: the user id is reported before the token id, the
    state is left untouched, and a request is sent only for identifiers
    that are not nil. *)
Theorem nil_identifiers_are_refused (c : Client) (st : State)
        (userID tokenID permissionID : UUID) :
  (userID = uuid_Nil ->
   refused (DeleteToken c userID tokenID) st
           (errors_New "user ID must be non-nil UUID"))
  /\ (userID <> uuid_Nil -> tokenID = uuid_Nil ->
      refused (DeleteToken c userID tokenID) st
              (errors_New "token ID must be non-nil UUID"))
  /\ (permissionID = uuid_Nil ->
      refused (DeletePermission c permissionID) st
              (errors_New "invalid permissionID"))
  /\ (sent (snd (DeleteToken c userID tokenID st)) <> sent st ->
      userID <> uuid_Nil /\ tokenID <> uuid_Nil)
  /\ (sent (snd (DeletePermission c permissionID st)) <> sent st ->
      permissionID <> uuid_Nil).
Proof.
  unfold refused, DeleteToken, DeletePermission.
  destruct (N.eqb_spec userID uuid_Nil) as [Hu|Hu];
    destruct (N.eqb_spec tokenID uuid_Nil) as [Ht|Ht];
    destruct (N.eqb_spec permissionID uuid_Nil) as [Hp|Hp];
    repeat split; intros;
    try reflexivity; try contradiction; try assumption;
    try (exfalso; match goal with E : sent _ <> sent _ |- _ =>
                    apply E; reflexivity end).
Qed.

End TokensMore.

(* ================================================================== *)
(** * Further properties of the kind-specific files *)

Ltac unsent :=
  match goal with
  | E : sent _ <> sent _ |- _ => exfalso; apply E; reflexivity
  end.

Section ServiceAccountsMore.
Context `{GoLib}.
Context {dec_ServiceAccount : Decodable ServiceAccount.t}.
Variable strings_TrimSpace : string -> string.

(** X12.  Service accounts are validated before any request.
    [CreateServiceAccount] refuses a name that is empty after trimming and
    an empty role list; [UpdateServiceAccount] refuses a nil pointer, a nil
    id, an empty name and an empty role list, in this order.  Each leaves
    the state untouched, and a request is sent only for data that passed.
    The update compares the name as it is: a name that trims to nothing
    but is not empty is refused by the creation and passes the update.
    The empty role list is reported by the update as "at least one role
    is required for the service account". *)
Theorem service_accounts_are_validated_first (c : Client) (st : State)
        (data : ServiceAccountData.t) (sa : ServiceAccount.t) :
  (strings_TrimSpace (ServiceAccountData.ServiceName data) = "" ->
   refused (CreateServiceAccount strings_TrimSpace c data) st
           (errors_New "service name is required"))
  /\ (strings_TrimSpace (ServiceAccountData.ServiceName data) <> "" ->
      slice_len (ServiceAccountData.Roles data) = 0%nat ->
      refused (CreateServiceAccount strings_TrimSpace c data) st
              (errors_New "at least one role is required"))
  /\ (sent (snd (CreateServiceAccount strings_TrimSpace c data st)) <> sent st ->
      strings_TrimSpace (ServiceAccountData.ServiceName data) <> ""
      /\ slice_len (ServiceAccountData.Roles data) <> 0%nat)
  /\ refused (UpdateServiceAccount c None) st
             (errors_New "serviceAccount cannot be nil")
  /\ (ServiceAccount.ID sa = uuid_Nil ->
      refused (UpdateServiceAccount c (Some sa)) st
              (errors_New "service account ID is required"))
  /\ (ServiceAccount.ID sa <> uuid_Nil -> ServiceAccount.ServiceName sa = "" ->
      refused (UpdateServiceAccount c (Some sa)) st
              (errors_New "service account name is required"))
  /\ (sent (snd (UpdateServiceAccount c (Some sa) st)) <> sent st ->
      ServiceAccount.ID sa <> uuid_Nil
      /\ ServiceAccount.ServiceName sa <> ""
      /\ slice_len (ServiceAccount.Roles sa) <> 0%nat)
  /\ (forall body u,
         ServiceAccount.ID sa <> uuid_Nil ->
         ServiceAccount.ServiceName sa <> "" ->
         slice_len (ServiceAccount.Roles sa) <> 0%nat ->
         json_Marshal sa = inl body ->
         url_Parse (BaseURL c ++ "/api/service-accounts/"
                      ++ UUID_String (ServiceAccount.ID sa)) = inl u ->
         sent (snd (UpdateServiceAccount c (Some sa) st))
         = (sent st
              ++ [set_api_headers c
                    {| Method := "PUT";
                       Target := BaseURL c ++ "/api/service-accounts/"
                                   ++ UUID_String (ServiceAccount.ID sa);
                       Header := []; ReqBody := Some body |}])%list)
  /\ (ServiceAccount.ID sa <> uuid_Nil ->
      ServiceAccount.ServiceName sa <> "" ->
      slice_len (ServiceAccount.Roles sa) = 0%nat ->
      refused (UpdateServiceAccount c (Some sa)) st
              (errors_New
                 "at least one role is required for the service account")).
Proof.
  unfold refused.
  split; [|split; [|split; [|split; [|split; [|split; [|split; [|split]]]]]]].
  - intro Hname. unfold CreateServiceAccount. now rewrite Hname.
  - intros Hname Hroles. unfold CreateServiceAccount.
    apply String.eqb_neq in Hname. now rewrite Hname, Hroles.
  - unfold CreateServiceAccount.
    destruct (String.eqb_spec
                (strings_TrimSpace (ServiceAccountData.ServiceName data)) "");
      [intros; unsent|].
    destruct (Nat.eqb_spec (slice_len (ServiceAccountData.Roles data)) 0);
      [intros; unsent|].
    auto.
  - reflexivity.
  - intro Hid. unfold UpdateServiceAccount. now rewrite Hid.
  - intros Hid Hname. unfold UpdateServiceAccount.
    apply N.eqb_neq in Hid. now rewrite Hid, Hname.
  - unfold UpdateServiceAccount.
    destruct (N.eqb_spec (ServiceAccount.ID sa) uuid_Nil);
      [intros; unsent|].
    destruct (String.eqb_spec (ServiceAccount.ServiceName sa) "");
      [intros; unsent|].
    destruct (Nat.eqb_spec (slice_len (ServiceAccount.Roles sa)) 0);
      [intros; unsent|].
    auto.
  - intros body u Hid Hname Hroles Hbody Hu.
    unfold UpdateServiceAccount.
    apply N.eqb_neq in Hid. apply String.eqb_neq in Hname.
    apply Nat.eqb_neq in Hroles. rewrite Hid, Hname, Hroles.
    unfold bind, try_wrap, wrap_err, Do, http_NewRequest.
    rewrite Hbody, Hu.
    destruct (HttpClient c (world st) _) as [[res|err] w]; simpl;
      [|reflexivity].
    destruct (negb (StatusCode res =? http_StatusOK)); reflexivity.
  - intros Hid Hname Hroles. unfold UpdateServiceAccount.
    apply N.eqb_neq in Hid. apply String.eqb_neq in Hname.
    now rewrite Hid, Hname, Hroles.
Qed.

End ServiceAccountsMore.

Section PermissionsMore.
Context `{GoLib}.

(** The one request of [UpdatePermission]. *)
Lemma UpdatePermission_sends c permission st req :
  sent (snd (UpdatePermission c permission st)) = (sent st ++ [req])%list ->
  Permission.ID permission <> uuid_Nil
  /\ Permission.Name permission <> ""
  /\ Method req = "PUT"
  /\ Target req = BaseURL c ++ "/api/permissions/"
                    ++ UUID_String (Permission.ID permission)
  /\ ReqBody req
     = Some (json_encode
               (JObject
                  [("id", JString (UUID_String (Permission.ID permission)));
                   ("name", JString (Permission.Name permission));
                   ("description",
                    JString (Permission.Description permission))])).
Proof.
  destruct (UpdatePermission c permission st) as [r st'] eqn:Erun.
  simpl. intro Hsent.
  unfold UpdatePermission, Permission_Validate, bind, fail, ret, try,
    try_wrap, wrap_err, Do, http_NewRequest, json_Marshal in Erun.
  simpl in Erun.
  repeat run_step Erun; inversion Erun; subst; log_case Hsent; simpl;
    repeat match goal with
           | E : (_ =? _)%N = false |- _ => apply N.eqb_neq in E
           | E : (_ =? _)%string = false |- _ => apply String.eqb_neq in E
           end;
    repeat split; auto.
Qed.

(** X13.  [UpdatePermission] validates the permission before any request:
    a nil id is refused with "permission ID cannot be empty", then an
    empty name with "permission Name cannot be empty", the state being
    left untouched; the description is not constrained.  The request it
    sends is the PUT of the three members id, name and description to the
    path of the permission's id. *)
Theorem UpdatePermission_validates_first (c : Client)
        (permission : Permission.t) (st : State) :
  (Permission.ID permission = uuid_Nil ->
   refused (UpdatePermission c permission) st
           (fmt_Errorf "permission ID cannot be empty" []))
  /\ (Permission.ID permission <> uuid_Nil ->
      Permission.Name permission = "" ->
      refused (UpdatePermission c permission) st
              (fmt_Errorf "permission Name cannot be empty" []))
  /\ (Permission_Validate permission = inl tt
      <-> Permission.ID permission <> uuid_Nil
          /\ Permission.Name permission <> "")
  /\ (forall req,
         sent (snd (UpdatePermission c permission st))
         = (sent st ++ [req])%list ->
         Permission.ID permission <> uuid_Nil
         /\ Permission.Name permission <> ""
         /\ Method req = "PUT"
         /\ Target req = BaseURL c ++ "/api/permissions/"
                           ++ UUID_String (Permission.ID permission)
         /\ ReqBody req
            = Some (json_encode
                      (JObject
                         [("id",
                           JString (UUID_String (Permission.ID permission)));
                          ("name", JString (Permission.Name permission));
                          ("description",
                           JString (Permission.Description permission))]))).
Proof.
  split; [|split; [|split]].
  - intro Hid. unfold refused, UpdatePermission, Permission_Validate, bind,
      try, try_wrap. simpl. now rewrite Hid.
  - intros Hid Hname.
    unfold refused, UpdatePermission, Permission_Validate, bind, try,
      try_wrap. simpl.
    apply N.eqb_neq in Hid. now rewrite Hid, Hname.
  - unfold Permission_Validate.
    destruct (N.eqb_spec (Permission.ID permission) uuid_Nil);
      destruct (String.eqb_spec (Permission.Name permission) "");
      split; try discriminate; try (intros [? ?]; contradiction); auto.
  - intros req. apply UpdatePermission_sends.
Qed.

(** X14.  [DoesPermissionExist] reads the answer three ways: status 200 is
    [true], status 404 is [false] with a nil error, and every other status
    is an error that carries the status code and the body. *)
Theorem DoesPermissionExist_reads_three_ways (c : Client)
        (permissionID : UUID) (st : State) (req : Request) (resp : Response)
        (w : World) :
  sent (snd (DoesPermissionExist c permissionID st)) = (sent st ++ [req])%list ->
  HttpClient c (world st) req = (inl resp, w) ->
  fst (DoesPermissionExist c permissionID st)
  = if StatusCode resp =? 200 then inl true
    else if StatusCode resp =? 404 then inl false
         else inr (unexpected_status_code resp).
Proof.
  intros Hsent Hdo.
  destruct (DoesPermissionExist c permissionID st) as [r st'] eqn:Erun.
  simpl in *.
  unfold DoesPermissionExist, bind, fail, ret, try, try_wrap, wrap_err, Do,
    http_NewRequest in Erun.
  repeat run_step Erun; inversion Erun; subst; log_case Hsent;
    match goal with
    | E : HttpClient _ _ _ = (_, _) |- _ =>
        lazymatch E with
        | Hdo => fail
        | _ => rewrite Hdo in E; inversion E; subst; clear E
        end
    end;
    unfold http_StatusOK, http_StatusNotFound in *;
    repeat match goal with
           | E : (StatusCode _ =? _) = _ |- _ => rewrite E
           end;
    reflexivity.
Qed.

End PermissionsMore.

Section KindUpdatesMore.
Context `{GoLib}.
Context {dec_Celebrity : Decodable Celebrity.t}.

Ltac not_nil_facts :=
  repeat match goal with
         | E : (_ =? _)%N = false |- _ => apply N.eqb_neq in E
         | E : (_ =? _)%string = false |- _ => apply String.eqb_neq in E
         | E : (_ || _) = false |- _ =>
             apply orb_false_iff in E; destruct E
         end.

(** The one request of [UpdateBusinessAccount]. *)
Lemma UpdateBusinessAccount_sends c businessID newName st req :
  sent (snd (UpdateBusinessAccount c businessID newName st))
  = (sent st ++ [req])%list ->
  businessID <> uuid_Nil
  /\ newName <> ""
  /\ Target req = BaseURL c ++ "/" ++ UUID_String businessID
  /\ ReqBody req
     = Some (json_encode
               (JObject
                  [("user_id", JString (UUID_String businessID));
                   ("business_name", JString "");
                   ("new_business_name", JString newName);
                   ("business_id", JString (UUID_String businessID))])).
Proof.
  destruct (UpdateBusinessAccount c businessID newName st) as [r st'] eqn:Erun.
  simpl. intro Hsent.
  unfold UpdateBusinessAccount, UpdateBusinessAccountEvent_Validate, bind,
    fail, ret, try, try_wrap, wrap_err, Do, http_NewRequest,
    json_Marshal in Erun.
  simpl in Erun.
  repeat run_step Erun; inversion Erun; subst; log_case Hsent; simpl;
    not_nil_facts; repeat split; auto.
Qed.

(** X15.  [UpdateBusinessAccount] fills the user id of its payload with
    the business id and leaves the current name empty.  Hence a nil
    business id is refused as "userID cannot be empty", the validation can
    fail only on the user id or on the new name, never with "businessID
    cannot be empty", and every request sent carries the business id in
    both user_id and business_id together with an empty business_name. *)
Theorem UpdateBusinessAccount_takes_the_business_for_the_user (c : Client)
        (businessID : UUID) (newName : string) (st : State) :
  (businessID = uuid_Nil ->
   refused (UpdateBusinessAccount c businessID newName) st
           (errors_New "userID cannot be empty"))
  /\ (businessID <> uuid_Nil -> newName = "" ->
      refused (UpdateBusinessAccount c businessID newName) st
              (errors_New "newBusinessName cannot be empty"))
  /\ UpdateBusinessAccountEvent_Validate
       {| UpdateBusinessAccountEvent.UserID := businessID;
          UpdateBusinessAccountEvent.BusinessName := "";
          UpdateBusinessAccountEvent.NewBusinessName := newName;
          UpdateBusinessAccountEvent.BusinessID := businessID |}
     <> inr (errors_New "businessID cannot be empty")
  /\ (forall req,
         sent (snd (UpdateBusinessAccount c businessID newName st))
         = (sent st ++ [req])%list ->
         businessID <> uuid_Nil
         /\ newName <> ""
         /\ Target req = BaseURL c ++ "/" ++ UUID_String businessID
         /\ ReqBody req
            = Some (json_encode
                      (JObject
                         [("user_id", JString (UUID_String businessID));
                          ("business_name", JString "");
                          ("new_business_name", JString newName);
                          ("business_id",
                           JString (UUID_String businessID))]))).
Proof.
  split; [|split; [|split]].
  - intros ->. reflexivity.
  - intros Hid ->.
    unfold refused, UpdateBusinessAccount,
      UpdateBusinessAccountEvent_Validate, bind, try, try_wrap. simpl.
    apply N.eqb_neq in Hid. now rewrite Hid.
  - unfold UpdateBusinessAccountEvent_Validate. simpl.
    destruct (businessID =? uuid_Nil)%N; [discriminate|].
    destruct (newName =? "")%string; discriminate.
  - intro req. apply UpdateBusinessAccount_sends.
Qed.

(** X16.  The two government updates validate before any request.
    [UpdateGovernmentAccount] refuses a nil user id, then an empty name,
    then a nil government id; [UpdateMemberRoleInGovernmentAccount]
    refuses a nil user id, then a nil government id, then a nil role id.
    The state is left untouched, and a request is sent only when all
    three tests passed. *)
Theorem government_updates_validate_first (c : Client) (st : State)
        (userID governmentID : UUID) (newName : string)
        (event : UpdateMemberRoleInGovernmentAccountEvent.t) :
  (userID = uuid_Nil ->
   refused (UpdateGovernmentAccount c userID governmentID newName) st
           (fmt_Errorf "user id is required" []))
  /\ (userID <> uuid_Nil -> newName = "" ->
      refused (UpdateGovernmentAccount c userID governmentID newName) st
              (fmt_Errorf "government name is required" []))
  /\ (userID <> uuid_Nil -> newName <> "" -> governmentID = uuid_Nil ->
      refused (UpdateGovernmentAccount c userID governmentID newName) st
              (fmt_Errorf "government id is required" []))
  /\ (sent (snd (UpdateGovernmentAccount c userID governmentID newName st))
      <> sent st ->
      userID <> uuid_Nil /\ newName <> "" /\ governmentID <> uuid_Nil)
  /\ (forall err,
         UpdateMemberRoleInGovernmentAccountEvent_Validate event = inr err ->
         refused (UpdateMemberRoleInGovernmentAccount c event) st err)
  /\ (UpdateMemberRoleInGovernmentAccountEvent_Validate event = inl tt
      <-> UpdateMemberRoleInGovernmentAccountEvent.UserID event <> uuid_Nil
          /\ UpdateMemberRoleInGovernmentAccountEvent.GovernmentID event
             <> uuid_Nil
          /\ UpdateMemberRoleInGovernmentAccountEvent.NewRoleID event
             <> uuid_Nil)
  /\ (sent (snd (UpdateMemberRoleInGovernmentAccount c event st)) <> sent st ->
      UpdateMemberRoleInGovernmentAccountEvent_Validate event = inl tt)
  /\ (UpdateMemberRoleInGovernmentAccountEvent.UserID event = uuid_Nil ->
      refused (UpdateMemberRoleInGovernmentAccount c event) st
              (errors_New "user_id cannot be empty"))
  /\ (UpdateMemberRoleInGovernmentAccountEvent.UserID event <> uuid_Nil ->
      UpdateMemberRoleInGovernmentAccountEvent.GovernmentID event = uuid_Nil ->
      refused (UpdateMemberRoleInGovernmentAccount c event) st
              (errors_New "government_id cannot be empty"))
  /\ (UpdateMemberRoleInGovernmentAccountEvent.UserID event <> uuid_Nil ->
      UpdateMemberRoleInGovernmentAccountEvent.GovernmentID event
      <> uuid_Nil ->
      UpdateMemberRoleInGovernmentAccountEvent.NewRoleID event = uuid_Nil ->
      refused (UpdateMemberRoleInGovernmentAccount c event) st
              (errors_New "new_role_id cannot be empty")).
Proof.
  split; [|split; [|split; [|split; [|split; [|split;
    [|split; [|split; [|split]]]]]]]].
  - intros ->. reflexivity.
  - intros Hu ->.
    unfold refused, UpdateGovernmentAccount,
      UpdateGovernmentAccountEvent_Validate, bind, try, try_wrap. simpl.
    apply N.eqb_neq in Hu. now rewrite Hu.
  - intros Hu Hn ->.
    unfold refused, UpdateGovernmentAccount,
      UpdateGovernmentAccountEvent_Validate, bind, try, try_wrap. simpl.
    apply N.eqb_neq in Hu. apply String.eqb_neq in Hn.
    now rewrite Hu, Hn.
  - unfold UpdateGovernmentAccount, UpdateGovernmentAccountEvent_Validate,
      bind, try, try_wrap. simpl.
    destruct (N.eqb_spec userID uuid_Nil); [intros; unsent|].
    destruct (String.eqb_spec newName ""); [intros; unsent|].
    destruct (N.eqb_spec governmentID uuid_Nil); [intros; unsent|].
    auto.
  - intros err Herr.
    unfold refused, UpdateMemberRoleInGovernmentAccount, bind, try, try_wrap.
    now rewrite Herr.
  - unfold UpdateMemberRoleInGovernmentAccountEvent_Validate.
    destruct (N.eqb_spec
                (UpdateMemberRoleInGovernmentAccountEvent.UserID event)
                uuid_Nil);
      destruct (N.eqb_spec
                  (UpdateMemberRoleInGovernmentAccountEvent.GovernmentID event)
                  uuid_Nil);
      destruct (N.eqb_spec
                  (UpdateMemberRoleInGovernmentAccountEvent.NewRoleID event)
                  uuid_Nil);
      split; try discriminate; try (intros (? & ? & ?); contradiction); auto.
  - unfold UpdateMemberRoleInGovernmentAccount, bind, try, try_wrap.
    destruct (UpdateMemberRoleInGovernmentAccountEvent_Validate event)
      as [[]|err]; [reflexivity|]. intros; unsent.
  - intro Hu.
    unfold refused, UpdateMemberRoleInGovernmentAccount,
      UpdateMemberRoleInGovernmentAccountEvent_Validate, bind, try, try_wrap.
    now rewrite Hu.
  - intros Hu Hg.
    unfold refused, UpdateMemberRoleInGovernmentAccount,
      UpdateMemberRoleInGovernmentAccountEvent_Validate, bind, try, try_wrap.
    apply N.eqb_neq in Hu. now rewrite Hu, Hg.
  - intros Hu Hg Hr.
    unfold refused, UpdateMemberRoleInGovernmentAccount,
      UpdateMemberRoleInGovernmentAccountEvent_Validate, bind, try, try_wrap.
    apply N.eqb_neq in Hu. apply N.eqb_neq in Hg. now rewrite Hu, Hg, Hr.
Qed.

(** X17.  Every request of [UpdateCelebrityAccount] carries the three
    members celebrity_id, user_id and new_name: the validation has checked
    the celebrity id and the new name, and the user id is sent also when
    it is the nil UUID (its [omitempty] has no effect on an array).  The
    body of the answer is read before the status is looked at, so a body
    that cannot be read is the error whatever the status; otherwise a
    status other than 200 gives the body as the error. *)
Theorem UpdateCelebrityAccount_always_sends_three_members (c : Client)
        (event : UpdateCelebrityAccountEvent.t) (st : State) (req : Request) :
  sent (snd (UpdateCelebrityAccount c event st)) = (sent st ++ [req])%list ->
  UpdateCelebrityAccountEvent.CelebrityID event <> uuid_Nil
  /\ UpdateCelebrityAccountEvent.NewName event <> ""
  /\ ReqBody req
     = Some (json_encode
               (JObject
                  [("celebrity_id",
                    JString (UUID_String
                               (UpdateCelebrityAccountEvent.CelebrityID event)));
                   ("user_id",
                    JString (UUID_String
                               (UpdateCelebrityAccountEvent.UserID event)));
                   ("new_name",
                    JString (UpdateCelebrityAccountEvent.NewName event))]))
  /\ (forall resp w,
         HttpClient c (world st) req = (inl resp, w) ->
         fst (UpdateCelebrityAccount c event st)
         = match ReadAll (Body resp) with
           | inr err => inr err
           | inl respBody =>
               if StatusCode resp =? 200 then json_Unmarshal respBody
               else inr (errors_New respBody)
           end).
Proof.
  destruct (UpdateCelebrityAccount c event st) as [r st'] eqn:Erun.
  simpl. intro Hsent.
  unfold UpdateCelebrityAccount, UpdateCelebrityAccountEvent_Validate, bind,
    fail, ret, try, try_wrap, Do, http_NewRequest, json_Marshal in Erun.
  destruct event as [celebrityID userID [|ch newName]]; simpl in *.
  { destruct (celebrityID =? uuid_Nil)%N; inversion Erun; subst;
      exfalso; exact (log_not_extended _ _ Hsent). }
  repeat run_step Erun; inversion Erun; subst; log_case Hsent; simpl;
    not_nil_facts;
    (split; [assumption|]); (split; [discriminate|]);
    (split; [reflexivity|]);
    intros answer final Hdo;
    match goal with
    | E : HttpClient _ _ _ = (_, _) |- _ =>
        lazymatch E with
        | Hdo => fail
        | _ => rewrite Hdo in E; inversion E; subst; clear E
        end
    end;
    unfold http_StatusOK in *;
    repeat match goal with
           | E : negb _ = true |- _ => apply negb_true_iff in E
           | E : negb _ = false |- _ => apply negb_false_iff in E
           end;
    repeat match goal with
           | E : ReadAll _ = _ |- _ => rewrite E
           | E : (StatusCode _ =? _) = _ |- _ => rewrite E
           | E : json_Unmarshal _ = _ |- _ => rewrite E
           end;
    reflexivity.
Qed.

(** The one request of [UpdateEnterpriseAccount]. *)
Lemma UpdateEnterpriseAccount_sends c input st u req :
  url_Parse (BaseURL c) = inl u ->
  sent (snd (UpdateEnterpriseAccount c input st)) = (sent st ++ [req])%list ->
  UpdateEnterpriseAccountInput.UserID input <> uuid_Nil
  /\ UpdateEnterpriseAccountInput.EnterpriseID input <> uuid_Nil
  /\ UpdateEnterpriseAccountInput.UpdatedUserAccountID input <> uuid_Nil
  /\ Target req
     = URL_String
         (set_Path u
            (path_Join
               [Path u;
                path_Join
                  ["api"; "enterprise";
                   UUID_String (UpdateEnterpriseAccountInput.UserID input)]])).
Proof.
  intro Hu.
  destruct (UpdateEnterpriseAccount c input st) as [r st'] eqn:Erun.
  simpl. intro Hsent.
  unfold UpdateEnterpriseAccount, bind, fail, ret, try, try_wrap, wrap_err,
    Do, http_NewRequest in Erun.
  rewrite Hu in Erun.
  repeat run_step Erun; inversion Erun; subst; log_case Hsent; simpl;
    not_nil_facts; not_nil_facts; repeat split; auto.
Qed.

(** X18.  [UpdateEnterpriseAccount] refuses an input in which the user id,
    the enterprise id or the updated user account id is nil with "invalid
    input parameters" and leaves the state untouched; the request it sends
    addresses the path api/enterprise/ followed by the user id, not by the
    enterprise id. *)
Theorem UpdateEnterpriseAccount_addresses_the_user (c : Client)
        (input : UpdateEnterpriseAccountInput.t) (st : State) :
  (UpdateEnterpriseAccountInput.UserID input = uuid_Nil
   \/ UpdateEnterpriseAccountInput.EnterpriseID input = uuid_Nil
   \/ UpdateEnterpriseAccountInput.UpdatedUserAccountID input = uuid_Nil ->
   refused (UpdateEnterpriseAccount c input) st
           (errors_New "invalid input parameters"))
  /\ (forall u req,
         url_Parse (BaseURL c) = inl u ->
         sent (snd (UpdateEnterpriseAccount c input st))
         = (sent st ++ [req])%list ->
         UpdateEnterpriseAccountInput.UserID input <> uuid_Nil
         /\ UpdateEnterpriseAccountInput.EnterpriseID input <> uuid_Nil
         /\ UpdateEnterpriseAccountInput.UpdatedUserAccountID input
            <> uuid_Nil
         /\ Target req
            = URL_String
                (set_Path u
                   (path_Join
                      [Path u;
                       path_Join
                         ["api"; "enterprise";
                          UUID_String
                            (UpdateEnterpriseAccountInput.UserID input)]]))).
Proof.
  split.
  - intro Hnil. unfold refused, UpdateEnterpriseAccount.
    assert (Hor : (UpdateEnterpriseAccountInput.UserID input =? uuid_Nil)%N
                  || (UpdateEnterpriseAccountInput.EnterpriseID input
                      =? uuid_Nil)%N
                  || (UpdateEnterpriseAccountInput.UpdatedUserAccountID input
                      =? uuid_Nil)%N = true).
    { destruct Hnil as [E | [E | E]]; rewrite E; simpl;
        rewrite ?orb_true_r; reflexivity. }
    now rewrite Hor.
  - intros u req. apply UpdateEnterpriseAccount_sends.
Qed.

End KindUpdatesMore.

Section LinksAndMembershipsMore.
Context `{GoLib}.
Context {dec_AccountLink : Decodable AccountLink.t}.
Context {dec_Memberships : Decodable (list AccountMembership.t)}.

(** X19.  [IsUserLinkedToAccount] asks for the link of the account and
    compares its user with the given one: the request names the account id
    only, and the answer is [true] exactly when the status is 200 and the
    decoded link has the given user id; a link of another user is [false]
    with a nil error, and a status other than 200 is an error. *)
Theorem IsUserLinkedToAccount_compares_the_user (c : Client)
        (userID accountID : UUID) (st : State) (req : Request)
        (resp : Response) (w : World) :
  sent (snd (IsUserLinkedToAccount c userID accountID st))
  = (sent st ++ [req])%list ->
  HttpClient c (world st) req = (inl resp, w) ->
  Target req = BaseURL c ++ "/accountLink/" ++ UUID_String accountID
  /\ fst (IsUserLinkedToAccount c userID accountID st)
     = (if StatusCode resp =? 200
        then match json_Decode (Body resp) with
             | inl accountLink =>
                 inl (AccountLink.UserID accountLink =? userID)%N
             | inr err => inr (wrapf "failed to decode response body: %w" err)
             end
        else inr (fmt_Errorf "server responded with status code %d"
                             [ArgInt (StatusCode resp)])).
Proof.
  intros Hsent Hdo.
  destruct (IsUserLinkedToAccount c userID accountID st) as [r st'] eqn:Erun.
  simpl in *.
  unfold IsUserLinkedToAccount, bind, fail, ret, try, try_wrap, wrap_err, Do,
    http_NewRequest in Erun.
  repeat run_step Erun; inversion Erun; subst; log_case Hsent;
    match goal with
    | E : HttpClient _ _ _ = (_, _) |- _ =>
        lazymatch E with
        | Hdo => fail
        | _ => rewrite Hdo in E; inversion E; subst; clear E
        end
    end;
    (split; [reflexivity|]);
    unfold http_StatusOK in *;
    repeat match goal with
           | E : negb _ = true |- _ => apply negb_true_iff in E
           | E : negb _ = false |- _ => apply negb_false_iff in E
           end;
    repeat match goal with
           | E : (StatusCode _ =? _) = _ |- _ => rewrite E
           | E : json_Decode _ = _ |- _ => rewrite E
           | E : (_ =? _)%N = _ |- _ => rewrite E
           end;
    reflexivity.
Qed.

(** X20.  [ListAccountMemberships] does not use its user id: the run is
    the same for every user, and the request, a GET of the path
    account-memberships under the base path, does not name the user.  The
    body of the answer is read before the status is looked at. *)
Theorem ListAccountMemberships_ignores_the_user (c : Client)
        (userID other : UUID) (st : State) :
  ListAccountMemberships c userID st = ListAccountMemberships c other st
  /\ (forall u req,
         url_Parse (BaseURL c) = inl u ->
         sent (snd (ListAccountMemberships c userID st))
         = (sent st ++ [req])%list ->
         Method req = "GET"
         /\ Target req
            = URL_String
                (set_Path u (path_Join [Path u; "account-memberships"]))
         /\ forall resp w,
             HttpClient c (world st) req = (inl resp, w) ->
             fst (ListAccountMemberships c userID st)
             = match ReadAll (Body resp) with
               | inr err => inr err
               | inl body =>
                   if StatusCode resp =? 200 then json_Unmarshal body
                   else inr (fmt_Errorf "unexpected status code: %d. body: %s"
                                        [ArgInt (StatusCode resp);
                                         ArgString body])
               end).
Proof.
  split; [reflexivity|].
  intros u req Hu Hsent.
  destruct (ListAccountMemberships c userID st) as [r st'] eqn:Erun.
  simpl in *.
  unfold ListAccountMemberships, bind, fail, ret, try, try_wrap, Do,
    http_NewRequest in Erun.
  rewrite Hu in Erun. simpl in Erun.
  repeat run_step Erun; inversion Erun; subst; log_case Hsent; simpl;
    (split; [reflexivity|]); (split; [reflexivity|]);
    intros answer final Hdo;
    match goal with
    | E : HttpClient _ _ _ = (_, _) |- _ =>
        lazymatch E with
        | Hdo => fail
        | _ => rewrite Hdo in E; inversion E; subst; clear E
        end
    end;
    unfold http_StatusOK in *;
    repeat match goal with
           | E : negb _ = true |- _ => apply negb_true_iff in E
           | E : negb _ = false |- _ => apply negb_false_iff in E
           end;
    repeat match goal with
           | E : ReadAll _ = _ |- _ => rewrite E
           | E : (StatusCode _ =? _) = _ |- _ => rewrite E
           | E : json_Unmarshal _ = _ |- _ => rewrite E
           end;
    reflexivity.
Qed.

End LinksAndMembershipsMore.

(* ================================================================== *)
(** * The further properties at work in the scripted world *)

Lemma DeleteAccount_probes_a_prefix_of_the_kinds_witness :
  exists n reqs,
    (n <= 6)%nat
    /\ sent (snd (DeleteAccount Routed.client 7%N Routed.start)) = reqs
    /\ Forall2 (@delete_probe Scripted.lib Routed.base 7%N)
               (firstn n accountTypes) reqs
    /\ NoDup (map Target reqs).
Proof.
  destruct (@DeleteAccount_probes_a_prefix_of_the_kinds Scripted.lib
              Routed.client 7%N Routed.start)
    as (n & reqs & Hn & Hlog & _ & _ & Hshape & _).
  destruct (Hshape Routed.base eq_refl) as [Hprobes Hdistinct].
  exists n, reqs.
  split; [exact Hn|]. split; [exact Hlog|]. split; [exact Hprobes|].
  apply Hdistinct.
  intros k1 k2 H1 H2 E. unfold accountTypes in H1, H2. simpl in H1, H2.
  destruct H1 as [<-|[<-|[<-|[<-|[<-|[<-|[]]]]]]];
    destruct H2 as [<-|[<-|[<-|[<-|[<-|[<-|[]]]]]]];
    try reflexivity; vm_compute in E; discriminate E.
Defined.

Lemma DeleteAccount_nil_means_a_200_witness :
  exists reqs req resp w,
    sent (snd (DeleteAccount Scripted.client 7%N Scripted.business_only))
    = (sent Scripted.business_only ++ reqs ++ [req])%list
    /\ Forall (fun a => exists r, a = inl r
                                  /\ StatusCode r = http_StatusNotFound)
              (fst (exchange Scripted.client (world Scripted.business_only)
                             reqs))
    /\ HttpClient Scripted.client
                  (snd (exchange Scripted.client
                                 (world Scripted.business_only) reqs)) req
       = (inl resp, w)
    /\ StatusCode resp = http_StatusOK.
Proof.
  apply (@DeleteAccount_nil_means_a_200 Scripted.lib Scripted.client 7%N
           Scripted.business_only).
  reflexivity.
Defined.

Lemma DeleteAccount_transport_error_aborts_witness :
  fst (DeleteAccount Scripted.client 7%N ScriptedMore.connection_lost)
  = inr (lib_error "net/http" "connection refused")
  /\ length (sent (snd (DeleteAccount Scripted.client 7%N
                                      ScriptedMore.connection_lost))) = 3%nat.
Proof.
  pose (reqs := map Scripted.delete_request ["user"; "agency"]).
  rewrite (@DeleteAccount_transport_error_aborts Scripted.lib
             Scripted.client 7%N ScriptedMore.connection_lost
             ["user"; "agency"] "celebrity"
             ["business"; "enterprise"; "government"]
             reqs (Scripted.answers ScriptedMore.connection_lost reqs)
             (Scripted.world_after ScriptedMore.connection_lost reqs)
             (Scripted.delete_request "celebrity")
             (lib_error "net/http" "connection refused")
             (Scripted.world_after ScriptedMore.connection_lost reqs));
    [ split; reflexivity
    | reflexivity | reflexivity | reflexivity
    | repeat constructor | reflexivity | reflexivity ].
Defined.

Lemma ListAccounts_all_or_nothing_witness :
  fst (fst (@ListAccounts Scripted.lib Scripted.dec_AccountList
                          Scripted.client Scripted.third_list_fails)) = []
  /\ length (sent (snd (@ListAccounts Scripted.lib Scripted.dec_AccountList
                                      Scripted.client Scripted.six_lists)))
     = 6%nat.
Proof.
  split.
  - apply (@ListAccounts_all_or_nothing Scripted.lib Scripted.dec_AccountList
             Scripted.client Scripted.third_list_fails).
    discriminate.
  - apply (@ListAccounts_all_or_nothing Scripted.lib Scripted.dec_AccountList
             Scripted.client Scripted.six_lists).
    reflexivity.
Defined.

Lemma generic_account_methods_expect_200_witness :
  fst (@CreateAccount Scripted.lib Scripted.dec_Account Scripted.client
         Scripted.business_and_government
         (Scripted.start [] [ScriptedMore.created]))
  = inr (fmt_Errorf "bad response from server: %s" [ArgString "201 Created"]).
Proof.
  destruct (@generic_account_methods_expect_200 Scripted.lib
              Scripted.dec_Account Scripted.dec_Accounts Scripted.client
              Scripted.business_and_government Scripted.user_only_update
              (ScriptedMore.business_search 4%N) ScriptedMore.verify_agency
              2%N "user_id") as (Hcreate & _).
  exact (Hcreate (Scripted.start [] [ScriptedMore.created]) _ _ _
                 eq_refl eq_refl).
Defined.

Lemma account_writes_go_to_the_resolved_kind_witness :
  Target (ScriptedMore.the_request
            (@CreateAccount Scripted.lib Scripted.dec_Account Scripted.client
               Scripted.business_and_government
               (Scripted.start [] [Scripted.ok ""])))
  = "https://accounts.test/business".
Proof.
  destruct (@account_writes_go_to_the_resolved_kind Scripted.lib
              Scripted.dec_Account Scripted.client
              Scripted.business_and_government Scripted.user_only_update
              2%N (Scripted.start [] [Scripted.ok ""])
              (Build_URL "https://accounts.test" "" "")
              (ScriptedMore.the_request
                 (@CreateAccount Scripted.lib Scripted.dec_Account
                    Scripted.client Scripted.business_and_government
                    (Scripted.start [] [Scripted.ok ""])))
              eq_refl) as [Hcreate _].
  destruct (Hcreate eq_refl) as (_ & _ & Htarget & _).
  exact Htarget.
Defined.

Lemma SearchAccounts_sends_user_and_agency_only_witness :
  @SearchAccounts Scripted.lib Scripted.dec_Accounts Scripted.client
    (ScriptedMore.business_search 4%N) (Scripted.start [] [Scripted.ok ""])
  = @SearchAccounts Scripted.lib Scripted.dec_Accounts Scripted.client
      (ScriptedMore.business_search 5%N) (Scripted.start [] [Scripted.ok ""]).
Proof.
  apply (@SearchAccounts_sends_user_and_agency_only Scripted.lib
           Scripted.dec_Accounts Scripted.client
           (ScriptedMore.business_search 4%N)
           (ScriptedMore.business_search 5%N)
           (Scripted.start [] [Scripted.ok ""]));
    reflexivity.
Defined.

Lemma Token_Validate_accepts_exactly_witness :
  fst (@Token_Validate Scripted.lib (CreateToken_payload 1%N "read" 1000)
         (Scripted.start [2000] [])) = inl tt.
Proof.
  apply (@Token_Validate_accepts_exactly Scripted.lib
           (CreateToken_payload 1%N "read" 1000) (Scripted.start [2000] [])).
  repeat split; try discriminate; reflexivity.
Defined.

Lemma CreateToken_returns_the_decoded_answer_witness :
  exists jsonPayload resp w,
    @json_Marshal Scripted.lib _ _ (CreateToken_payload 1%N "read" 1000)
    = inl jsonPayload
    /\ sent (snd (@CreateToken Scripted.lib Scripted.dec_Token Scripted.client
                               1%N "read" Scripted.expiry_now))
       = [CreateToken_request Scripted.client jsonPayload]
    /\ HttpClient Scripted.client
                  (snd (time_Now (snd (time_Now
                                         (world Scripted.expiry_now)))))
                  (CreateToken_request Scripted.client jsonPayload)
       = (inl resp, w)
    /\ StatusCode resp = http_StatusCreated
    /\ @json_Decode _ Scripted.dec_Token (Body resp) = inl Scripted.token.
Proof.
  apply (@CreateToken_returns_the_decoded_answer Scripted.lib
           Scripted.dec_Token Scripted.client 1%N "read" Scripted.expiry_now
           Scripted.token).
  reflexivity.
Defined.

Lemma invalid_client_is_refused_witness :
  refused (DeleteExpiredTokens ScriptedMore.keyless) (Scripted.start [] [])
          (wrapf "client validation failed: %w"
                 (lib_error "validation" "ApiKey")).
Proof.
  destruct (@invalid_client_is_refused Scripted.lib Scripted.dec_Token
              ScriptedMore.keyless (Scripted.start [] []) "plain")
    as [_ Hrefused].
  destruct (Hrefused (lib_error "validation" "ApiKey") eq_refl) as [Hd _].
  exact Hd.
Defined.

Lemma nil_identifiers_are_refused_witness :
  refused (DeleteToken Scripted.client uuid_Nil 5%N) (Scripted.start [] [])
          (errors_New "user ID must be non-nil UUID").
Proof.
  apply (@nil_identifiers_are_refused Scripted.lib Scripted.client
           (Scripted.start [] []) uuid_Nil 5%N 6%N).
  reflexivity.
Defined.

Lemma service_accounts_are_validated_first_witness :
  refused (@CreateServiceAccount Scripted.lib ScriptedMore.dec_ServiceAccount
             ScriptedMore.trim Scripted.client ScriptedMore.blank_name)
          (Scripted.start [] [])
          (errors_New "service name is required")
  /\ length (sent (snd (UpdateServiceAccount Scripted.client
                          (Some ScriptedMore.blank_service)
                          (Scripted.start [] [Scripted.ok ""])))) = 1%nat
  /\ refused (UpdateServiceAccount Scripted.client
                (Some ScriptedMore.roleless))
             (Scripted.start [] [Scripted.ok ""])
             (errors_New
                "at least one role is required for the service account").
Proof.
  destruct (@service_accounts_are_validated_first Scripted.lib
              ScriptedMore.dec_ServiceAccount ScriptedMore.trim
              Scripted.client (Scripted.start [] [])
              ScriptedMore.blank_name ScriptedMore.blank_service)
    as (Hcreate & _).
  destruct (@service_accounts_are_validated_first Scripted.lib
              ScriptedMore.dec_ServiceAccount ScriptedMore.trim
              Scripted.client (Scripted.start [] [Scripted.ok ""])
              ScriptedMore.blank_name ScriptedMore.blank_service)
    as (_ & _ & _ & _ & _ & _ & _ & Hupdate & _).
  destruct (@service_accounts_are_validated_first Scripted.lib
              ScriptedMore.dec_ServiceAccount ScriptedMore.trim
              Scripted.client (Scripted.start [] [Scripted.ok ""])
              ScriptedMore.blank_name ScriptedMore.roleless)
    as (_ & _ & _ & _ & _ & _ & _ & _ & Hroles).
  split; [|split].
  - apply Hcreate. reflexivity.
  - erewrite Hupdate; [reflexivity | discriminate | discriminate
                      | discriminate | reflexivity | reflexivity].
  - apply Hroles; [discriminate | discriminate | reflexivity].
Defined.

Lemma UpdatePermission_validates_first_witness :
  refused (UpdatePermission Scripted.client ScriptedMore.unnamed_permission)
          (Scripted.start [] [Scripted.ok ""])
          (fmt_Errorf "permission Name cannot be empty" []).
Proof.
  apply (@UpdatePermission_validates_first Scripted.lib Scripted.client
           ScriptedMore.unnamed_permission
           (Scripted.start [] [Scripted.ok ""]));
    [discriminate | reflexivity].
Defined.

Lemma DoesPermissionExist_reads_three_ways_witness :
  fst (DoesPermissionExist Scripted.client 5%N
         (Scripted.start [] [Scripted.not_found])) = inl false.
Proof.
  exact (@DoesPermissionExist_reads_three_ways Scripted.lib Scripted.client
           5%N (Scripted.start [] [Scripted.not_found]) _ _ _
           eq_refl eq_refl).
Defined.

Lemma UpdateBusinessAccount_takes_the_business_for_the_user_witness :
  refused (UpdateBusinessAccount Scripted.client uuid_Nil "new name")
          (Scripted.start [] [Scripted.ok ""])
          (errors_New "userID cannot be empty").
Proof.
  apply (@UpdateBusinessAccount_takes_the_business_for_the_user Scripted.lib
           Scripted.client uuid_Nil "new name"
           (Scripted.start [] [Scripted.ok ""])).
  reflexivity.
Defined.

Lemma government_updates_validate_first_witness :
  refused (UpdateGovernmentAccount Scripted.client 1%N uuid_Nil "ministry")
          (Scripted.start [] [Scripted.ok ""])
          (fmt_Errorf "government id is required" [])
  /\ refused (UpdateMemberRoleInGovernmentAccount Scripted.client
                ScriptedMore.no_role)
             (Scripted.start [] [Scripted.ok ""])
             (errors_New "new_role_id cannot be empty")
  /\ refused (UpdateMemberRoleInGovernmentAccount Scripted.client
                ScriptedMore.no_identifiers)
             (Scripted.start [] [Scripted.ok ""])
             (errors_New "user_id cannot be empty").
Proof.
  destruct (@government_updates_validate_first Scripted.lib Scripted.client
              (Scripted.start [] [Scripted.ok ""]) 1%N uuid_Nil "ministry"
              ScriptedMore.no_role)
    as (_ & _ & Hid & _ & _ & _ & _ & _ & _ & Hrole).
  destruct (@government_updates_validate_first Scripted.lib Scripted.client
              (Scripted.start [] [Scripted.ok ""]) 1%N uuid_Nil "ministry"
              ScriptedMore.no_identifiers)
    as (_ & _ & _ & _ & _ & _ & _ & Huser & _).
  split; [|split].
  - apply Hid; [discriminate | discriminate | reflexivity].
  - apply Hrole; [discriminate | discriminate | reflexivity].
  - apply Huser. reflexivity.
Defined.

Lemma UpdateCelebrityAccount_always_sends_three_members_witness :
  ReqBody (ScriptedMore.the_request
             (@UpdateCelebrityAccount Scripted.lib ScriptedMore.dec_Celebrity
                Scripted.client ScriptedMore.rename_celebrity
                (Scripted.start [] [Scripted.ok ""])))
  = Some (@json_encode Scripted.lib
            (JObject
               [("celebrity_id", JString "00000000-0000-0000-0000-000000000003");
                ("user_id", JString "00000000-0000-0000-0000-000000000000");
                ("new_name", JString "stage name")])).
Proof.
  destruct (@UpdateCelebrityAccount_always_sends_three_members Scripted.lib
              ScriptedMore.dec_Celebrity Scripted.client
              ScriptedMore.rename_celebrity
              (Scripted.start [] [Scripted.ok ""])
              (ScriptedMore.the_request
                 (@UpdateCelebrityAccount Scripted.lib
                    ScriptedMore.dec_Celebrity Scripted.client
                    ScriptedMore.rename_celebrity
                    (Scripted.start [] [Scripted.ok ""])))
              eq_refl) as (_ & _ & Hbody & _).
  exact Hbody.
Defined.

Lemma UpdateEnterpriseAccount_addresses_the_user_witness :
  Target (ScriptedMore.the_request
            (UpdateEnterpriseAccount Scripted.client
               (ScriptedMore.enterprise_update 1%N 2%N)
               (Scripted.start [] [Scripted.ok ""])))
  = "https://accounts.test/api/enterprise/00000000-0000-0000-0000-000000000001"
  /\ refused (UpdateEnterpriseAccount Scripted.client
                (ScriptedMore.enterprise_update 1%N uuid_Nil))
             (Scripted.start [] [Scripted.ok ""])
             (errors_New "invalid input parameters").
Proof.
  split.
  - destruct (@UpdateEnterpriseAccount_addresses_the_user Scripted.lib
                Scripted.client (ScriptedMore.enterprise_update 1%N 2%N)
                (Scripted.start [] [Scripted.ok ""])) as [_ Hsend].
    destruct (Hsend (Build_URL "https://accounts.test" "" "")
                    (ScriptedMore.the_request
                       (UpdateEnterpriseAccount Scripted.client
                          (ScriptedMore.enterprise_update 1%N 2%N)
                          (Scripted.start [] [Scripted.ok ""])))
                    eq_refl eq_refl) as (_ & _ & _ & Htarget).
    exact Htarget.
  - apply (@UpdateEnterpriseAccount_addresses_the_user Scripted.lib
             Scripted.client (ScriptedMore.enterprise_update 1%N uuid_Nil)
             (Scripted.start [] [Scripted.ok ""])).
    right. left. reflexivity.
Defined.

Lemma IsUserLinkedToAccount_compares_the_user_witness :
  fst (@IsUserLinkedToAccount Scripted.lib ScriptedMore.dec_AccountLink
         Scripted.client 4%N 2%N (Scripted.start [] [Scripted.ok ""]))
  = inl false
  /\ fst (@IsUserLinkedToAccount Scripted.lib ScriptedMore.dec_AccountLink
            Scripted.client 3%N 2%N (Scripted.start [] [Scripted.ok ""]))
     = inl true.
Proof.
  split.
  - exact (proj2 (@IsUserLinkedToAccount_compares_the_user Scripted.lib
                    ScriptedMore.dec_AccountLink Scripted.client 4%N 2%N
                    (Scripted.start [] [Scripted.ok ""]) _ _ _
                    eq_refl eq_refl)).
  - exact (proj2 (@IsUserLinkedToAccount_compares_the_user Scripted.lib
                    ScriptedMore.dec_AccountLink Scripted.client 3%N 2%N
                    (Scripted.start [] [Scripted.ok ""]) _ _ _
                    eq_refl eq_refl)).
Defined.

Lemma ListAccountMemberships_ignores_the_user_witness :
  Target (ScriptedMore.the_request
            (@ListAccountMemberships Scripted.lib ScriptedMore.dec_Memberships
               Scripted.client 1%N (Scripted.start [] [Scripted.ok ""])))
  = "https://accounts.test/account-memberships".
Proof.
  destruct (@ListAccountMemberships_ignores_the_user Scripted.lib
              ScriptedMore.dec_Memberships Scripted.client 1%N 2%N
              (Scripted.start [] [Scripted.ok ""])) as [_ Hsend].
  destruct (Hsend (Build_URL "https://accounts.test" "" "")
                  (ScriptedMore.the_request
                     (@ListAccountMemberships Scripted.lib
                        ScriptedMore.dec_Memberships Scripted.client 1%N
                        (Scripted.start [] [Scripted.ok ""])))
                  eq_refl eq_refl) as (_ & Htarget & _).
  exact Htarget.
Defined.
